(** * octets: a shallow embedding of [octets.py]

    [octets.py] defines one class, [octets], a wrapper around a Python
    [bytes] object.  The class body is version-conditional; this
    development embeds the [six.PY3] branch, with the module-level flag
    [_LESS_THAN_PY35] kept as a boolean parameter of [octets.__mod__].
    Of the [six.PY2] branch, indexing and iteration are embedded in
    [octets_py2], to be compared with their Python 3 counterparts.

    The class is a thin layer over host primitives ([str], [str.encode],
    [bytes.__getitem__], [bytes.__mod__], [str.__mod__], [re.sub]).  Those
    primitives are modelled in the first half of the file, each as an
    executable function on a fragment of its domain; outside the fragment a
    model answers [Unmodelled], never a made-up value.  What depends on
    the host at hand is a parameter: the printing of [float] and
    [Decimal], and the limit on the digits of an integer converted to a
    decimal string. *)

From Stdlib Require Import ZArith NArith List Bool Lia.
From Stdlib Require Import Strings.String Strings.Ascii Strings.Byte.
From Stdlib Require Import DecimalZ.
Import ListNotations.

Local Open Scope Z_scope.

Set Warnings "-register-all".

(** ** Outcomes of a Python call *)

(** The exception classes raised by the embedded code and by the host
    primitives it calls. *)
Inductive exc : Type :=
| TypeError
| ValueError
| IndexError
| KeyError
| OverflowError
| LookupError
| UnicodeEncodeError
| StopIteration.

(** A call returns a value, raises, or leaves the modelled fragment. *)
Inductive outcome (A : Type) : Type :=
| Return (a : A)
| Raise (e : exc)
| Unmodelled.

Arguments Return {A} a.
Arguments Raise {A} e.
Arguments Unmodelled {A}.

Definition bind {A B : Type} (m : outcome A) (k : A -> outcome B) : outcome B :=
  match m with
  | Return a => k a
  | Raise e => Raise e
  | Unmodelled => Unmodelled
  end.

Notation "x <- m ;; k" := (bind m (fun x => k))
  (at level 61, m at next level, right associativity).

Fixpoint mapM {A B : Type} (f : A -> outcome B) (l : list A) : outcome (list B) :=
  match l with
  | [] => Return []
  | a :: l' => b <- f a ;; bs <- mapM f l' ;; Return (b :: bs)
  end.

(** ** Python values *)

(** Text is a sequence of Unicode code points, bytes a sequence of octets. *)
Definition text : Type := list N.
Definition bytestr : Type := list byte.

(** The exponent field of a [decimal.Decimal]: finite, or one of the
    three special values. *)
Inductive dec_exp : Type :=
| DecFinite (e : Z)
| DecInf
| DecNaN
| DecSNaN.

(** The values that reach the class: its constructor argument, its index
    keys and its interpolation arguments.  [PyFloat] carries the IEEE-754
    binary64 bit pattern, [PyDecimal] the sign, coefficient and exponent of
    [Decimal.as_tuple], [PyObject] is a plain [object()]. *)
Inductive pyobj : Type :=
| PyNone
| PyBool (b : bool)
| PyInt (z : Z)
| PyFloat (bits : Z)
| PyDecimal (sign : bool) (coeff : N) (e : dec_exp)
| PyStr (s : text)
| PyBytes (b : bytestr)
| PyTuple (l : list pyobj)
| PyList (l : list pyobj)
| PyDict (items : list (pyobj * pyobj))
| PySlice (start stop step : pyobj)
| PyObject.

(** [isinstance(o, int)]: [bool] is a subclass of [int]. *)
Definition int_value (o : pyobj) : option Z :=
  match o with
  | PyInt z => Some z
  | PyBool b => Some (Z.b2z b)
  | _ => None
  end.

(** [isinstance(object, _numeric_types)] with
    [_numeric_types = six.integer_types + (float, decimal.Decimal)]. *)
Definition is_numeric (o : pyobj) : bool :=
  match o with
  | PyBool _ | PyInt _ | PyFloat _ | PyDecimal _ _ _ => true
  | _ => false
  end.

(** Truth value of an object, as tested by [if errors:]. *)
Definition truthy (o : pyobj) : bool :=
  match o with
  | PyNone => false
  | PyBool b => b
  | PyInt z => negb (z =? 0)
  | PyFloat bits => negb (Z.land bits (2 ^ 63 - 1) =? 0)
  | PyDecimal _ coeff e =>
      match e with
      | DecFinite _ => negb (coeff =? 0)%N
      | _ => true
      end
  | PyStr s => negb (Nat.eqb (List.length s) 0)
  | PyBytes b => negb (Nat.eqb (List.length b) 0)
  | PyTuple l | PyList l => negb (Nat.eqb (List.length l) 0)
  | PyDict items => negb (Nat.eqb (List.length items) 0)
  | PySlice _ _ _ => true
  | PyObject => true
  end.

(** ** Bytes and text literals *)

Definition byte_of_N (n : N) : byte :=
  match Byte.of_N (n mod 256) with
  | Some b => b
  | None => x00
  end.

(** A [bytes] literal and a text literal (code points below 256) written
    as a Rocq string. *)
Definition B (s : string) : bytestr := list_byte_of_string s.
Definition T (s : string) : text := map Byte.to_N (list_byte_of_string s).

(** ** [str] of a number *)

Fixpoint uint_digits (d : Decimal.uint) : text :=
  match d with
  | Decimal.Nil => []
  | Decimal.D0 d => 48%N :: uint_digits d
  | Decimal.D1 d => 49%N :: uint_digits d
  | Decimal.D2 d => 50%N :: uint_digits d
  | Decimal.D3 d => 51%N :: uint_digits d
  | Decimal.D4 d => 52%N :: uint_digits d
  | Decimal.D5 d => 53%N :: uint_digits d
  | Decimal.D6 d => 54%N :: uint_digits d
  | Decimal.D7 d => 55%N :: uint_digits d
  | Decimal.D8 d => 56%N :: uint_digits d
  | Decimal.D9 d => 57%N :: uint_digits d
  end.

(** The decimal string of an integer: an optional minus sign and the
    base-10 digits. *)
Definition int_str (z : Z) : text :=
  match Z.to_int z with
  | Decimal.Pos d => uint_digits d
  | Decimal.Neg d => 45%N :: uint_digits d
  end.

(** The inverse reading, [int(s)] on a sign and digits, used to state what
    [int_str] produces. *)
Fixpoint digits_uint (s : text) : option Decimal.uint :=
  match s with
  | [] => Some Decimal.Nil
  | c :: s' =>
      match digits_uint s' with
      | None => None
      | Some d =>
          if (c =? 48)%N then Some (Decimal.D0 d)
          else if (c =? 49)%N then Some (Decimal.D1 d)
          else if (c =? 50)%N then Some (Decimal.D2 d)
          else if (c =? 51)%N then Some (Decimal.D3 d)
          else if (c =? 52)%N then Some (Decimal.D4 d)
          else if (c =? 53)%N then Some (Decimal.D5 d)
          else if (c =? 54)%N then Some (Decimal.D6 d)
          else if (c =? 55)%N then Some (Decimal.D7 d)
          else if (c =? 56)%N then Some (Decimal.D8 d)
          else if (c =? 57)%N then Some (Decimal.D9 d)
          else None
      end
  end.

Definition int_of_text (s : text) : option Z :=
  match s with
  | [] => None
  | c :: s' =>
      if (c =? 45)%N
      then match s' with
           | [] => None
           | _ => option_map (fun d => Z.of_int (Decimal.Neg d)) (digits_uint s')
           end
      else option_map (fun d => Z.of_int (Decimal.Pos d)) (digits_uint s)
  end.

(** The number of base-10 digits of an integer, its sign left out. *)
Definition int_digits (z : Z) : N :=
  N.of_nat (List.length (int_str (Z.abs z))).

(** Whether the conversion of [z] to a decimal string is refused under
    the limit [limit] ([0]: no limit).  The host looks at the limit only
    for a string, sign included, of more than 640 characters
    ([sys.int_info.str_digits_check_threshold]), and then refuses an
    integer of more digits than the limit. *)
Definition exceeds_max_str_digits (limit : N) (z : Z) : bool :=
  (640 <? N.of_nat (List.length (int_str z)))%N
  && (0 <? limit)%N && (limit <? int_digits z)%N.

Section HostStr.

(** The limit on the number of digits of an integer converted to or from
    a decimal string, [sys.get_int_max_str_digits()]: [0] where there is
    no limit, as before Python 3.11, else a number the host has checked to
    be [640] or more ([4300] unless set otherwise). *)
Variable int_max_str_digits : N.

(** [str] of a [float] and of a [Decimal] are the host's float printing
    and [Decimal.__str__]; both are left as parameters. *)
Variable float_str : Z -> text.
Variable decimal_str : bool -> N -> dec_exp -> text.

(** [str(z)] and [repr(z)] for an [int], as the host computes them: an
    integer of too many digits is refused with [ValueError]. *)
Definition int_to_str (z : Z) : outcome text :=
  if exceeds_max_str_digits int_max_str_digits z
  then Raise ValueError
  else Return (int_str z).

(** [str(object)] on the numeric types. *)
Definition py_str (o : pyobj) : outcome text :=
  match o with
  | PyBool true => Return (T "True")
  | PyBool false => Return (T "False")
  | PyInt z => int_to_str z
  | PyFloat bits => Return (float_str bits)
  | PyDecimal s c e => Return (decimal_str s c e)
  | _ => Unmodelled
  end.

End HostStr.

(** ** [str.encode] *)

Fixpoint text_eqb (s t : text) : bool :=
  match s, t with
  | [], [] => true
  | c :: s', d :: t' => (c =? d)%N && text_eqb s' t'
  | _, _ => false
  end.

(** The codecs of the fragment. *)
Inductive codec : Type :=
| Ascii
| Latin1
| Utf8
| Utf16BE.

(** The spellings under which the fragment knows its codecs; the host
    registry knows more names and more codecs. *)
Definition codec_names : list (text * codec) :=
  [ (T "ascii", Ascii); (T "us-ascii", Ascii);
    (T "latin-1", Latin1); (T "latin1", Latin1); (T "iso-8859-1", Latin1);
    (T "utf-8", Utf8); (T "utf8", Utf8);
    (T "utf-16be", Utf16BE); (T "utf-16-be", Utf16BE) ].

Fixpoint assoc_text {A : Type} (name : text) (l : list (text * A)) : option A :=
  match l with
  | [] => None
  | (n, a) :: l' => if text_eqb name n then Some a else assoc_text name l'
  end.

Definition lookup_codec (name : text) : option codec :=
  assoc_text name codec_names.

Definition is_surrogate (c : N) : bool :=
  ((55296 <=? c) && (c <=? 57343))%N.

(** Whether the codec has an encoding for the code point. *)
Definition encodable (cd : codec) (c : N) : bool :=
  match cd with
  | Ascii => (c <? 128)%N
  | Latin1 => (c <? 256)%N
  | Utf8 | Utf16BE => negb (is_surrogate c) && (c <? 1114112)%N
  end.

Definition utf8_char (c : N) : bytestr :=
  if (c <? 128)%N then [byte_of_N c]
  else if (c <? 2048)%N then
    [byte_of_N (192 + c / 64); byte_of_N (128 + c mod 64)]
  else if (c <? 65536)%N then
    [byte_of_N (224 + c / 4096); byte_of_N (128 + (c / 64) mod 64);
     byte_of_N (128 + c mod 64)]
  else
    [byte_of_N (240 + c / 262144); byte_of_N (128 + (c / 4096) mod 64);
     byte_of_N (128 + (c / 64) mod 64); byte_of_N (128 + c mod 64)].

Definition utf16be_unit (u : N) : bytestr :=
  [byte_of_N (u / 256); byte_of_N (u mod 256)].

Definition utf16be_char (c : N) : bytestr :=
  if (c <? 65536)%N then utf16be_unit c
  else utf16be_unit (55296 + (c - 65536) / 1024)
       ++ utf16be_unit (56320 + (c - 65536) mod 1024).

(** The bytes of one encodable code point. *)
Definition encode_char (cd : codec) (c : N) : bytestr :=
  match cd with
  | Ascii | Latin1 => [byte_of_N c]
  | Utf8 => utf8_char c
  | Utf16BE => utf16be_char c
  end.

(** The error handlers of the fragment. *)
Inductive handler : Type :=
| Strict
| Ignore
| Replace
| BackslashReplace
| XmlCharRefReplace.

Definition handler_names : list (text * handler) :=
  [ (T "strict", Strict); (T "ignore", Ignore); (T "replace", Replace);
    (T "backslashreplace", BackslashReplace);
    (T "xmlcharrefreplace", XmlCharRefReplace) ].

Definition hex_digit (n : N) : N :=
  if (n <? 10)%N then (48 + n)%N else (87 + n)%N.

(** [width] lower-case hexadecimal digits of [c], most significant first. *)
Fixpoint hex_fixed (width : nat) (c : N) : text :=
  match width with
  | O => []
  | S w => hex_fixed w (c / 16) ++ [hex_digit (c mod 16)]
  end.

(** What a handler other than [Strict] substitutes for an unencodable
    code point, as text. *)
Definition replacement (h : handler) (c : N) : text :=
  match h with
  | Strict | Ignore => []
  | Replace => T "?"
  | BackslashReplace =>
      if (c <? 256)%N then T "\x" ++ hex_fixed 2 c
      else if (c <? 65536)%N then T "\u" ++ hex_fixed 4 c
      else T "\U" ++ hex_fixed 8 c
  | XmlCharRefReplace => T "&#" ++ int_str (Z.of_N c) ++ T ";"
  end.

(** Encoding proper: the code points in order; at the first unencodable
    one the handler named [h] decides.  A handler is looked up only when
    it is needed. *)
Fixpoint encode_with (cd : codec) (h : text) (s : text) : outcome bytestr :=
  match s with
  | [] => Return []
  | c :: s' =>
      if encodable cd c then
        rest <- encode_with cd h s' ;; Return (encode_char cd c ++ rest)
      else
        match assoc_text h handler_names with
        | None => Unmodelled
        | Some Strict => Raise UnicodeEncodeError
        | Some hd =>
            rest <- encode_with cd h s' ;;
            Return (flat_map (encode_char cd) (replacement hd c) ++ rest)
        end
  end.

(** A [str] argument that the host takes as a C string: text with a
    surrogate has no UTF-8 form, and text with a NUL character is
    refused. *)
Definition c_string (h : text) : outcome text :=
  if existsb is_surrogate h then Raise UnicodeEncodeError
  else if existsb (N.eqb 0) h then Raise ValueError
  else Return h.

(** [s.encode(encoding)] and [s.encode(encoding, errors)]: the
    arguments are read in order, each must be [str] and is taken as a C
    string, before the codec is looked up and anything is encoded; the
    default handler is ["strict"]. *)
Definition str_encode (s : text) (encoding : pyobj) (errors : option pyobj)
  : outcome bytestr :=
  match encoding with
  | PyStr name =>
      name' <- c_string name ;;
      match errors with
      | None =>
          match lookup_codec name' with
          | Some cd => encode_with cd (T "strict") s
          | None => Unmodelled
          end
      | Some (PyStr h) =>
          h' <- c_string h ;;
          match lookup_codec name' with
          | Some cd => encode_with cd h' s
          | None => Unmodelled
          end
      | Some _ => Raise TypeError
      end
  | _ => Raise TypeError
  end.

(** ** Indexing and slicing a sequence *)

(** Position of item [i] in a sequence of length [len]: a negative index
    counts from the end; outside the sequence the access raises. *)
Definition sequence_index (len i : Z) : outcome Z :=
  let j := if i <? 0 then i + len else i in
  if (j <? 0) || (len <=? j) then Raise IndexError else Return j.

(** A field of a slice object: [None], or an integer. *)
Definition slice_bound (o : pyobj) : outcome (option Z) :=
  match o with
  | PyNone => Return None
  | _ =>
      match int_value o with
      | Some z => Return (Some z)
      | None => Raise TypeError
      end
  end.

(** One bound of a slice brought into the sequence: a negative bound has
    the length added once, and the result is clipped to
    [lower .. upper]. *)
Definition clip_bound (len lower upper dflt : Z) (o : option Z) : Z :=
  match o with
  | None => dflt
  | Some z => if z <? 0 then Z.max (z + len) lower else Z.min z upper
  end.

(** [slice(start, stop, step).indices(len)]: the step is read first and
    may not be zero. *)
Definition slice_indices (start stop step : pyobj) (len : Z)
  : outcome (Z * Z * Z) :=
  st <- slice_bound step ;;
  let step := match st with Some z => z | None => 1 end in
  if step =? 0 then Raise ValueError
  else
    lo <- slice_bound start ;;
    hi <- slice_bound stop ;;
    let lower := if step <? 0 then -1 else 0 in
    let upper := if step <? 0 then len - 1 else len in
    Return (clip_bound len lower upper (if step <? 0 then upper else lower) lo,
            clip_bound len lower upper (if step <? 0 then lower else upper) hi,
            step).

(** Number of items the adjusted slice selects. *)
Definition slice_length (start stop step : Z) : Z :=
  if step <? 0
  then (if stop <? start then (start - stop - 1) / (- step) + 1 else 0)
  else (if start <? stop then (stop - start - 1) / step + 1 else 0).

(** The copying loop: [n] items, from position [cur], [step] apart. *)
Fixpoint take_stride {A : Type} (l : list A) (cur step : Z) (n : nat) : list A :=
  match n with
  | O => []
  | S n' =>
      match nth_error l (Z.to_nat cur) with
      | Some x => x :: take_stride l (cur + step) step n'
      | None => []
      end
  end.

(** [l[start:stop:step]] on any sequence type. *)
Definition sequence_slice {A : Type} (l : list A) (start stop step : pyobj)
  : outcome (list A) :=
  ix <- slice_indices start stop step (Z.of_nat (List.length l)) ;;
  let '(lo, hi, st) := ix in
  Return (take_stride l lo st (Z.to_nat (slice_length lo hi st))).

(** [bytes.__getitem__]: an integer key selects a byte value, a slice key
    a [bytes] object; any other key is refused. *)
Definition bytes_getitem (b : bytestr) (key : pyobj) : outcome pyobj :=
  match key with
  | PySlice start stop step =>
      r <- sequence_slice b start stop step ;; Return (PyBytes r)
  | _ =>
      match int_value key with
      | Some i =>
          j <- sequence_index (Z.of_nat (List.length b)) i ;;
          match nth_error b (Z.to_nat j) with
          | Some x => Return (PyInt (Z.of_N (Byte.to_N x)))
          | None => Raise IndexError
          end
      | None => Raise TypeError
      end
  end.

(** [str.__getitem__] with a slice key. *)
Definition str_getslice (s : text) (start stop step : pyobj) : outcome text :=
  sequence_slice s start stop step.

(** ** The [charmap] codec without a mapping table *)

(** [b.decode('charmap')]: byte [n] becomes code point [n]. *)
Definition charmap_decode (b : bytestr) : text := map Byte.to_N b.

(** [s.encode('charmap')]: code point [n] below 256 becomes byte [n]; any
    other code point is an encoding error. *)
Fixpoint charmap_encode (s : text) : outcome bytestr :=
  match s with
  | [] => Return []
  | c :: s' =>
      if (c <? 256)%N then
        rest <- charmap_encode s' ;; Return (byte_of_N c :: rest)
      else Raise UnicodeEncodeError
  end.

(** ** Percent formatting *)

(** The arguments still to be consumed: the items of a tuple from a
    position on, or one single object, taken or not. *)
Inductive argstate : Type :=
| ArgTuple (l : list pyobj) (argidx : nat)
| ArgSingle (v : pyobj) (taken : bool).

Definition initial_args (args : pyobj) : argstate :=
  match args with
  | PyTuple l => ArgTuple l 0
  | _ => ArgSingle args false
  end.

(** The next argument; none left is "not enough arguments for format
    string". *)
Definition getnextarg (st : argstate) : outcome (pyobj * argstate) :=
  match st with
  | ArgTuple l i =>
      match nth_error l i with
      | Some v => Return (v, ArgTuple l (S i))
      | None => Raise TypeError
      end
  | ArgSingle v false => Return (v, ArgSingle v true)
  | ArgSingle v true => Raise TypeError
  end.

(** Whether an argument is left over. *)
Definition args_left (st : argstate) : bool :=
  match st with
  | ArgTuple l i => Nat.ltb i (List.length l)
  | ArgSingle _ taken => negb taken
  end.

(** The state of a tuple that holds a single argument alone, at the
    same point of consumption. *)
Definition tuple_state (st : argstate) : argstate :=
  match st with
  | ArgSingle v taken => ArgTuple [v] (if taken then 1 else 0)
  | ArgTuple _ _ => st
  end.

(** Keys as a mapping compares them: a [bytes] or [str] key equals only
    a key of its own type with the same content. *)
Definition key_matches (k k' : pyobj) : bool :=
  match k, k' with
  | PyBytes a, PyBytes b => if list_eq_dec Byte.byte_eq_dec a b then true else false
  | PyStr a, PyStr b => text_eqb a b
  | _, _ => false
  end.

Fixpoint dict_lookup (k : pyobj) (items : list (pyobj * pyobj)) : option pyobj :=
  match items with
  | [] => None
  | (k', v) :: items' => if key_matches k k' then Some v else dict_lookup k items'
  end.

(** [m[key]] for the [bytes] or [str] key of a [%(key)] directive. *)
Definition mapping_getitem (m key : pyobj) : outcome pyobj :=
  match m with
  | PyDict items =>
      match dict_lookup key items with
      | Some v => Return v
      | None => Raise KeyError
      end
  | PyList _ => Raise TypeError
  | _ => Unmodelled
  end.

(** What differs between [bytes % args] and [str % args]: the character
    type, the key object of a [%(key)] directive, which argument objects
    count as a mapping, and the conversions. *)
Record flavour (C : Type) : Type := mkflavour {
  fl_code : C -> N;
  fl_key : list C -> pyobj;
  fl_mapping : pyobj -> bool;
  fl_convert : N -> pyobj -> outcome (list C)
}.

Arguments fl_code {C} f.
Arguments fl_key {C} f.
Arguments fl_mapping {C} f.
Arguments fl_convert {C} f.

(** Characters that may stand between [%] and the conversion character:
    the flags [- + space # 0], and [z], which is a flag of [bytes]
    formatting from Python 3.11 on, width and precision ([0-9 * .]) and
    the length modifiers [h l L].  Directives that carry any of them are
    outside the fragment. *)
Definition is_spec_modifier (c : N) : bool :=
  existsb (N.eqb c) (T "-+ #0123456789*.hlLz").

Section Engine.

Context {C : Type}.
Variable fl : flavour C.

(** The key of [%(key)...]: the text up to the parenthesis that closes
    the one already read, nested pairs included. *)
Fixpoint scan_key (fmt : list C) (depth : nat) (acc : list C)
  : option (list C * list C) :=
  match fmt with
  | [] => None
  | c :: rest =>
      if (fl_code fl c =? 41)%N then
        match depth with
        | O => Some (rev acc, rest)
        | S d => scan_key rest d (c :: acc)
        end
      else if (fl_code fl c =? 40)%N then scan_key rest (S depth) (c :: acc)
      else scan_key rest depth (c :: acc)
  end.

(** The conversion character and its argument. *)
Definition conversion (fmt : list C) (st : argstate) (dict : option pyobj)
  : outcome (list C * list C * argstate) :=
  match fmt with
  | [] => Raise ValueError
  | c :: rest =>
      if is_spec_modifier (fl_code fl c) || (fl_code fl c =? 37)%N
      then Unmodelled
      else
        a <- getnextarg st ;;
        let '(v, st') := a in
        piece <- fl_convert fl (fl_code fl c) v ;;
        match dict with
        | Some _ => if args_left st' then Raise TypeError
                    else Return (piece, rest, st')
        | None => Return (piece, rest, st')
        end
  end.

(** A directive, entered after its [%] when the next character is not
    a second [%]. *)
Definition directive (fmt : list C) (st : argstate) (dict : option pyobj)
  : outcome (list C * list C * argstate) :=
  match fmt with
  | [] => Raise ValueError
  | c :: rest =>
      if (fl_code fl c =? 40)%N then
        match dict with
        | None => Raise TypeError
        | Some d =>
            match scan_key rest 0 [] with
            | None => Raise ValueError
            | Some (key, rest') =>
                v <- mapping_getitem d (fl_key fl key) ;;
                conversion rest' (ArgSingle v false) dict
            end
        end
      else conversion fmt st dict
  end.

(** The formatting loop.  [fuel] bounds the number of steps; each step
    consumes at least one character of the format. *)
Fixpoint format_loop (fuel : nat) (fmt : list C) (st : argstate)
         (dict : option pyobj) : outcome (list C) :=
  match fuel with
  | O => Unmodelled
  | S fuel' =>
      match fmt with
      | [] =>
          match dict with
          | None => if args_left st then Raise TypeError else Return []
          | Some _ => Return []
          end
      | c :: rest =>
          if negb (fl_code fl c =? 37)%N then
            out <- format_loop fuel' rest st dict ;; Return (c :: out)
          else
            match rest with
            | [] => Raise ValueError
            | c1 :: rest1 =>
                if (fl_code fl c1 =? 37)%N then
                  out <- format_loop fuel' rest1 st dict ;;
                  Return (c1 :: out)
                else
                  d <- directive rest st dict ;;
                  let '(piece, rest', st') := d in
                  out <- format_loop fuel' rest' st' dict ;;
                  Return (piece ++ out)
            end
      end
  end.

(** [fmt % args]. *)
Definition format (fmt : list C) (args : pyobj) : outcome (list C) :=
  format_loop (S (List.length fmt)) fmt (initial_args args)
              (if fl_mapping fl args then Some args else None).

End Engine.

Definition code_in (c : N) (chars : string) : bool :=
  existsb (N.eqb c) (T chars).

Section HostFormat.

(** The host's limit on the digits of an integer, as in [HostStr]. *)
Variable int_max_str_digits : N.

(** [ascii(v)] for the [%r] and [%a] conversions: an integer, or text of
    printable ASCII without quote or backslash. *)
Definition ascii_repr (v : pyobj) : outcome text :=
  match v with
  | PyInt z => int_to_str int_max_str_digits z
  | PyStr s =>
      if forallb (fun c => (32 <=? c)%N && (c <=? 126)%N
                           && negb (c =? 39)%N && negb (c =? 92)%N) s
      then Return (T "'" ++ s ++ T "'")
      else Unmodelled
  | _ => Unmodelled
  end.

(** The conversions of [bytes % args]. *)
Definition bytes_convert (c : N) (v : pyobj) : outcome bytestr :=
  if code_in c "bs" then
    match v with
    | PyBytes b => Return b
    | _ => Raise TypeError
    end
  else if code_in c "diu" then
    match int_value v with
    | Some z => s <- int_to_str int_max_str_digits z ;; Return (map byte_of_N s)
    | None => if is_numeric v then Unmodelled else Raise TypeError
    end
  else if code_in c "c" then
    match v with
    | PyBytes [x] => Return [x]
    | PyBytes _ => Raise TypeError
    | _ =>
        match int_value v with
        | Some z => if (0 <=? z) && (z <? 256)
                    then Return [byte_of_N (Z.to_N z)]
                    else Raise OverflowError
        | None => Raise TypeError
        end
    end
  else if code_in c "oxXeEfFgG" then
    if is_numeric v then Unmodelled else Raise TypeError
  else if code_in c "ra" then
    r <- ascii_repr v ;; Return (map byte_of_N r)
  else Raise ValueError.

Definition bytes_flavour : flavour byte :=
  mkflavour byte Byte.to_N PyBytes
    (fun args => match args with PyDict _ | PyList _ => true | _ => false end)
    bytes_convert.

(** [b % args] on a [bytes] object. *)
Definition bytes_mod (b : bytestr) (args : pyobj) : outcome bytestr :=
  format bytes_flavour b args.

(** The conversions of [str % args]; there is no [%b]. *)
Definition text_convert (c : N) (v : pyobj) : outcome text :=
  if code_in c "s" then
    match v with
    | PyStr s => Return s
    | PyInt z => int_to_str int_max_str_digits z
    | _ => Unmodelled
    end
  else if code_in c "diu" then
    match int_value v with
    | Some z => int_to_str int_max_str_digits z
    | None => if is_numeric v then Unmodelled else Raise TypeError
    end
  else if code_in c "c" then
    match v with
    | PyStr [x] => Return [x]
    | PyStr _ => Raise TypeError
    | PyInt z => if (0 <=? z) && (z <? 1114112)
                 then Return [Z.to_N z]
                 else Raise OverflowError
    | _ => Unmodelled
    end
  else if code_in c "oxXeEfFgGra" then Unmodelled
  else Raise ValueError.

Definition text_flavour : flavour N :=
  mkflavour N (fun c => c) PyStr
    (fun args => match args with
                 | PyDict _ | PyList _ | PyBytes _ => true
                 | _ => false
                 end)
    text_convert.

(** [s % args] on a [str] object. *)
Definition str_mod (s : text) (args : pyobj) : outcome text :=
  format text_flavour s args.

End HostFormat.

(** ** The pattern [_BYTES_FORMAT] and its [sub] *)

(** The bracket expression [[^)diouxXeEfFgGcrs%]]. *)
Definition key_char (c : N) : bool :=
  negb (code_in c ")diouxXeEfFgGcrs%").

(** The longest run of [key_char]s at the head of [s]: its length, and
    what follows it. *)
Fixpoint key_run (s : text) : nat * text :=
  match s with
  | c :: s' =>
      if key_char c then let '(n, r) := key_run s' in (S n, r) else (O, s)
  | [] => (O, [])
  end.

(** Length of the match of
    [%(\([^)diouxXeEfFgGcrs%]+\))?b] at the head of [s], if there is
    one.  The run inside the parentheses cannot contain [)], so it ends at
    the first [)] or not at all; when the group does not lead to a match
    the pattern is tried without it. *)
Definition match_bytes_format (s : text) : option nat :=
  match s with
  | 37%N :: 98%N :: _ => Some 2%nat
  | 37%N :: 40%N :: s1 =>
      match key_run s1 with
      | (S n, 41%N :: 98%N :: _) => Some (n + 5)%nat
      | _ => None
      end
  | _ => None
  end.

(** Every non-overlapping match, leftmost first, replaced by the literal
    [repl]; [skip] counts the characters of the current match still to be
    dropped. *)
Fixpoint sub_literal (repl s : text) (skip : nat) : text :=
  match s with
  | [] => []
  | c :: s' =>
      match skip with
      | S k => sub_literal repl s' k
      | O =>
          match match_bytes_format s with
          | Some n => repl ++ sub_literal repl s' (Nat.pred n)
          | None => c :: sub_literal repl s' O
          end
      end
  end.

(** [_BYTES_FORMAT.sub(repl, string)]: first argument the replacement,
    second the string searched.  A replacement with a backslash is a
    template with escapes and group references, outside the fragment. *)
Definition _BYTES_FORMAT_sub (repl : pyobj) (string : text) : outcome text :=
  match repl with
  | PyStr r =>
      if existsb (N.eqb 92) r then Unmodelled
      else Return (sub_literal r string O)
  | _ => Unmodelled
  end.

(** ** Joining [bytes] *)

(** [b"".join(items)]: the items one after the other; an item that is not
    [bytes] is refused. *)
Fixpoint bytes_join (items : list pyobj) : outcome bytestr :=
  match items with
  | [] => Return []
  | PyBytes b :: items' => rest <- bytes_join items' ;; Return (b ++ rest)
  | _ :: _ => Raise TypeError
  end.

(** ** Indexing a Python 2 [str] *)

(** [s[key]] on Python 2, where [bytes] is [str]: an integer key selects
    the string of length one at its position, a slice key a substring;
    any other key is refused. *)
Definition py2_str_getitem (b : bytestr) (key : pyobj) : outcome pyobj :=
  match key with
  | PySlice start stop step =>
      r <- sequence_slice b start stop step ;; Return (PyBytes r)
  | _ =>
      match int_value key with
      | Some i =>
          j <- sequence_index (Z.of_nat (List.length b)) i ;;
          match nth_error b (Z.to_nat j) with
          | Some x => Return (PyBytes [x])
          | None => Raise IndexError
          end
      | None => Raise TypeError
      end
  end.

(** ** [repr] of [bytes] *)

(** The quote of the literal: the single quote, unless the bytes hold a
    single quote and no double quote. *)
Definition repr_quote (b : bytestr) : N :=
  if existsb (N.eqb 39) (charmap_decode b)
     && negb (existsb (N.eqb 34) (charmap_decode b))
  then 34%N else 39%N.

(** One byte inside the literal: the quote and the backslash behind a
    backslash, tab, newline and carriage return by their letters, any
    other byte outside the printable ASCII range as [\xhh], the rest as
    themselves. *)
Definition repr_byte (quote c : N) : text :=
  if (c =? quote)%N || (c =? 92)%N then [92%N; c]
  else if (c =? 9)%N then T "\t"
  else if (c =? 10)%N then T "\n"
  else if (c =? 13)%N then T "\r"
  else if (c <? 32)%N || (127 <=? c)%N then T "\x" ++ hex_fixed 2 c
  else [c].

(** [repr(b)]. *)
Definition bytes_repr (b : bytestr) : text :=
  let quote := repr_quote b in
  T "b" ++ [quote] ++ flat_map (repr_byte quote) (charmap_decode b) ++ [quote].

Section HostRepr.

Variable int_max_str_digits : N.

(** The conversions of [str % args] with, in addition, [%r] of a [bytes]
    object. *)
Definition text_convert_r (c : N) (v : pyobj) : outcome text :=
  if code_in c "r" then
    match v with
    | PyBytes b => Return (bytes_repr b)
    | _ => text_convert int_max_str_digits c v
    end
  else text_convert int_max_str_digits c v.

Definition text_flavour_r : flavour N :=
  mkflavour N (fun c => c) PyStr
    (fl_mapping (text_flavour int_max_str_digits)) text_convert_r.

End HostRepr.

(** ** Comparing [bytes] *)

(** The six comparison operations. *)
Inductive cmpop : Type :=
| Py_LT
| Py_LE
| Py_EQ
| Py_NE
| Py_GT
| Py_GE.

(** The operation with its operands exchanged. *)
Definition swapped_op (op : cmpop) : cmpop :=
  match op with
  | Py_LT => Py_GT
  | Py_LE => Py_GE
  | Py_EQ => Py_EQ
  | Py_NE => Py_NE
  | Py_GT => Py_LT
  | Py_GE => Py_LE
  end.

(** Sign of [memcmp] on the first [n] bytes: the first place where the
    two differ decides, by the values of the bytes there. *)
Fixpoint memcmp (a b : bytestr) (n : nat) : comparison :=
  match n with
  | O => Eq
  | S n' =>
      match a, b with
      | x :: a', y :: b' =>
          match N.compare (Byte.to_N x) (Byte.to_N y) with
          | Eq => memcmp a' b' n'
          | c => c
          end
      | _, _ => Eq
      end
  end.

(** The truth of an operation, given how its operands compare. *)
Definition richcompare_sign (c : comparison) (op : cmpop) : bool :=
  match op, c with
  | Py_LT, Lt => true
  | Py_LE, Lt | Py_LE, Eq => true
  | Py_EQ, Eq => true
  | Py_NE, Lt | Py_NE, Gt => true
  | Py_GT, Gt => true
  | Py_GE, Gt | Py_GE, Eq => true
  | _, _ => false
  end.

(** [a OP b] on two [bytes] objects.  Equality asks for equal lengths
    and equal bytes; the orderings compare the common prefix and, when it
    is equal, the lengths. *)
Definition bytes_richcompare (a b : bytestr) (op : cmpop) : bool :=
  match op with
  | Py_EQ | Py_NE =>
      let eq := Nat.eqb (List.length a) (List.length b)
                && match memcmp a b (List.length a) with
                   | Eq => true
                   | _ => false
                   end in
      match op with
      | Py_NE => negb eq
      | _ => eq
      end
  | _ =>
      match memcmp a b (Nat.min (List.length a) (List.length b)) with
      | Eq => richcompare_sign (Nat.compare (List.length a) (List.length b)) op
      | c => richcompare_sign c op
      end
  end.

(** ** The class [octets] *)

Module octets.

(** An instance has one attribute, [_bytes]. *)
Record t : Type := mk { _bytes : bytestr }.

Section Init.

Variable int_max_str_digits : N.
Variable float_str : Z -> text.
Variable decimal_str : bool -> N -> dec_exp -> text.

(** [octets.__init__(self, object=b'', encoding=None, errors=None)]. *)
Definition __init__ (object encoding errors : pyobj) : outcome t :=
  if is_numeric object then
    s <- py_str int_max_str_digits float_str decimal_str object ;;
    b <- str_encode s (PyStr (T "ascii")) None ;;
    Return (mk b)
  else
    match object with
    | PyStr s =>
        match encoding with
        | PyNone => Raise TypeError
        | _ =>
            if truthy errors then
              b <- str_encode s encoding (Some errors) ;; Return (mk b)
            else
              b <- str_encode s encoding None ;; Return (mk b)
        end
    | PyBytes b => Return (mk b)
    | _ => Raise TypeError
    end.

(** A call [octets(...)] with any of the three arguments left out. *)
Definition new (object encoding errors : option pyobj) : outcome t :=
  __init__ (match object with Some o => o | None => PyBytes (B "") end)
           (match encoding with Some e => e | None => PyNone end)
           (match errors with Some e => e | None => PyNone end).

End Init.

(** [_to_text], bound as [__str__] on Python 3. *)
Definition _to_text (self : t) : outcome text :=
  Raise TypeError.

Definition __str__ : t -> outcome text := _to_text.

(** The [bytes] property. *)
Definition bytes (self : t) : bytestr := _bytes self.

(** [__eq__] against a [bytes] object. *)
Definition __eq__ (self : t) (other : bytestr) : bool :=
  if list_eq_dec Byte.byte_eq_dec (_bytes self) other then true else false.

(** The generator object made by [__iter__]: the instance, the next
    value of the [range] iterator and its end. *)
Record generator : Type :=
  mkgen { gen_self : t; gen_i : Z; gen_stop : Z }.

(** [__iter__]: [for i in range(len(self._bytes))]. *)
Definition __iter__ (self : t) : generator :=
  mkgen self 0 (Z.of_nat (List.length (_bytes self))).

(** One [next()] on the generator: [yield self._bytes[i:i + 1]], or
    [StopIteration] once the range is exhausted. *)
Definition next (g : generator) : outcome (pyobj * generator) :=
  if gen_i g <? gen_stop g then
    v <- bytes_getitem (_bytes (gen_self g))
           (PySlice (PyInt (gen_i g)) (PyInt (gen_i g + 1)) PyNone) ;;
    Return (v, mkgen (gen_self g) (gen_i g + 1) (gen_stop g))
  else Raise StopIteration.

(** [list(g)]: call [next] until it raises [StopIteration]. *)
Fixpoint drain (fuel : nat) (g : generator) : outcome (list pyobj) :=
  match fuel with
  | O => Unmodelled
  | S fuel' =>
      match next g with
      | Return (v, g') => vs <- drain fuel' g' ;; Return (v :: vs)
      | Raise StopIteration => Return []
      | Raise e => Raise e
      | Unmodelled => Unmodelled
      end
  end.

Definition list_of (g : generator) : outcome (list pyobj) :=
  drain (S (Z.to_nat (gen_stop g - gen_i g))) g.

(** [k] calls of [next] in a row on a generator, when each of them
    yields. *)
Fixpoint advance (k : nat) (g : generator) : option generator :=
  match k with
  | O => Some g
  | S k' =>
      match next g with
      | Return (_, g') => advance k' g'
      | _ => None
      end
  end.

(** [__getitem__]. *)
Definition __getitem__ (self : t) (key : pyobj) : outcome pyobj :=
  match key with
  | PySlice _ _ _ => bytes_getitem (_bytes self) key
  | _ =>
      match int_value key with
      | Some k =>
          _ <- bytes_getitem (_bytes self) key ;;
          let upperbound := if k =? -1 then PyNone else PyInt (k + 1) in
          bytes_getitem (_bytes self) (PySlice key upperbound PyNone)
      | None => Raise TypeError
      end
  end.

(** [_decode], local to the [__mod__] of Python 3 before 3.5. *)
Definition _decode (thing : pyobj) : outcome pyobj :=
  match thing with
  | PyBytes b => Return (PyStr (charmap_decode b))
  | PyStr _ => Raise TypeError
  | _ => Return thing
  end.

Section Interpolation.

(** The host's limit on the digits of an integer, which its formatting
    observes. *)
Variable int_max_str_digits : N.

(** [__mod__]; [less_than_py35] is [_LESS_THAN_PY35], which selects one
    of the two definitions when the class body runs. *)
Definition __mod__ (less_than_py35 : bool) (self : t) (to_interpolate : pyobj)
  : outcome pyobj :=
  if less_than_py35 then
    format_string <- _decode (PyBytes (_bytes self)) ;;
    format_string <- _BYTES_FORMAT_sub format_string (T "%\1s") ;;
    let to_interpolate :=
      match to_interpolate with
      | PyTuple _ | PyDict _ => to_interpolate
      | _ => PyTuple [to_interpolate]
      end in
    to_interpolate <-
      match to_interpolate with
      | PyTuple l => l' <- mapM _decode l ;; Return (PyTuple l')
      | PyDict items =>
          items' <- mapM (fun kv => k <- _decode (fst kv) ;;
                                    v <- _decode (snd kv) ;;
                                    Return (k, v)) items ;;
          Return (PyDict items')
      | _ => Return to_interpolate
      end ;;
    formatted <- str_mod int_max_str_digits format_string to_interpolate ;;
    b <- charmap_encode formatted ;;
    Return (PyBytes b)
  else
    b <- bytes_mod int_max_str_digits (_bytes self) to_interpolate ;;
    Return (PyBytes b).

End Interpolation.

(** [__ne__], [__lt__], [__gt__], [__le__] and [__ge__] against a
    [bytes] object. *)
Definition __ne__ (self : t) (other : bytestr) : bool :=
  bytes_richcompare (_bytes self) other Py_NE.

Definition __lt__ (self : t) (other : bytestr) : bool :=
  bytes_richcompare (_bytes self) other Py_LT.

Definition __gt__ (self : t) (other : bytestr) : bool :=
  bytes_richcompare (_bytes self) other Py_GT.

Definition __le__ (self : t) (other : bytestr) : bool :=
  bytes_richcompare (_bytes self) other Py_LE.

Definition __ge__ (self : t) (other : bytestr) : bool :=
  bytes_richcompare (_bytes self) other Py_GE.

(** The method that stands for an operation. *)
Definition method (op : cmpop) (self : t) (other : bytestr) : bool :=
  match op with
  | Py_LT => __lt__ self other
  | Py_LE => __le__ self other
  | Py_EQ => __eq__ self other
  | Py_NE => __ne__ self other
  | Py_GT => __gt__ self other
  | Py_GE => __ge__ self other
  end.

(** What can stand on the other side of a comparison: a value, or
    another instance. *)
Inductive operand : Type :=
| OpValue (v : pyobj)
| OpOctets (o : t).

(** The body [self._bytes OP other] of the six methods, for any operand.
    Against [bytes] the host compares.  Against an instance the host's
    [bytes] declines, and the method of [other] for the operation with
    the operands exchanged is called with [self._bytes].  Against a value
    of another class the answer is that class's to give (a [bytearray]
    compares by content): this is outside the fragment. *)
Definition compare (op : cmpop) (self : t) (other : operand) : outcome bool :=
  match other with
  | OpValue (PyBytes b) => Return (method op self b)
  | OpOctets o => Return (method (swapped_op op) o (_bytes self))
  | OpValue _ => Unmodelled
  end.

(** [__repr__]; the name of the class of an instance is [octets].  The
    formatting is the host's, under its limit on the digits of an
    integer. *)
Definition __repr__ (int_max_str_digits : N) (self : t) : outcome text :=
  let name := T "octets" in
  format (text_flavour_r int_max_str_digits) (T "%s(%r)")
         (PyTuple [PyStr name; PyBytes (_bytes self)]).

End octets.

(** ** The class [octets] on Python 2: indexing and iteration *)

Module octets_py2.

(** [__getitem__] of the [six.PY2] branch. *)
Definition __getitem__ (self : octets.t) (key : pyobj) : outcome pyobj :=
  py2_str_getitem (octets._bytes self) key.

(** The iterator that [iter] makes for a [str]: the string and the next
    index. *)
Record seqiter : Type :=
  mkiter { it_seq : bytestr; it_index : Z }.

(** [__iter__] of the [six.PY2] branch: [iter(self._bytes)]. *)
Definition __iter__ (self : octets.t) : seqiter :=
  mkiter (octets._bytes self) 0.

(** One [next()] on the iterator: the item at the index, or
    [StopIteration] when the index is out of range. *)
Definition next (it : seqiter) : outcome (pyobj * seqiter) :=
  match py2_str_getitem (it_seq it) (PyInt (it_index it)) with
  | Return v => Return (v, mkiter (it_seq it) (it_index it + 1))
  | Raise IndexError => Raise StopIteration
  | Raise e => Raise e
  | Unmodelled => Unmodelled
  end.

(** [list(it)]. *)
Fixpoint drain (fuel : nat) (it : seqiter) : outcome (list pyobj) :=
  match fuel with
  | O => Unmodelled
  | S fuel' =>
      match next it with
      | Return (v, it') => vs <- drain fuel' it' ;; Return (v :: vs)
      | Raise StopIteration => Return []
      | Raise e => Raise e
      | Unmodelled => Unmodelled
      end
  end.

Definition list_of (it : seqiter) : outcome (list pyobj) :=
  drain (S (List.length (it_seq it))) it.

End octets_py2.

(** ** Reference definitions, in the words of the specification *)

(** ASCII encoding of text: code point [n] below 128 is the byte [n];
    there is no other ASCII character. *)
Fixpoint ascii_encode (s : text) : outcome bytestr :=
  match s with
  | [] => Return []
  | c :: s' =>
      if (c <? 128)%N then
        rest <- ascii_encode s' ;; Return (byte_of_N c :: rest)
      else Raise UnicodeEncodeError
  end.

(** Encoding under the strict policy: every code point encoded in order,
    or an encoding error when one of them has no encoding. *)
Definition strict_encode (cd : codec) (s : text) : outcome bytestr :=
  if forallb (encodable cd) s
  then Return (flat_map (encode_char cd) s)
  else Raise UnicodeEncodeError.

(** An optional integer as a slice field. *)
Definition opt_int (o : option Z) : pyobj :=
  match o with
  | Some z => PyInt z
  | None => PyNone
  end.

(** The positions of a sequence of length [len], first to last, and last
    to first. *)
Definition positions (len : nat) : list Z :=
  map Z.of_nat (seq 0 len).

Definition positions_down (len : nat) : list Z :=
  map (fun i => Z.of_nat len - 1 - i) (positions len).

(** The items of [l] at the listed positions. *)
Definition items_at {A : Type} (l : list A) (ix : list Z) : list A :=
  flat_map (fun i => match nth_error l (Z.to_nat i) with
                     | Some x => [x]
                     | None => []
                     end) ix.

(** A negative index counts from the end. *)
Definition from_end (len z : Z) : Z :=
  if z <? 0 then z + len else z.

(** Position [i] lies in the half-open range from [start] up to [stop]
    and is a multiple of [step] away from [start]. *)
Definition stride_up (start stop step i : Z) : bool :=
  (start <=? i) && (i <? stop) && ((i - start) mod step =? 0).

(** The same, downwards from [start] to [stop], [stop] excluded. *)
Definition stride_down (start stop step i : Z) : bool :=
  (stop <? i) && (i <=? start) && ((start - i) mod step =? 0).

(** Whether position [i] belongs to the slice [lo:hi:step] of a sequence
    of length [len].  With a positive step the slice runs over the
    half-open range from [lo] (default: the first position) up to, not
    including, [hi] (default: the end), taking every [step]-th position
    counted from its start; with a negative step it runs from [lo]
    (default: the last position) down to, not including, [hi] (default:
    before the first position).  A start before the first position, for
    a positive step, or after the last, for a negative one, is moved to
    that position. *)
Definition in_slice (len : Z) (lo hi : option Z) (step : Z) (i : Z) : bool :=
  if 0 <? step then
    stride_up (match lo with
               | None => 0
               | Some z => Z.max 0 (from_end len z)
               end)
              (match hi with
               | None => len
               | Some z => from_end len z
               end)
              step i
  else
    stride_down (match lo with
                 | None => len - 1
                 | Some z => Z.min (len - 1) (from_end len z)
                 end)
                (match hi with
                 | None => -1
                 | Some z => from_end len z
                 end)
                (- step) i.

(** The positions [a], [a + s], ... : [n] of them. *)
Definition progression (a s : Z) (n : nat) : list Z :=
  map (fun k => a + Z.of_nat k * s) (seq 0 n).

(** Standard slice semantics: the items at the positions of the slice,
    in ascending order of position for a positive step and in descending
    order for a negative one. *)
Definition std_slice {A : Type} (l : list A) (lo hi : option Z) (step : Z)
  : list A :=
  let len := Z.of_nat (List.length l) in
  items_at l (filter (in_slice len lo hi step)
                     (if 0 <? step then positions (List.length l)
                      else positions_down (List.length l))).

Definition is_text (o : pyobj) : bool :=
  match o with
  | PyStr _ => true
  | _ => false
  end.

(** Whether text is among the arguments of an interpolation: the argument
    itself, an item of a tuple, a key or a value of a dict. *)
Definition has_text_argument (args : pyobj) : bool :=
  match args with
  | PyTuple l => existsb is_text l
  | PyDict items => existsb (fun kv => is_text (fst kv) || is_text (snd kv)) items
  | _ => is_text args
  end.

(** Whether the byte numbered [x] occurs in [b]. *)
Definition has_byte (x : N) (b : bytestr) : bool :=
  existsb (N.eqb x) (charmap_decode b).

(** Lexicographic order on [bytes], by the values of the bytes: a
    proper prefix comes first; otherwise the first place where the two
    differ decides. *)
Inductive lex_lt : bytestr -> bytestr -> Prop :=
| lex_lt_nil : forall (y : byte) (b : bytestr), lex_lt [] (y :: b)
| lex_lt_head : forall (x y : byte) (a b : bytestr),
    (Byte.to_N x < Byte.to_N y)%N -> lex_lt (x :: a) (y :: b)
| lex_lt_tail : forall (x : byte) (a b : bytestr),
    lex_lt a b -> lex_lt (x :: a) (x :: b).

(** A printable ASCII character. *)
Definition printable (c : N) : bool := (32 <=? c)%N && (c <? 127)%N.

(** Value of a hexadecimal digit. *)
Definition hex_value (c : N) : option N :=
  if (48 <=? c)%N && (c <=? 57)%N then Some (c - 48)%N
  else if (97 <=? c)%N && (c <=? 102)%N then Some (c - 87)%N
  else if (65 <=? c)%N && (c <=? 70)%N then Some (c - 55)%N
  else None.

(** Reading the inside of a [bytes] literal up to its closing quote:
    printable ASCII characters stand for themselves, and a backslash
    starts one of the escapes for backslash, the quotes, tab, newline,
    carriage return, or [\xhh]. *)
Fixpoint read_literal_body (quote : N) (s : text) : option bytestr :=
  match s with
  | [] => None
  | c :: s1 =>
      if (c =? quote)%N then
        match s1 with
        | [] => Some []
        | _ :: _ => None
        end
      else if (c =? 92)%N then
        match s1 with
        | [] => None
        | e :: s2 =>
            if (e =? 92)%N || (e =? 39)%N || (e =? 34)%N then
              option_map (cons (byte_of_N e)) (read_literal_body quote s2)
            else if (e =? 116)%N then
              option_map (cons (byte_of_N 9)) (read_literal_body quote s2)
            else if (e =? 110)%N then
              option_map (cons (byte_of_N 10)) (read_literal_body quote s2)
            else if (e =? 114)%N then
              option_map (cons (byte_of_N 13)) (read_literal_body quote s2)
            else if (e =? 120)%N then
              match s2 with
              | h1 :: h2 :: s4 =>
                  match hex_value h1, hex_value h2 with
                  | Some v1, Some v2 =>
                      option_map (cons (byte_of_N (16 * v1 + v2)))
                                 (read_literal_body quote s4)
                  | _, _ => None
                  end
              | _ => None
              end
            else None
        end
      else if (32 <=? c)%N && (c <? 127)%N then
        option_map (cons (byte_of_N c)) (read_literal_body quote s1)
      else None
  end.

(** Reading a [bytes] literal: the prefix [b], a quote, the body, the
    same quote. *)
Definition read_bytes_literal (s : text) : option bytestr :=
  match s with
  | 98%N :: q :: body =>
      if (q =? 39)%N || (q =? 34)%N then read_literal_body q body else None
  | _ => None
  end.

(** A template that stands for the bytes [b] themselves: every [%]
    written twice. *)
Definition escape_percent (b : bytestr) : bytestr :=
  flat_map (fun c => if (Byte.to_N c =? 37)%N then [c; c] else [c]) b.

(** Three-way lexicographic comparison of [bytes]. *)
Fixpoint lex_compare (a b : bytestr) : comparison :=
  match a, b with
  | [], [] => Eq
  | [], _ :: _ => Lt
  | _ :: _, [] => Gt
  | x :: a', y :: b' =>
      match N.compare (Byte.to_N x) (Byte.to_N y) with
      | Eq => lex_compare a' b'
      | c => c
      end
  end.

(** Whether an object can stand as a field of a slice: [None], or an
    integer. *)
Definition slice_field_ok (o : pyobj) : bool :=
  match o with
  | PyNone => true
  | _ =>
      match int_value o with
      | Some _ => true
      | None => false
      end
  end.

(** A decimal digit. *)
Definition is_digit (c : N) : bool := (48 <=? c)%N && (c <=? 57)%N.

(** Digits that start with a digit other than [0]. *)
Definition leading_digits (s : text) : bool :=
  match s with
  | c :: rest => is_digit c && negb (c =? 48)%N && forallb is_digit rest
  | [] => false
  end.

(** The standard base-10 numeral of an integer: [0] alone, or digits
    without a leading [0], behind a minus sign for a negative number. *)
Definition standard_numeral (s : text) : bool :=
  match s with
  | [] => false
  | c :: s' =>
      if (c =? 45)%N then leading_digits s'
      else text_eqb s (T "0") || leading_digits s
  end.

(** A template read piece by piece: a byte of plain text, the escape
    [%%], a directive [%c] that takes the next argument, or a directive
    [%(key)c] that takes the value under [key]. *)
Inductive piece : Type :=
| Literal (c : byte)
| Percent
| Positional (conv : byte)
| Named (key : bytestr) (conv : byte).

(** The bytes that write a piece, and a template. *)
Definition written_piece (p : piece) : bytestr :=
  match p with
  | Literal c => [c]
  | Percent => B "%%"
  | Positional conv => [x25; conv]
  | Named key conv => B "%(" ++ key ++ B ")" ++ [conv]
  end.

Definition written (ps : list piece) : bytestr := flat_map written_piece ps.

(** A character that ends a directive: not [%], and none of the
    characters that stand between [%] and the conversion. *)
Definition ends_directive (c : byte) : bool :=
  negb (is_spec_modifier (Byte.to_N c)) && negb (Byte.to_N c =? 37)%N.

(** A piece whose bytes read back as that piece: plain text is not [%],
    a directive ends at its first character, which does not open a key,
    and a key holds no parenthesis. *)
Definition well_written (p : piece) : bool :=
  match p with
  | Literal c => negb (Byte.to_N c =? 37)%N
  | Percent => true
  | Positional conv => ends_directive conv && negb (Byte.to_N conv =? 40)%N
  | Named key conv =>
      negb (has_byte 40 key) && negb (has_byte 41 key) && ends_directive conv
  end.

(** Pieces that take no argument by position. *)
Definition by_name (p : piece) : bool :=
  match p with
  | Positional _ => false
  | _ => true
  end.

Section Substitution.

(** How an argument is converted under a conversion character. *)
Variable convert : N -> pyobj -> outcome bytestr.

(** Substitution by position: plain text is copied, [%%] stands for
    [%], and each directive is replaced by the conversion of the next
    argument.  A directive without an argument left is an error, and so
    is a directive with a key, which asks for a mapping.  The result is
    the bytes, and the arguments that no directive has taken. *)
Fixpoint substitute (ps : list piece) (args : list pyobj)
  : outcome (bytestr * list pyobj) :=
  match ps with
  | [] => Return ([], args)
  | Literal c :: ps' =>
      r <- substitute ps' args ;; Return (c :: fst r, snd r)
  | Percent :: ps' =>
      r <- substitute ps' args ;; Return (x25 :: fst r, snd r)
  | Positional conv :: ps' =>
      match args with
      | [] => Raise TypeError
      | v :: args' =>
          b <- convert (Byte.to_N conv) v ;;
          r <- substitute ps' args' ;;
          Return (b ++ fst r, snd r)
      end
  | Named _ _ :: _ => Raise TypeError
  end.

(** The formatted bytes of a template and a tuple of arguments: every
    argument must have been taken. *)
Definition formatted (ps : list piece) (args : list pyobj) : outcome bytestr :=
  r <- substitute ps args ;;
  match snd r with
  | [] => Return (fst r)
  | _ :: _ => Raise TypeError
  end.

(** Substitution by name, for a template without directives by
    position: each directive is replaced by the conversion of the value
    under its key, and a key that the dict does not hold is an error. *)
Fixpoint formatted_by_name (ps : list piece) (items : list (pyobj * pyobj))
  : outcome bytestr :=
  match ps with
  | [] => Return []
  | Literal c :: ps' =>
      out <- formatted_by_name ps' items ;; Return (c :: out)
  | Percent :: ps' =>
      out <- formatted_by_name ps' items ;; Return (x25 :: out)
  | Named key conv :: ps' =>
      match dict_lookup (PyBytes key) items with
      | Some v =>
          b <- convert (Byte.to_N conv) v ;;
          out <- formatted_by_name ps' items ;;
          Return (b ++ out)
      | None => Raise KeyError
      end
  | Positional _ :: _ => Unmodelled
  end.

End Substitution.

(** A printable ASCII character other than the single quote and the
    backslash. *)
Definition plain_char (c : N) : bool :=
  (32 <=? c)%N && (c <=? 126)%N && negb (c =? 39)%N && negb (c =? 92)%N.

(** What the conversions of [bytes] formatting accept among [bytes],
    integers and text, and the bytes they put in the place of the
    directive: [bytes] as they are under [%b] and [%s]; an integer that
    the host converts, as its decimal string, under [%d], [%i] and [%u];
    text of plain characters, between single quotes, under [%r] and
    [%a]. *)
Inductive inserts (int_max_str_digits : N) : byte -> pyobj -> bytestr -> Prop :=
| inserts_bytes : forall (conv : byte) (x : bytestr),
    code_in (Byte.to_N conv) "bs" = true ->
    inserts int_max_str_digits conv (PyBytes x) x
| inserts_int : forall (conv : byte) (n : Z),
    code_in (Byte.to_N conv) "diu" = true ->
    exceeds_max_str_digits int_max_str_digits n = false ->
    inserts int_max_str_digits conv (PyInt n) (map byte_of_N (int_str n))
| inserts_text : forall (conv : byte) (s : text),
    code_in (Byte.to_N conv) "ra" = true ->
    forallb plain_char s = true ->
    inserts int_max_str_digits conv (PyStr s)
            (B "'" ++ map byte_of_N s ++ B "'").

(** An argument that stands alone: neither a tuple nor a dict or list,
    which [bytes] formatting takes for a mapping. *)
Definition single_argument (v : pyobj) : bool :=
  match v with
  | PyTuple _ | PyDict _ | PyList _ => false
  | _ => true
  end.

(** The arguments as [_decode] hands them on: [bytes] as the text with
    the same numbers, anything else as it is; a single argument stands
    in a tuple of its own. *)
Definition decoded (v : pyobj) : pyobj :=
  match v with
  | PyBytes b => PyStr (charmap_decode b)
  | _ => v
  end.

Definition decoded_arguments (args : pyobj) : pyobj :=
  match args with
  | PyTuple l => PyTuple (map decoded l)
  | PyDict items =>
      PyDict (map (fun kv => (decoded (fst kv), decoded (snd kv))) items)
  | _ => PyTuple [decoded args]
  end.

(** ** Bytes and code points *)

Lemma byte_of_to_N : forall x : byte, byte_of_N (Byte.to_N x) = x.
Proof.
  intro x. unfold byte_of_N.
  assert (H : (Byte.to_N x < 256)%N) by (destruct x; reflexivity).
  rewrite N.mod_small by exact H.
  now rewrite Byte.of_to_N.
Qed.

Lemma byte_to_of_N : forall n : N, (n < 256)%N -> Byte.to_N (byte_of_N n) = n.
Proof.
  intros n H. unfold byte_of_N. rewrite N.mod_small by exact H.
  destruct (Byte.of_N n) as [b|] eqn:E.
  - now apply Byte.to_of_N.
  - apply Byte.of_N_None_iff in E. lia.
Qed.

Lemma charmap_roundtrip : forall b : bytestr,
  charmap_encode (charmap_decode b) = Return b.
Proof.
  unfold charmap_decode.
  induction b as [|x b IH]; cbn [map charmap_encode]; [reflexivity|].
  assert (H : (Byte.to_N x <? 256)%N = true).
  { apply N.ltb_lt. destruct x; reflexivity. }
  rewrite H, IH. cbn [bind]. now rewrite byte_of_to_N.
Qed.

(** ** Construction *)

Example init_10 : forall d fs ds,
  octets.__init__ d fs ds (PyInt 10) PyNone PyNone
      = Return (octets.mk (B "10")).
Proof. reflexivity. Qed.

Example init_utf16be : forall d fs ds,
  octets.__init__ d fs ds (PyStr (T "a")) (PyStr (T "utf-16be")) PyNone
  = Return (octets.mk [x00; x61]).
Proof. reflexivity. Qed.

Example init_dict : forall d fs ds,
  octets.__init__ d fs ds (PyDict []) PyNone PyNone = Raise TypeError.
Proof. reflexivity. Qed.

Lemma text_eqb_eq : forall s t : text, text_eqb s t = true -> s = t.
Proof.
  induction s as [|c s IH]; intros [|d t] H; cbn [text_eqb] in H;
    try discriminate; [reflexivity|].
  apply andb_prop in H. destruct H as [Hc Hs].
  apply N.eqb_eq in Hc. now rewrite Hc, (IH t Hs).
Qed.

(** The names of the codecs and of the handlers are C strings. *)
Lemma codec_name_c_string : forall (name : text) (cd : codec),
  lookup_codec name = Some cd -> c_string name = Return name.
Proof.
  intros name cd H. unfold lookup_codec, codec_names in H.
  cbn [assoc_text] in H.
  repeat match type of H with
         | (if text_eqb name ?n then _ else _) = _ =>
             let E := fresh "E" in
             destruct (text_eqb name n) eqn:E;
             [apply text_eqb_eq in E; rewrite E; reflexivity|]
         end.
  discriminate H.
Qed.

Lemma handler_name_c_string : forall (h : text) (hd : handler),
  assoc_text h handler_names = Some hd -> c_string h = Return h.
Proof.
  intros h hd H. unfold handler_names in H. cbn [assoc_text] in H.
  repeat match type of H with
         | (if text_eqb h ?n then _ else _) = _ =>
             let E := fresh "E" in
             destruct (text_eqb h n) eqn:E;
             [apply text_eqb_eq in E; rewrite E; reflexivity|]
         end.
  discriminate H.
Qed.

(** [str.encode] with the strict handler is [strict_encode]. *)
Lemma encode_with_strict : forall (cd : codec) (s : text),
  encode_with cd (T "strict") s = strict_encode cd s.
Proof.
  intros cd s. unfold strict_encode.
  induction s as [|c s IH]; cbn [encode_with forallb flat_map]; [reflexivity|].
  destruct (encodable cd c); cbn [andb].
  - rewrite IH. destruct (forallb (encodable cd) s); reflexivity.
  - reflexivity.
Qed.

Lemma strict_encode_ascii : forall s : text,
  strict_encode Ascii s = ascii_encode s.
Proof.
  intro s. rewrite <- encode_with_strict.
  induction s as [|c s IH]; cbn [encode_with ascii_encode]; [reflexivity|].
  cbn [encodable]. destruct (c <? 128)%N.
  - rewrite IH. reflexivity.
  - reflexivity.
Qed.

Lemma str_encode_ascii : forall s : text,
  str_encode s (PyStr (T "ascii")) None = ascii_encode s.
Proof.
  intro s. rewrite <- strict_encode_ascii, <- encode_with_strict. reflexivity.
Qed.

(** The digits printed for an integer read back as that integer. *)
Lemma digits_uint_digits : forall d : Decimal.uint,
  digits_uint (uint_digits d) = Some d.
Proof.
  induction d; cbn [uint_digits digits_uint]; try rewrite IHd; reflexivity.
Qed.

Lemma uint_digits_head : forall d : Decimal.uint,
  d <> Decimal.Nil ->
  exists c s, uint_digits d = c :: s /\ (c =? 45)%N = false.
Proof.
  intros d H. destruct d; [congruence| |  | | | | | | | | ];
    cbn [uint_digits]; eexists; eexists; (split; [reflexivity|reflexivity]).
Qed.

Lemma to_int_nonnil : forall z : Z,
  match Z.to_int z with
  | Decimal.Pos d | Decimal.Neg d => d <> Decimal.Nil
  end.
Proof.
  intros [|p|p]; cbn [Z.to_int].
  - discriminate.
  - apply DecimalPos.Unsigned.to_uint_nonnil.
  - apply DecimalPos.Unsigned.to_uint_nonnil.
Qed.

Lemma int_of_text_int_str : forall z : Z, int_of_text (int_str z) = Some z.
Proof.
  intro z. unfold int_str.
  pose proof (to_int_nonnil z) as Hnn.
  pose proof (DecimalZ.of_to z) as Hz.
  destruct (Z.to_int z) as [d|d].
  - destruct (uint_digits_head d Hnn) as (c & s & E & Hc).
    unfold int_of_text. rewrite E, Hc, <- E, digits_uint_digits.
    cbn [option_map]. now rewrite Hz.
  - destruct (uint_digits_head d Hnn) as (c & s & E & Hc).
    unfold int_of_text. rewrite N.eqb_refl, E, <- E, digits_uint_digits.
    cbn [option_map]. now rewrite Hz.
Qed.

Lemma uint_digits_ascii : forall d : Decimal.uint,
  forallb (fun c => (c <? 128)%N) (uint_digits d) = true.
Proof.
  induction d; cbn [uint_digits forallb]; try rewrite IHd; reflexivity.
Qed.

Lemma int_str_ascii : forall z : Z,
  forallb (fun c => (c <? 128)%N) (int_str z) = true.
Proof.
  intro z. unfold int_str. destruct (Z.to_int z); cbn [forallb];
    rewrite uint_digits_ascii; reflexivity.
Qed.

(** Text of ASCII code points encodes to the bytes with the same
    numbers. *)
Lemma ascii_encode_total : forall s : text,
  forallb (fun c => (c <? 128)%N) s = true ->
  ascii_encode s = Return (map byte_of_N s)
  /\ charmap_decode (map byte_of_N s) = s.
Proof.
  unfold charmap_decode.
  induction s as [|c s IH]; cbn [forallb ascii_encode map]; intro H.
  - split; reflexivity.
  - apply andb_prop in H. destruct H as [Hc Hs].
    destruct (IH Hs) as [IH1 IH2]. rewrite Hc, IH1, IH2. cbn [bind].
    split; [reflexivity|]. f_equal. apply byte_to_of_N.
    apply N.ltb_lt in Hc. lia.
Qed.

(** The digits printed for a positive number start with a digit other
    than [0]. *)
Lemma uint_digits_leading : forall d : Decimal.uint,
  d <> Decimal.Nil -> (forall d' : Decimal.uint, d <> Decimal.D0 d') ->
  leading_digits (uint_digits d) = true.
Proof.
  assert (D : forall d, forallb is_digit (uint_digits d) = true)
    by (induction d; cbn [uint_digits forallb]; try rewrite IHd; reflexivity).
  intros d Hnil H0. destruct d; cbn [uint_digits leading_digits];
    try (rewrite D; reflexivity).
  - congruence.
  - exfalso. now apply (H0 d).
Qed.

Lemma to_uint_leading : forall p : positive,
  leading_digits (uint_digits (Pos.to_uint p)) = true.
Proof.
  intro p. apply uint_digits_leading.
  - apply DecimalPos.Unsigned.to_uint_nonnil.
  - intros d' E.
    pose proof (DecimalPos.Unsigned.to_of (Pos.to_uint p)) as H.
    rewrite DecimalPos.Unsigned.of_to in H. cbn [N.to_uint] in H.
    rewrite E in H at 1.
    pose proof (DecimalPos.Unsigned.to_uint_nonzero p) as Hz.
    unfold Decimal.unorm in H.
    destruct (Decimal.nzhead (Pos.to_uint p)) eqn:Hh;
      try (symmetry in H; now apply (DecimalFacts.nzhead_nonzero _ _
          (eq_trans Hh H))).
    apply Hz. rewrite E. congruence.
Qed.

(** What [int_str] prints is a standard numeral. *)
Lemma standard_numeral_int_str : forall z : Z,
  standard_numeral (int_str z) = true.
Proof.
  intros [|p|p]; unfold int_str; cbn [Z.to_int].
  - reflexivity.
  - pose proof (to_uint_leading p) as H.
    destruct (uint_digits (Pos.to_uint p)) as [|c rest] eqn:E;
      [discriminate H|].
    unfold standard_numeral. rewrite H, orb_true_r.
    cbn [leading_digits] in H. unfold is_digit in H.
    destruct (N.eqb_spec c 45) as [->|]; [discriminate H|reflexivity].
  - unfold standard_numeral. cbn [uint_digits]. rewrite N.eqb_refl.
    apply to_uint_leading.
Qed.

Section ConstructionFacts.

Variable int_max_str_digits : N.
Variable float_str : Z -> text.
Variable decimal_str : bool -> N -> dec_exp -> text.

(** C8.  A [bytes] source is passed through: whatever the encoding and
    error arguments, construction succeeds and the instance holds
    exactly the bytes given; its [bytes] property returns them and it
    compares equal to them. *)
Theorem init_bytes_passthrough : forall (b : bytestr) (encoding errors : pyobj),
  exists self : octets.t,
    octets.__init__ int_max_str_digits float_str decimal_str
                    (PyBytes b) encoding errors
    = Return self
    /\ octets._bytes self = b
    /\ octets.bytes self = b
    /\ octets.__eq__ self b = true.
Proof.
  intros b encoding errors. exists (octets.mk b).
  repeat split. unfold octets.__eq__. cbn [octets._bytes].
  destruct (list_eq_dec Byte.byte_eq_dec b b); congruence.
Qed.

(** C10.  A call without a source argument, [octets()], succeeds and
    the instance holds the empty bytes; so it does when an encoding or
    an error policy is given without a source. *)
Theorem new_without_source : forall encoding errors : option pyobj,
  exists self : octets.t,
    octets.new int_max_str_digits float_str decimal_str
               None encoding errors = Return self
    /\ octets.bytes self = B "".
Proof.
  intros encoding errors. exists (octets.mk []). split; reflexivity.
Qed.

(** C6.  A numeric source, whether [int] (or its subclass [bool]),
    [float] or [Decimal], is converted with the host's [str] and the
    text is encoded as ASCII; the encoding and error arguments play no
    part, and construction fails exactly as the conversion does.  For an
    [int] that the host converts, the bytes are its standard base-10
    numeral: they read back as the integer and have no leading zero; an
    [int] of more digits than the host's limit is refused by [str], and
    so by the constructor, with [ValueError].  For a [bool] the bytes
    are [True] or [False]. *)
Theorem init_numeric : forall (n encoding errors : pyobj),
  is_numeric n = true ->
  octets.__init__ int_max_str_digits float_str decimal_str n encoding errors
  = (s <- py_str int_max_str_digits float_str decimal_str n ;;
     b <- ascii_encode s ;;
     Return (octets.mk b))
  /\ (forall z : Z, n = PyInt z ->
      if exceeds_max_str_digits int_max_str_digits z
      then py_str int_max_str_digits float_str decimal_str n = Raise ValueError
           /\ octets.__init__ int_max_str_digits float_str decimal_str
                              n encoding errors
              = Raise ValueError
      else exists b : bytestr,
             py_str int_max_str_digits float_str decimal_str n
             = Return (charmap_decode b)
             /\ octets.__init__ int_max_str_digits float_str decimal_str
                                n encoding errors
                = Return (octets.mk b)
             /\ int_of_text (charmap_decode b) = Some z
             /\ standard_numeral (charmap_decode b) = true)
  /\ (forall t : bool, n = PyBool t ->
      octets.__init__ int_max_str_digits float_str decimal_str n encoding errors
      = Return (octets.mk (if t then B "True" else B "False"))).
Proof.
  intros n encoding errors Hn.
  assert (E : octets.__init__ int_max_str_digits float_str decimal_str
                              n encoding errors
              = (s <- py_str int_max_str_digits float_str decimal_str n ;;
                 b <- ascii_encode s ;;
                 Return (octets.mk b))).
  { unfold octets.__init__. rewrite Hn.
    destruct (py_str int_max_str_digits float_str decimal_str n);
      cbn [bind]; try reflexivity.
    now rewrite str_encode_ascii. }
  split; [exact E|]. split.
  - intros z ->. rewrite E. cbn [py_str]. unfold int_to_str.
    destruct (exceeds_max_str_digits int_max_str_digits z).
    + split; reflexivity.
    + destruct (ascii_encode_total (int_str z) (int_str_ascii z)) as [H1 H2].
      exists (map byte_of_N (int_str z)). rewrite H2. cbn [bind].
      rewrite H1. cbn [bind]. repeat split.
      * apply int_of_text_int_str.
      * apply standard_numeral_int_str.
  - intros t ->. rewrite E. destruct t; reflexivity.
Qed.

(** C3, as amended.  A text source without an encoding is refused
    with [TypeError], whatever the error policy.  With an encoding, a
    policy that is given and not empty is handed to [str.encode] with
    it; with the policy absent or empty the text is encoded with the
    encoding alone.  Under a codec of the fragment the strict policy is
    in force when the policy is absent, empty or ["strict"] itself:
    construction then raises the encoding error exactly when some
    character of the text has no encoding, and otherwise holds the
    characters encoded in order. *)
Theorem init_text : forall (s : text) (encoding errors : pyobj),
  octets.__init__ int_max_str_digits float_str decimal_str
                  (PyStr s) PyNone errors
  = Raise TypeError
  /\ (encoding <> PyNone -> truthy errors = true ->
      octets.__init__ int_max_str_digits float_str decimal_str
                      (PyStr s) encoding errors
      = (b <- str_encode s encoding (Some errors) ;; Return (octets.mk b)))
  /\ (encoding <> PyNone -> truthy errors = false ->
      octets.__init__ int_max_str_digits float_str decimal_str
                      (PyStr s) encoding errors
      = (b <- str_encode s encoding None ;; Return (octets.mk b)))
  /\ (forall (name : text) (cd : codec),
      encoding = PyStr name -> lookup_codec name = Some cd ->
      errors = PyNone \/ errors = PyStr [] \/ errors = PyStr (T "strict") ->
      octets.__init__ int_max_str_digits float_str decimal_str
                      (PyStr s) encoding errors
      = (b <- strict_encode cd s ;; Return (octets.mk b))
      /\ (octets.__init__ int_max_str_digits float_str decimal_str
                          (PyStr s) encoding errors
          = Raise UnicodeEncodeError
          <-> exists c : N, In c s /\ encodable cd c = false)).
Proof.
  intros s encoding errors.
  split; [reflexivity|].
  split.
  { intros He Ht. unfold octets.__init__. cbn [is_numeric].
    destruct encoding; try congruence; rewrite Ht; reflexivity. }
  split.
  { intros He Ht. unfold octets.__init__. cbn [is_numeric].
    destruct encoding; try congruence; rewrite Ht; reflexivity. }
  intros name cd -> Hcd Herr.
  assert (E : octets.__init__ int_max_str_digits float_str decimal_str
                              (PyStr s) (PyStr name) errors
              = (b <- strict_encode cd s ;; Return (octets.mk b))).
  { unfold octets.__init__. cbn [is_numeric].
    destruct Herr as [-> | [-> | ->]]; cbn [truthy List.length Nat.eqb negb];
      unfold str_encode; rewrite (codec_name_c_string name cd Hcd);
      change (c_string (T "strict")) with (Return (T "strict")); cbn [bind];
      rewrite Hcd, ?encode_with_strict; reflexivity. }
  split; [exact E|].
  rewrite E. unfold strict_encode.
  destruct (forallb (encodable cd) s) eqn:F; cbn [bind].
  - split; [discriminate|].
    intros (c & Hin & Hc). rewrite forallb_forall in F.
    specialize (F c Hin). congruence.
  - split; [intros _|reflexivity].
    assert (G : existsb (fun c => negb (encodable cd c)) s = true).
    { clear E. induction s as [|c s IH]; cbn [forallb existsb] in *;
        [discriminate|].
      destruct (encodable cd c); cbn [andb negb orb] in *; auto. }
    apply existsb_exists in G. destruct G as (c & Hin & Hc).
    exists c. split; [exact Hin|]. now destruct (encodable cd c).
Qed.

End ConstructionFacts.

(** C9.  Conversion to text is refused for every instance, whatever it
    holds, the empty instance included: [__str__], which is [_to_text],
    raises [TypeError]. *)
Theorem str_always_raises : forall self : octets.t,
  octets.__str__ self = Raise TypeError.
Proof.
  intro self. reflexivity.
Qed.

(** A numeric source at work: [octets(10)] holds the two bytes [10]. *)
Lemma init_numeric_witness :
  is_numeric (PyInt 10) = true
  /\ octets.__init__ 4300 (fun _ => []) (fun _ _ _ => [])
                     (PyInt 10) PyNone PyNone
     = Return (octets.mk (B "10")).
Proof.
  split; [reflexivity|].
  destruct (init_numeric 4300 (fun _ => []) (fun _ _ _ => [])
                         (PyInt 10) PyNone PyNone
              eq_refl) as [E _].
  rewrite E. reflexivity.
Defined.

(** C3 at work: [octets("h\xe9", "ascii")] raises the encoding error, for
    [\xe9] has no ASCII encoding. *)
Lemma init_text_witness :
  octets.__init__ 4300 (fun _ => []) (fun _ _ _ => []) (PyStr [104; 233]%N)
                  (PyStr (T "ascii")) PyNone
  = Raise UnicodeEncodeError.
Proof.
  destruct (init_text 4300 (fun _ => []) (fun _ _ _ => []) [104; 233]%N
              (PyStr (T "ascii")) PyNone) as (_ & _ & _ & H).
  destruct (H (T "ascii") Ascii eq_refl eq_refl (or_introl eq_refl)) as [_ [_ G]].
  apply G. exists 233%N. split; [simpl; auto | reflexivity].
Defined.

(** C3 as stated fails: with the policy ["strict"] given, [octets("\xe9",
    "ascii", "strict")] raises the encoding error although the policy is
    not absent. *)
Lemma init_text_strict_policy_raises :
  ~ (octets.__init__ 4300 (fun _ => []) (fun _ _ _ => []) (PyStr [233%N])
                     (PyStr (T "ascii")) (PyStr (T "strict"))
     = Raise UnicodeEncodeError
     <-> PyStr (T "strict") = PyNone
         /\ exists c : N, In c [233%N] /\ encodable Ascii c = false).
Proof.
  intros [H _].
  assert (E : octets.__init__ 4300 (fun _ => []) (fun _ _ _ => [])
                              (PyStr [233%N])
                (PyStr (T "ascii")) (PyStr (T "strict"))
              = Raise UnicodeEncodeError) by reflexivity.
  destruct (H E) as [Habs _]. discriminate Habs.
Qed.

(** ** Indexing *)

Lemma slice_bound_int : forall (key : pyobj) (k : Z),
  int_value key = Some k -> slice_bound key = Return (Some k).
Proof.
  intros key k H. destruct key; cbn in H; try discriminate;
    unfold slice_bound; cbn [int_value]; congruence.
Qed.

Lemma nth_error_in_range : forall {A : Type} (l : list A) (j : Z),
  0 <= j < Z.of_nat (List.length l) ->
  exists x : A, nth_error l (Z.to_nat j) = Some x.
Proof.
  intros A l j H.
  destruct (nth_error l (Z.to_nat j)) as [x|] eqn:E; [now exists x|].
  apply nth_error_None in E. lia.
Qed.

(** The slice from a position to the next holds the item there. *)
Lemma sequence_slice_one :
  forall {A : Type} (l : list A) (start stop : pyobj) (j : Z) (x : A),
  nth_error l (Z.to_nat j) = Some x ->
  slice_indices start stop PyNone (Z.of_nat (List.length l))
  = Return (j, j + 1, 1) ->
  sequence_slice l start stop PyNone = Return [x].
Proof.
  intros A l start stop j x Hx Hix.
  unfold sequence_slice. rewrite Hix. cbn [bind].
  assert (Hn : slice_length j (j + 1) 1 = 1).
  { unfold slice_length. cbn [Z.ltb Z.compare].
    assert (Hlt : (j <? j + 1) = true) by (apply Z.ltb_lt; lia).
    rewrite Hlt, Z.div_1_r. lia. }
  rewrite Hn. change (Z.to_nat 1) with 1%nat.
  cbn [take_stride]. now rewrite Hx.
Qed.

(** The slice that [__getitem__] builds for an integer key in range. *)
Lemma slice_indices_item : forall (key : pyobj) (k len : Z),
  int_value key = Some k -> - len <= k < len ->
  slice_indices key (if k =? -1 then PyNone else PyInt (k + 1)) PyNone len
  = Return (from_end len k, from_end len k + 1, 1).
Proof.
  intros key k len Hk Hr.
  unfold slice_indices. cbn [slice_bound bind Z.eqb Z.ltb Z.compare].
  rewrite (slice_bound_int key k Hk). cbn [bind].
  unfold from_end, clip_bound.
  destruct (Z.eqb_spec k (-1)) as [->|Hne].
  - cbn [slice_bound bind Z.ltb Z.compare]. do 3 f_equal; lia.
  - cbn [slice_bound int_value bind].
    destruct (Z.ltb_spec k 0); destruct (Z.ltb_spec (k + 1) 0);
      do 3 f_equal; lia.
Qed.

Example getitem_0 :
  octets.__getitem__ (octets.mk (B "abc")) (PyInt 0) = Return (PyBytes (B "a")).
Proof. reflexivity. Qed.

Example getitem_last :
  octets.__getitem__ (octets.mk (B "abc")) (PyInt (-1)) = Return (PyBytes (B "c")).
Proof. reflexivity. Qed.

Example getitem_5 :
  octets.__getitem__ (octets.mk (B "abc")) (PyInt 5) = Raise IndexError.
Proof. reflexivity. Qed.

(** C4.  With an integer key [i] (a [bool] counts as the integer it is),
    [__getitem__] returns the one-byte [bytes] holding the byte at
    position [i], counted from the end when [i] is negative, whenever
    [-len <= i < len], and raises [IndexError] otherwise; a key that is
    neither an integer nor a slice raises [TypeError]. *)
Theorem getitem_index : forall (self : octets.t) (key : pyobj),
  let len := Z.of_nat (List.length (octets._bytes self)) in
  (forall i : Z, int_value key = Some i -> - len <= i < len ->
     exists x : byte,
       nth_error (octets._bytes self) (Z.to_nat (from_end len i)) = Some x
       /\ octets.__getitem__ self key = Return (PyBytes [x]))
  /\ (forall i : Z, int_value key = Some i -> ~ (- len <= i < len) ->
      octets.__getitem__ self key = Raise IndexError)
  /\ (int_value key = None ->
      (forall start stop step, key <> PySlice start stop step) ->
      octets.__getitem__ self key = Raise TypeError).
Proof.
  intros self key len. split; [|split].
  - intros i Hi Hr.
    assert (Hj : 0 <= from_end len i < len).
    { unfold from_end. destruct (Z.ltb_spec i 0); lia. }
    destruct (nth_error_in_range (octets._bytes self) _ Hj) as [x Hx].
    exists x. split; [exact Hx|].
    assert (E : octets.__getitem__ self key
                = (_ <- bytes_getitem (octets._bytes self) key ;;
                   bytes_getitem (octets._bytes self)
                     (PySlice key (if i =? -1 then PyNone else PyInt (i + 1))
                              PyNone))).
    { unfold octets.__getitem__. destruct key; cbn in Hi; try discriminate;
        cbn [int_value]; injection Hi as <-; reflexivity. }
    rewrite E.
    assert (E1 : bytes_getitem (octets._bytes self) key
                 = Return (PyInt (Z.of_N (Byte.to_N x)))).
    { unfold bytes_getitem, sequence_index. fold len.
      assert (Hb : ((from_end len i <? 0) || (len <=? from_end len i)) = false).
      { apply orb_false_intro; [apply Z.ltb_ge | apply Z.leb_gt]; lia. }
      destruct key; cbn in Hi; try discriminate; cbn [int_value];
        injection Hi as Hi; rewrite Hi; fold (from_end len i);
        rewrite Hb; cbn [bind]; now rewrite Hx. }
    rewrite E1. cbn [bind bytes_getitem].
    rewrite (sequence_slice_one _ _ _ (from_end len i) x Hx);
      [reflexivity|].
    now apply slice_indices_item.
  - intros i Hi Hr.
    assert (Hb : ((from_end len i <? 0) || (len <=? from_end len i)) = true).
    { unfold from_end. apply orb_true_iff.
      destruct (Z.ltb_spec i 0).
      - left. apply Z.ltb_lt. lia.
      - right. apply Z.leb_le. lia. }
    unfold octets.__getitem__, bytes_getitem, sequence_index. fold len.
    destruct key; cbn in Hi; try discriminate; cbn [int_value];
      injection Hi as Hi; rewrite Hi; fold (from_end len i);
      rewrite Hb; reflexivity.
  - intros Hn Hs. unfold octets.__getitem__.
    destruct key; cbn in Hn; try discriminate; try reflexivity.
    exfalso. eapply Hs. reflexivity.
Qed.

(** C4 at work on [octets(b"abc")]: the last byte, an index out of range,
    and a key that is not an index. *)
Lemma getitem_index_witness :
  octets.__getitem__ (octets.mk (B "abc")) (PyInt (-1)) = Return (PyBytes (B "c"))
  /\ octets.__getitem__ (octets.mk (B "abc")) (PyInt 5) = Raise IndexError
  /\ octets.__getitem__ (octets.mk (B "abc")) PyObject = Raise TypeError.
Proof.
  split; [|split].
  - pose proof (getitem_index (octets.mk (B "abc")) (PyInt (-1))) as H.
    cbv zeta in H. destruct H as (H & _ & _).
    destruct (H (-1) eq_refl) as (x & Hx & E); [cbn; lia|].
    cbn in Hx. injection Hx as <-. exact E.
  - pose proof (getitem_index (octets.mk (B "abc")) (PyInt 5)) as H.
    cbv zeta in H. destruct H as (_ & H & _).
    apply (H 5 eq_refl). cbn. lia.
  - pose proof (getitem_index (octets.mk (B "abc")) PyObject) as H.
    cbv zeta in H. destruct H as (_ & _ & H).
    apply H; [reflexivity | discriminate].
Defined.

(** ** Iteration *)

Lemma slice_indices_window : forall i len : Z,
  0 <= i < len ->
  slice_indices (PyInt i) (PyInt (i + 1)) PyNone len = Return (i, i + 1, 1).
Proof.
  intros i len H. unfold slice_indices, clip_bound.
  cbn [slice_bound int_value bind Z.eqb Z.ltb Z.compare].
  destruct (Z.ltb_spec i 0); destruct (Z.ltb_spec (i + 1) 0);
    do 3 f_equal; lia.
Qed.

(** One step of the generator standing before the byte [x]. *)
Lemma next_yields : forall (self : octets.t) (pre suf : bytestr) (x : byte),
  octets._bytes self = pre ++ x :: suf ->
  octets.next (octets.mkgen self (Z.of_nat (List.length pre))
                 (Z.of_nat (List.length (octets._bytes self))))
  = Return (PyBytes [x],
            octets.mkgen self (Z.of_nat (List.length pre) + 1)
              (Z.of_nat (List.length (octets._bytes self)))).
Proof.
  intros self pre suf x E. unfold octets.next.
  cbn [octets.gen_i octets.gen_stop octets.gen_self].
  assert (Hlen : Z.of_nat (List.length pre)
                 < Z.of_nat (List.length (octets._bytes self))).
  { rewrite E, length_app. cbn [List.length]. lia. }
  assert (Hlt : (Z.of_nat (List.length pre)
                 <? Z.of_nat (List.length (octets._bytes self))) = true)
    by now apply Z.ltb_lt.
  rewrite Hlt. cbn [bytes_getitem].
  rewrite (sequence_slice_one _ _ _ (Z.of_nat (List.length pre)) x).
  - reflexivity.
  - rewrite Nat2Z.id, E, nth_error_app2 by lia.
    now rewrite Nat.sub_diag.
  - apply slice_indices_window. lia.
Qed.

Lemma next_stops : forall (self : octets.t) (stop : Z),
  octets.next (octets.mkgen self stop stop) = Raise StopIteration.
Proof.
  intros self stop. unfold octets.next.
  cbn [octets.gen_i octets.gen_stop]. now rewrite Z.ltb_irrefl.
Qed.

(** Draining the generator from any position yields the remaining bytes,
    each as a one-byte [bytes]. *)
Lemma drain_from : forall (self : octets.t) (suf pre : bytestr) (fuel : nat),
  octets._bytes self = pre ++ suf ->
  (List.length suf < fuel)%nat ->
  octets.drain fuel (octets.mkgen self (Z.of_nat (List.length pre))
                       (Z.of_nat (List.length (octets._bytes self))))
  = Return (map (fun x => PyBytes [x]) suf).
Proof.
  intros self suf. induction suf as [|x suf IH]; intros pre fuel E Hf.
  - destruct fuel as [|fuel]; [inversion Hf|]. cbn [octets.drain map].
    rewrite app_nil_r in E. rewrite E. now rewrite next_stops.
  - destruct fuel as [|fuel]; [inversion Hf|]. cbn [octets.drain map].
    rewrite (next_yields self pre suf x E).
    replace (Z.of_nat (List.length pre) + 1)
      with (Z.of_nat (List.length (pre ++ [x])))
      by (rewrite length_app; cbn [List.length]; lia).
    rewrite IH.
    + reflexivity.
    + now rewrite <- app_assoc.
    + cbn [List.length] in Hf. lia.
Qed.

Lemma advance_self : forall (k : nat) (g g' : octets.generator),
  octets.advance k g = Some g' -> octets.gen_self g' = octets.gen_self g.
Proof.
  induction k as [|k IH]; intros g g' H; cbn [octets.advance] in H.
  - now injection H as <-.
  - unfold octets.next in H.
    destruct (octets.gen_i g <? octets.gen_stop g); [|discriminate].
    destruct (bytes_getitem _ _); cbn [bind] in H; try discriminate.
    apply IH in H. exact H.
Qed.

Example iter_abc :
  octets.list_of (octets.__iter__ (octets.mk (B "abc")))
  = Return [PyBytes (B "a"); PyBytes (B "b"); PyBytes (B "c")].
Proof. reflexivity. Qed.

(** C5.  Iterating an instance yields, in storage order, one element per
    byte, the [i]-th being the one-byte [bytes] that holds the [i]-th
    byte: as many elements as bytes, each a [bytes] of length one and
    none an integer.  The iteration can be started again: however far a
    generator has been advanced, a new [__iter__] on the instance yields
    the whole sequence. *)
Theorem iter_yields_single_bytes : forall self : octets.t,
  octets.list_of (octets.__iter__ self)
  = Return (map (fun x => PyBytes [x]) (octets._bytes self))
  /\ (forall vs : list pyobj,
      octets.list_of (octets.__iter__ self) = Return vs ->
      List.length vs = List.length (octets._bytes self)
      /\ (forall (i : nat) (x : byte),
          nth_error (octets._bytes self) i = Some x ->
          nth_error vs i = Some (PyBytes [x]))
      /\ Forall (fun v => exists x : byte, v = PyBytes [x]) vs)
  /\ (forall (k : nat) (g : octets.generator),
      octets.advance k (octets.__iter__ self) = Some g ->
      octets.list_of (octets.__iter__ (octets.gen_self g))
      = Return (map (fun x => PyBytes [x]) (octets._bytes self))).
Proof.
  intro self.
  assert (E : octets.list_of (octets.__iter__ self)
              = Return (map (fun x => PyBytes [x]) (octets._bytes self))).
  { unfold octets.list_of, octets.__iter__.
    cbn [octets.gen_i octets.gen_stop].
    apply (drain_from self (octets._bytes self) []); [reflexivity|].
    rewrite Z.sub_0_r, Nat2Z.id. lia. }
  split; [exact E|]. split.
  - intros vs Hvs. rewrite E in Hvs. injection Hvs as <-.
    split; [apply length_map|]. split.
    + intros i x Hx.
      exact (map_nth_error (fun y => PyBytes [y]) i (octets._bytes self) Hx).
    + apply Forall_forall. intros v Hv. apply in_map_iff in Hv.
      destruct Hv as (x & <- & _). now exists x.
  - intros k g Hg. apply advance_self in Hg. rewrite Hg.
    cbn [octets.__iter__ octets.gen_self]. exact E.
Qed.

(** C5 at work: after two steps over [octets(b"abc")], a new iteration
    still yields the three one-byte elements. *)
Lemma iter_yields_single_bytes_witness :
  octets.list_of (octets.__iter__ (octets.mk (B "abc")))
  = Return [PyBytes (B "a"); PyBytes (B "b"); PyBytes (B "c")].
Proof.
  destruct (iter_yields_single_bytes (octets.mk (B "abc"))) as (_ & _ & H).
  exact (H 2%nat (octets.mkgen (octets.mk (B "abc")) 2 3) eq_refl).
Defined.

(** ** Slicing *)

Lemma div_pred_exact : forall d s : Z,
  0 < s -> 0 < d -> d mod s = 0 -> (d - 1) / s = d / s - 1.
Proof.
  intros d s Hs Hd Hm.
  symmetry. apply (Z.div_unique (d - 1) s (d / s - 1) (s - 1)); [lia|].
  pose proof (Z.div_mod d s ltac:(lia)). lia.
Qed.

Lemma div_pred_inexact : forall d s : Z,
  0 < s -> d mod s <> 0 -> (d - 1) / s = d / s.
Proof.
  intros d s Hs Hm.
  symmetry. apply (Z.div_unique (d - 1) s (d / s) (d mod s - 1)).
  - pose proof (Z.mod_pos_bound d s Hs). lia.
  - pose proof (Z.div_mod d s ltac:(lia)). lia.
Qed.

Lemma positions_S : forall m : nat,
  positions (S m) = positions m ++ [Z.of_nat m].
Proof.
  intro m. unfold positions. rewrite seq_S, map_app. reflexivity.
Qed.

Lemma progression_S : forall (a s : Z) (n : nat),
  progression a s (S n) = progression a s n ++ [a + Z.of_nat n * s].
Proof.
  intros a s n. unfold progression. rewrite seq_S, map_app. reflexivity.
Qed.

(** Filtering the positions below [m] by an ascending stride gives the
    progression from its start. *)
Lemma filter_stride_up : forall (a b s : Z) (m : nat),
  0 <= a -> 0 < s ->
  filter (stride_up a b s) (positions m)
  = progression a s (Z.to_nat (slice_length a (Z.min b (Z.of_nat m)) s)).
Proof.
  intros a b s m Ha Hs. induction m as [|m IH].
  - cbn [positions seq map filter]. unfold slice_length.
    destruct (Z.ltb_spec s 0); [lia|].
    destruct (Z.ltb_spec a (Z.min b (Z.of_nat 0))); [lia|]. reflexivity.
  - rewrite positions_S, filter_app, IH. cbn [filter].
    set (M := Z.of_nat m).
    replace (Z.of_nat (S m)) with (M + 1) by lia.
    unfold stride_up, slice_length.
    destruct (Z.ltb_spec s 0); [lia|].
    destruct (Z.leb_spec a M); cbn [andb].
    + destruct (Z.ltb_spec M b); cbn [andb].
      * replace (Z.min b (M + 1)) with (M + 1) by lia.
        replace (Z.min b M) with M by lia.
        destruct (Z.ltb_spec a (M + 1)); [|lia].
        replace (M + 1 - a - 1) with (M - a) by lia.
        destruct (Z.eqb_spec ((M - a) mod s) 0) as [Hm|Hm].
        -- assert (Hq : M - a = s * ((M - a) / s)).
           { pose proof (Z.div_mod (M - a) s ltac:(lia)). lia. }
           assert (Hq0 : 0 <= (M - a) / s) by (apply Z.div_pos; lia).
           destruct (Z.ltb_spec a M).
           ++ rewrite (div_pred_exact (M - a) s) by lia.
              replace ((M - a) / s - 1 + 1) with ((M - a) / s) by lia.
              rewrite Z2Nat.inj_add by lia. change (Z.to_nat 1) with 1%nat.
              rewrite Nat.add_1_r, progression_S. f_equal. f_equal.
              rewrite Z2Nat.id by lia. lia.
           ++ assert (M = a) by lia. subst a.
              replace (M - M) with 0 in * by lia.
              rewrite Z.div_0_l by lia.
              change (Z.to_nat (0 + 1)) with 1%nat.
              change (Z.to_nat 0) with 0%nat.
              unfold progression. cbn [seq map app]. f_equal. lia.
        -- rewrite app_nil_r.
           destruct (Z.ltb_spec a M).
           ++ rewrite (div_pred_inexact (M - a) s) by lia. reflexivity.
           ++ exfalso. apply Hm. replace (M - a) with 0 by lia.
              apply Z.mod_0_l. lia.
      * rewrite app_nil_r.
        replace (Z.min b (M + 1)) with b by lia.
        replace (Z.min b M) with b by lia. reflexivity.
    + rewrite app_nil_r.
      destruct (Z.ltb_spec a (Z.min b (M + 1))); [lia|].
      destruct (Z.ltb_spec a (Z.min b M)); [lia|]. reflexivity.
Qed.

Lemma progression_cons : forall (a s : Z) (n : nat),
  progression a s (S n) = a :: progression (a + s) s n.
Proof.
  intros a s n. unfold progression. cbn [seq map].
  f_equal; [lia|]. rewrite <- seq_shift, map_map.
  apply map_ext. intro k. lia.
Qed.

(** The copying loop reads the items at the positions of its
    progression, as long as they all lie in the sequence. *)
Lemma take_stride_items : forall {A : Type} (l : list A) (s : Z) (n : nat) (a : Z),
  (forall k : nat, (k < n)%nat ->
     0 <= a + Z.of_nat k * s < Z.of_nat (List.length l)) ->
  take_stride l a s n = items_at l (progression a s n).
Proof.
  intros A l s n. induction n as [|n IH]; intros a H; [reflexivity|].
  rewrite progression_cons. cbn [take_stride items_at flat_map].
  destruct (nth_error_in_range l a) as [x Hx].
  { specialize (H 0%nat ltac:(lia)). lia. }
  rewrite Hx. cbn [app]. f_equal. apply IH.
  intros k Hk. specialize (H (S k) ltac:(lia)). lia.
Qed.

(** An ascending slice with its bounds inside the sequence. *)
Lemma take_stride_up : forall {A : Type} (l : list A) (a b s : Z),
  0 <= a -> b <= Z.of_nat (List.length l) -> 0 < s ->
  take_stride l a s (Z.to_nat (slice_length a b s))
  = items_at l (filter (stride_up a b s) (positions (List.length l))).
Proof.
  intros A l a b s Ha Hb Hs.
  rewrite filter_stride_up by assumption.
  replace (Z.min b (Z.of_nat (List.length l))) with b by lia.
  apply take_stride_items. intros k Hk.
  unfold slice_length in Hk.
  destruct (Z.ltb_spec s 0); [lia|].
  destruct (Z.ltb_spec a b); [|cbn in Hk; lia].
  assert (Hq : Z.of_nat k <= (b - a - 1) / s) by lia.
  assert (Hm : s * ((b - a - 1) / s) <= b - a - 1)
    by (apply Z.mul_div_le; lia).
  nia.
Qed.

Lemma filter_map_commute : forall {A B : Type} (f : B -> bool) (g : A -> B) (l : list A),
  filter f (map g l) = map g (filter (fun x => f (g x)) l).
Proof.
  intros A B f g l. induction l as [|x l IH]; cbn [map filter]; [reflexivity|].
  destruct (f (g x)); cbn [map]; now rewrite IH.
Qed.

(** A descending slice with its bounds inside the sequence. *)
Lemma take_stride_down : forall {A : Type} (l : list A) (a b s : Z),
  a <= Z.of_nat (List.length l) - 1 -> -1 <= b -> 0 < s ->
  take_stride l a (- s) (Z.to_nat (slice_length a b (- s)))
  = items_at l (filter (stride_down a b s) (positions_down (List.length l))).
Proof.
  intros A l a b s Ha Hb Hs.
  set (len := Z.of_nat (List.length l)) in *.
  unfold positions_down. fold len. rewrite filter_map_commute.
  rewrite (filter_ext _ (stride_up (len - 1 - a) (len - 1 - b) s)).
  2:{ intro i. unfold stride_down, stride_up.
      replace (a - (len - 1 - i)) with (i - (len - 1 - a)) by lia.
      destruct (Z.eqb ((i - (len - 1 - a)) mod s) 0);
        rewrite ?andb_true_r, ?andb_false_r; [|reflexivity].
      destruct (Z.ltb_spec b (len - 1 - i)); destruct (Z.leb_spec (len - 1 - i) a);
        destruct (Z.leb_spec (len - 1 - a) i); destruct (Z.ltb_spec i (len - 1 - b));
        cbn [andb]; try reflexivity; lia. }
  rewrite filter_stride_up by lia.
  replace (Z.min (len - 1 - b) (Z.of_nat (List.length l))) with (len - 1 - b)
    by (fold len; lia).
  assert (Hn : slice_length (len - 1 - a) (len - 1 - b) s = slice_length a b (- s)).
  { unfold slice_length.
    destruct (Z.ltb_spec s 0); [lia|]. destruct (Z.ltb_spec (- s) 0); [|lia].
    destruct (Z.ltb_spec (len - 1 - a) (len - 1 - b)); destruct (Z.ltb_spec b a);
      try lia. rewrite Z.opp_involutive. do 2 f_equal. lia. }
  rewrite Hn.
  assert (Hp : map (fun i => len - 1 - i)
                   (progression (len - 1 - a) s (Z.to_nat (slice_length a b (- s))))
               = progression a (- s) (Z.to_nat (slice_length a b (- s)))).
  { unfold progression. rewrite map_map. apply map_ext. intro k. lia. }
  rewrite Hp. apply take_stride_items. intros k Hk.
  unfold slice_length in Hk.
  destruct (Z.ltb_spec (- s) 0); [|lia].
  destruct (Z.ltb_spec b a); [|cbn in Hk; lia].
  rewrite Z.opp_involutive in Hk.
  assert (Hq : Z.of_nat k <= (a - b - 1) / s) by lia.
  assert (Hm : s * ((a - b - 1) / s) <= a - b - 1)
    by (apply Z.mul_div_le; lia).
  fold len. nia.
Qed.

Lemma stride_up_agree : forall a a' b b' s i : Z,
  (a <= i \/ a' <= i -> a = a') -> (i < b <-> i < b') ->
  stride_up a b s i = stride_up a' b' s i.
Proof.
  intros a a' b b' s i Ha Hb. unfold stride_up.
  destruct (Z.leb_spec a i); destruct (Z.leb_spec a' i); cbn [andb];
    try reflexivity; try (exfalso; lia).
  rewrite (Ha (or_introl H)).
  destruct (Z.ltb_spec i b); destruct (Z.ltb_spec i b'); cbn [andb];
    try reflexivity; exfalso; lia.
Qed.

Lemma stride_down_agree : forall a a' b b' s i : Z,
  (i <= a \/ i <= a' -> a = a') -> (b < i <-> b' < i) ->
  stride_down a b s i = stride_down a' b' s i.
Proof.
  intros a a' b b' s i Ha Hb. unfold stride_down.
  destruct (Z.ltb_spec b i); destruct (Z.ltb_spec b' i); cbn [andb];
    try reflexivity; try (exfalso; lia).
  destruct (Z.leb_spec i a); destruct (Z.leb_spec i a'); cbn [andb];
    try reflexivity; try (exfalso; lia).
  now rewrite (Ha (or_introl H1)).
Qed.

(** On the positions of the sequence, the slice of the specification and
    the adjusted indices of [slice.indices] select alike. *)
Lemma in_slice_up : forall (len : Z) (lo hi : option Z) (step i : Z),
  0 < step -> 0 <= i < len ->
  in_slice len lo hi step i
  = stride_up (clip_bound len 0 len 0 lo) (clip_bound len 0 len len hi) step i.
Proof.
  intros len lo hi step i Hs Hi. unfold in_slice.
  assert (E : (0 <? step) = true) by now apply Z.ltb_lt.
  rewrite E. apply stride_up_agree; unfold clip_bound, from_end.
  - destruct lo as [z|]; [|reflexivity]. destruct (Z.ltb_spec z 0); lia.
  - destruct hi as [z|]; [|reflexivity]. destruct (Z.ltb_spec z 0); lia.
Qed.

Lemma in_slice_down : forall (len : Z) (lo hi : option Z) (step i : Z),
  step < 0 -> 0 <= i < len ->
  in_slice len lo hi step i
  = stride_down (clip_bound len (-1) (len - 1) (len - 1) lo)
                (clip_bound len (-1) (len - 1) (-1) hi) (- step) i.
Proof.
  intros len lo hi step i Hs Hi. unfold in_slice.
  assert (E : (0 <? step) = false) by (apply Z.ltb_ge; lia).
  rewrite E. apply stride_down_agree; unfold clip_bound, from_end.
  - destruct lo as [z|]; [|reflexivity]. destruct (Z.ltb_spec z 0); lia.
  - destruct hi as [z|]; [|reflexivity]. destruct (Z.ltb_spec z 0); lia.
Qed.

Lemma positions_range : forall (m : nat) (i : Z),
  In i (positions m) -> 0 <= i < Z.of_nat m.
Proof.
  intros m i H. unfold positions in H. apply in_map_iff in H.
  destruct H as (k & <- & Hk). apply in_seq in Hk. lia.
Qed.

Lemma positions_down_range : forall (m : nat) (i : Z),
  In i (positions_down m) -> 0 <= i < Z.of_nat m.
Proof.
  intros m i H. unfold positions_down in H. apply in_map_iff in H.
  destruct H as (j & <- & Hj). apply positions_range in Hj. lia.
Qed.

Lemma slice_bound_opt_int : forall o : option Z,
  slice_bound (opt_int o) = Return o.
Proof.
  intros [z|]; reflexivity.
Qed.

(** [l[lo:hi:step]] as the host computes it is the slice of the
    specification. *)
Lemma sequence_slice_std :
  forall {A : Type} (l : list A) (lo hi : option Z) (step : Z),
  step <> 0 ->
  sequence_slice l (opt_int lo) (opt_int hi) (PyInt step)
  = Return (std_slice l lo hi step).
Proof.
  intros A l lo hi step Hs.
  unfold sequence_slice, slice_indices.
  cbn [slice_bound int_value bind].
  destruct (Z.eqb_spec step 0) as [|_]; [contradiction|].
  rewrite !slice_bound_opt_int. cbn [bind].
  set (len := Z.of_nat (List.length l)).
  assert (Hlen : 0 <= len) by (unfold len; lia).
  unfold std_slice. fold len. f_equal.
  destruct (Z.ltb_spec step 0) as [Hneg|Hpos].
  - assert (E : (0 <? step) = false) by (apply Z.ltb_ge; lia). rewrite E.
    rewrite (filter_ext_in _
               (stride_down (clip_bound len (-1) (len - 1) (len - 1) lo)
                            (clip_bound len (-1) (len - 1) (-1) hi) (- step))).
    2:{ intros i Hi. apply in_slice_down; [assumption|].
        now apply positions_down_range. }
    rewrite <- take_stride_down.
    + now rewrite Z.opp_involutive.
    + fold len. unfold clip_bound. destruct lo as [z|]; [|lia].
      destruct (Z.ltb_spec z 0); lia.
    + unfold clip_bound. destruct hi as [z|]; [|lia].
      destruct (Z.ltb_spec z 0); lia.
    + lia.
  - assert (E : (0 <? step) = true) by (apply Z.ltb_lt; lia). rewrite E.
    rewrite (filter_ext_in _
               (stride_up (clip_bound len 0 len 0 lo)
                          (clip_bound len 0 len len hi) step)).
    2:{ intros i Hi. apply in_slice_up; [lia|].
        now apply positions_range. }
    rewrite <- take_stride_up.
    + reflexivity.
    + unfold clip_bound. destruct lo as [z|]; [|lia].
      destruct (Z.ltb_spec z 0); lia.
    + fold len. unfold clip_bound. destruct hi as [z|]; [|lia].
      destruct (Z.ltb_spec z 0); lia.
    + lia.
Qed.

Lemma filter_none : forall {A : Type} (f : A -> bool) (l : list A),
  (forall x : A, In x l -> f x = false) -> filter f l = [].
Proof.
  intros A f l. induction l as [|x l IH]; intro H; [reflexivity|].
  cbn [filter]. rewrite (H x (or_introl eq_refl)).
  apply IH. intros y Hy. apply H. now right.
Qed.

(** Slicing commutes with a change of alphabet: the slice of the decoded
    text, encoded again, is the slice of the bytes. *)
Lemma items_at_map : forall {A B : Type} (f : A -> B) (l : list A) (ix : list Z),
  items_at (map f l) ix = map f (items_at l ix).
Proof.
  intros A B f l ix. induction ix as [|i ix IH]; [reflexivity|].
  cbn [items_at flat_map]. rewrite map_app. unfold items_at in IH.
  rewrite IH. f_equal. rewrite nth_error_map.
  destruct (nth_error l (Z.to_nat i)); reflexivity.
Qed.

Lemma std_slice_charmap : forall (b : bytestr) (lo hi : option Z) (step : Z),
  charmap_encode (std_slice (charmap_decode b) lo hi step)
  = Return (std_slice b lo hi step).
Proof.
  intros b lo hi step. unfold std_slice, charmap_decode.
  rewrite length_map, items_at_map. apply charmap_roundtrip.
Qed.

(** The property the repository's test of slicing checks: the slice of
    an instance is the slice of the decoded text, encoded again. *)
Lemma getitem_slice_charmap :
  forall (self : octets.t) (lo hi : option Z) (step : Z),
  step <> 0 ->
  octets.__getitem__ self (PySlice (opt_int lo) (opt_int hi) (PyInt step))
  = (s <- str_getslice (charmap_decode (octets._bytes self))
            (opt_int lo) (opt_int hi) (PyInt step) ;;
     b <- charmap_encode s ;;
     Return (PyBytes b)).
Proof.
  intros self lo hi step Hs.
  unfold str_getslice, octets.__getitem__, bytes_getitem.
  rewrite !sequence_slice_std by assumption. cbn [bind].
  now rewrite std_slice_charmap.
Qed.

Example slice_every_second :
  std_slice (B "abcdef") (Some (-10)) (Some 5) 2 = B "ace".
Proof. reflexivity. Qed.

Example slice_reversed :
  std_slice (B "abcdef") None None (-1) = B "fedcba".
Proof. reflexivity. Qed.

Example slice_empty_range :
  std_slice (B "abcdef") (Some 2) (Some (-1)) (-1) = B "".
Proof. reflexivity. Qed.

Example slice_step_zero :
  octets.__getitem__ (octets.mk (B "abc")) (PySlice PyNone PyNone (PyInt 0))
  = Raise ValueError.
Proof. reflexivity. Qed.

(** C7.  With a slice key whose step is not zero, [__getitem__] returns
    the sub-sequence that standard slice semantics selects: the items at
    the positions of the half-open range, a negative bound counted from
    the end, in reverse order for a negative step.  When no position of
    the sequence belongs to the range the result is empty.  A slice
    without a step is the slice with step one. *)
Theorem getitem_slice : forall (self : octets.t) (lo hi : option Z) (step : Z),
  step <> 0 ->
  octets.__getitem__ self (PySlice (opt_int lo) (opt_int hi) (PyInt step))
  = Return (PyBytes (std_slice (octets._bytes self) lo hi step))
  /\ ((forall i : Z,
        0 <= i < Z.of_nat (List.length (octets._bytes self)) ->
        in_slice (Z.of_nat (List.length (octets._bytes self))) lo hi step i
        = false) ->
      octets.__getitem__ self (PySlice (opt_int lo) (opt_int hi) (PyInt step))
      = Return (PyBytes []))
  /\ octets.__getitem__ self (PySlice (opt_int lo) (opt_int hi) PyNone)
     = Return (PyBytes (std_slice (octets._bytes self) lo hi 1)).
Proof.
  intros self lo hi step Hs.
  assert (E : forall st : Z, st <> 0 ->
            octets.__getitem__ self (PySlice (opt_int lo) (opt_int hi) (PyInt st))
            = Return (PyBytes (std_slice (octets._bytes self) lo hi st))).
  { intros st Hst. unfold octets.__getitem__, bytes_getitem.
    now rewrite sequence_slice_std. }
  split; [now apply E|]. split.
  - intro Hempty. rewrite E by assumption. do 2 f_equal.
    unfold std_slice. rewrite filter_none; [reflexivity|].
    intros i Hi. apply Hempty.
    destruct (0 <? step);
      [now apply positions_range | now apply positions_down_range].
  - rewrite <- E by discriminate. reflexivity.
Qed.

(** C7 at work: [octets(b"abcdef")[-10:5:2]] is [b"ace"]. *)
Lemma getitem_slice_witness :
  octets.__getitem__ (octets.mk (B "abcdef"))
    (PySlice (PyInt (-10)) (PyInt 5) (PyInt 2))
  = Return (PyBytes (B "ace")).
Proof.
  destruct (getitem_slice (octets.mk (B "abcdef")) (Some (-10)) (Some 5) 2)
    as (H & _ & _); [discriminate|].
  exact H.
Defined.

(** ** Interpolation *)

Section EngineFacts.

Context {C : Type}.
Variable fl : flavour C.

Lemma scan_key_shorter :
  forall (fmt : list C) (depth : nat) (acc key rest : list C),
  scan_key fl fmt depth acc = Some (key, rest) ->
  (List.length rest < List.length fmt)%nat.
Proof.
  induction fmt as [|c fmt IH]; intros depth acc key rest H;
    cbn [scan_key] in H; [discriminate|].
  destruct (fl_code fl c =? 41)%N.
  - destruct depth as [|d].
    + injection H as _ <-. cbn [List.length]. lia.
    + apply IH in H. cbn [List.length]. lia.
  - destruct (fl_code fl c =? 40)%N; apply IH in H; cbn [List.length]; lia.
Qed.

Lemma conversion_shorter :
  forall (fmt : list C) (st : argstate) (dict : option pyobj)
         (piece rest : list C) (st' : argstate),
  conversion fl fmt st dict = Return (piece, rest, st') ->
  (List.length rest < List.length fmt)%nat.
Proof.
  intros fmt st dict piece rest st' H. unfold conversion in H.
  destruct fmt as [|c r]; [discriminate|].
  destruct (is_spec_modifier (fl_code fl c) || (fl_code fl c =? 37)%N);
    [discriminate|].
  destruct (getnextarg st) as [[v s1]| |]; cbn [bind] in H; try discriminate.
  destruct (fl_convert fl (fl_code fl c) v); cbn [bind] in H; try discriminate.
  destruct dict; [destruct (args_left s1); [discriminate|]|];
    injection H as _ <- _; cbn [List.length]; lia.
Qed.

Lemma directive_shorter :
  forall (fmt : list C) (st : argstate) (dict : option pyobj)
         (piece rest : list C) (st' : argstate),
  directive fl fmt st dict = Return (piece, rest, st') ->
  (List.length rest < List.length fmt)%nat.
Proof.
  intros fmt st dict piece rest st' H. unfold directive in H.
  destruct fmt as [|c r]; [discriminate|].
  destruct (fl_code fl c =? 40)%N.
  - destruct dict as [d|]; [|discriminate].
    destruct (scan_key fl r 0 []) as [[key r']|] eqn:K; [|discriminate].
    destruct (mapping_getitem d (fl_key fl key)); cbn [bind] in H;
      try discriminate.
    apply conversion_shorter in H. apply scan_key_shorter in K.
    cbn [List.length]. lia.
  - now apply conversion_shorter in H.
Qed.

(** The fuel that [format] gives its loop is enough: the result is the
    same with any larger amount. *)
Lemma format_loop_fuel :
  forall (fuel n : nat) (fmt : list C) (st : argstate) (dict : option pyobj),
  (List.length fmt < fuel)%nat -> (List.length fmt < n)%nat ->
  format_loop fl fuel fmt st dict = format_loop fl n fmt st dict.
Proof.
  induction fuel as [|fuel IH]; intros n fmt st dict Hf Hn; [inversion Hf|].
  destruct n as [|n]; [inversion Hn|]. cbn [format_loop].
  destruct fmt as [|c rest]; [reflexivity|]. cbn [List.length] in Hf, Hn.
  destruct (negb (fl_code fl c =? 37)%N).
  - rewrite (IH n) by lia. reflexivity.
  - destruct rest as [|c1 rest1]; [reflexivity|]. cbn [List.length] in Hf, Hn.
    destruct (fl_code fl c1 =? 37)%N.
    + rewrite (IH n) by lia. reflexivity.
    + destruct (directive fl (c1 :: rest1) st dict) as [[[piece r'] st']| |] eqn:D;
        cbn [bind]; try reflexivity.
      apply directive_shorter in D. cbn [List.length] in D.
      rewrite (IH n) by lia. reflexivity.
Qed.

(** A single argument and the tuple that holds it alone are consumed
    alike. *)
Lemma getnextarg_tuple_state : forall st : argstate,
  getnextarg (tuple_state st)
  = (a <- getnextarg st ;; Return (fst a, tuple_state (snd a))).
Proof.
  intros [l i|v [|]]; cbn [tuple_state getnextarg nth_error bind fst snd];
    try reflexivity.
  destruct (nth_error l i); reflexivity.
Qed.

Lemma args_left_tuple_state : forall st : argstate,
  args_left (tuple_state st) = args_left st.
Proof.
  intros [l i|v [|]]; reflexivity.
Qed.

Lemma directive_tuple_state :
  forall (fmt : list C) (st : argstate),
  directive fl fmt (tuple_state st) None
  = (d <- directive fl fmt st None ;;
     Return (fst (fst d), snd (fst d), tuple_state (snd d))).
Proof.
  intros fmt st. unfold directive. destruct fmt as [|c rest]; [reflexivity|].
  destruct (fl_code fl c =? 40)%N; [reflexivity|].
  unfold conversion.
  destruct (is_spec_modifier (fl_code fl c) || (fl_code fl c =? 37)%N);
    [reflexivity|].
  rewrite getnextarg_tuple_state.
  destruct (getnextarg st) as [[v st']| |]; cbn [bind fst snd]; try reflexivity.
  destruct (fl_convert fl (fl_code fl c) v); reflexivity.
Qed.

Lemma format_loop_tuple_state :
  forall (fuel : nat) (fmt : list C) (st : argstate),
  format_loop fl fuel fmt (tuple_state st) None
  = format_loop fl fuel fmt st None.
Proof.
  induction fuel as [|fuel IH]; intros fmt st; [reflexivity|].
  cbn [format_loop]. destruct fmt as [|c rest].
  - now rewrite args_left_tuple_state.
  - destruct (negb (fl_code fl c =? 37)%N); [now rewrite IH|].
    destruct rest as [|c1 rest1]; [reflexivity|].
    destruct (fl_code fl c1 =? 37)%N; [now rewrite IH|].
    rewrite directive_tuple_state.
    destruct (directive fl (c1 :: rest1) st None) as [[[piece r'] st']| |];
      cbn [bind fst snd]; try reflexivity.
    now rewrite IH.
Qed.

End EngineFacts.

Section SubstitutionFacts.

Variable convert : N -> pyobj -> outcome bytestr.

Lemma formatted_literal : forall (c : byte) (ps : list piece)
    (args : list pyobj),
  formatted convert (Literal c :: ps) args
  = (out <- formatted convert ps args ;; Return (c :: out)).
Proof.
  intros c ps args. unfold formatted. cbn [substitute].
  destruct (substitute convert ps args) as [[out [|v rest]]| |]; reflexivity.
Qed.

Lemma formatted_percent : forall (ps : list piece) (args : list pyobj),
  formatted convert (Percent :: ps) args
  = (out <- formatted convert ps args ;; Return (x25 :: out)).
Proof.
  intros ps args. unfold formatted. cbn [substitute].
  destruct (substitute convert ps args) as [[out [|v rest]]| |]; reflexivity.
Qed.

Lemma formatted_positional :
  forall (conv : byte) (ps : list piece) (v : pyobj) (args : list pyobj),
  formatted convert (Positional conv :: ps) (v :: args)
  = (b <- convert (Byte.to_N conv) v ;;
     out <- formatted convert ps args ;;
     Return (b ++ out)).
Proof.
  intros conv ps v args. unfold formatted. cbn [substitute].
  destruct (convert (Byte.to_N conv) v); cbn [bind]; try reflexivity.
  destruct (substitute convert ps args) as [[out [|w rest]]| |]; reflexivity.
Qed.

(** Substitution in a template of two parts: the second part goes on
    with the arguments that the first has left. *)
Lemma substitute_app :
  forall (ps qs : list piece) (args : list pyobj),
  substitute convert (ps ++ qs) args
  = (r <- substitute convert ps args ;;
     r' <- substitute convert qs (snd r) ;;
     Return (fst r ++ fst r', snd r')).
Proof.
  induction ps as [|p ps IH]; intros qs args.
  - cbn [app substitute bind fst snd].
    destruct (substitute convert qs args) as [[out rest]| |]; reflexivity.
  - destruct p as [c| |conv|key conv]; cbn [app substitute].
    + rewrite IH.
      destruct (substitute convert ps args) as [[out rest]| |];
        cbn [bind fst snd]; try reflexivity.
      destruct (substitute convert qs rest) as [[out' rest']| |]; reflexivity.
    + rewrite IH.
      destruct (substitute convert ps args) as [[out rest]| |];
        cbn [bind fst snd]; try reflexivity.
      destruct (substitute convert qs rest) as [[out' rest']| |]; reflexivity.
    + destruct args as [|v args]; [reflexivity|].
      destruct (convert (Byte.to_N conv) v); cbn [bind]; try reflexivity.
      rewrite IH.
      destruct (substitute convert ps args) as [[out rest]| |];
        cbn [bind fst snd]; try reflexivity.
      destruct (substitute convert qs rest) as [[out' rest']| |];
        cbn [bind fst snd]; try reflexivity.
      now rewrite app_assoc.
    + reflexivity.
Qed.

(** A part that takes exactly the arguments [before]. *)
Lemma substitute_takes :
  forall (ps : list piece) (before rest : list pyobj) (out : bytestr),
  substitute convert ps before = Return (out, []) ->
  substitute convert ps (before ++ rest) = Return (out, rest).
Proof.
  induction ps as [|p ps IH]; intros before rest out H.
  - cbn [substitute] in *. injection H as <- ->. reflexivity.
  - destruct p as [c| |conv|key conv]; cbn [substitute] in *.
    + destruct (substitute convert ps before) as [[o r]| |] eqn:E;
        cbn [bind fst snd] in H; try discriminate.
      injection H as <- ->. now rewrite (IH before rest o E).
    + destruct (substitute convert ps before) as [[o r]| |] eqn:E;
        cbn [bind fst snd] in H; try discriminate.
      injection H as <- ->. now rewrite (IH before rest o E).
    + destruct before as [|v before]; [discriminate|]. cbn [app].
      destruct (convert (Byte.to_N conv) v); cbn [bind] in *;
        try discriminate.
      destruct (substitute convert ps before) as [[o r]| |] eqn:E;
        cbn [bind fst snd] in H; try discriminate.
      injection H as <- ->. now rewrite (IH before rest o E).
    + discriminate.
Qed.

(** The directive in the middle: what stands before it takes the
    arguments [before], the directive the next one, and what stands
    behind it the rest. *)
Lemma formatted_middle :
  forall (ps qs : list piece) (conv : byte) (before after : list pyobj)
         (v : pyobj) (out : bytestr),
  substitute convert ps before = Return (out, []) ->
  formatted convert (ps ++ Positional conv :: qs) (before ++ v :: after)
  = (b <- convert (Byte.to_N conv) v ;;
     out' <- formatted convert qs after ;;
     Return (out ++ b ++ out')).
Proof.
  intros ps qs conv before after v out H. unfold formatted.
  rewrite substitute_app, (substitute_takes ps before (v :: after) out H).
  cbn [bind fst snd substitute].
  destruct (convert (Byte.to_N conv) v); cbn [bind]; try reflexivity.
  destruct (substitute convert qs after) as [[o [|w r]]| |]; reflexivity.
Qed.

(** What else the dict holds plays no part: entries added behind those
    that served make no difference. *)
Lemma dict_lookup_app :
  forall (k v : pyobj) (items extra : list (pyobj * pyobj)),
  dict_lookup k items = Some v -> dict_lookup k (items ++ extra) = Some v.
Proof.
  induction items as [|[k' v'] items IH]; intros extra H;
    cbn [dict_lookup app] in *; [discriminate|].
  destruct (key_matches k k'); [exact H|now apply IH].
Qed.

Lemma formatted_by_name_app :
  forall (ps : list piece) (items extra : list (pyobj * pyobj)) (out : bytestr),
  formatted_by_name convert ps items = Return out ->
  formatted_by_name convert ps (items ++ extra) = Return out.
Proof.
  induction ps as [|p ps IH]; intros items extra out H; [exact H|].
  destruct p as [c| |conv|key conv]; cbn [formatted_by_name] in *.
  - destruct (formatted_by_name convert ps items) as [o| |] eqn:E;
      cbn [bind] in H; try discriminate.
    now rewrite (IH items extra o E).
  - destruct (formatted_by_name convert ps items) as [o| |] eqn:E;
      cbn [bind] in H; try discriminate.
    now rewrite (IH items extra o E).
  - discriminate.
  - destruct (dict_lookup (PyBytes key) items) as [v|] eqn:L; [|discriminate].
    rewrite (dict_lookup_app _ v items extra L).
    destruct (convert (Byte.to_N conv) v); cbn [bind] in *; try discriminate.
    destruct (formatted_by_name convert ps items) as [o| |] eqn:E;
      cbn [bind] in H; try discriminate.
    now rewrite (IH items extra o E).
Qed.

End SubstitutionFacts.

Lemma has_byte_cons : forall (x : N) (c : byte) (b : bytestr),
  has_byte x (c :: b) = (x =? Byte.to_N c)%N || has_byte x b.
Proof. reflexivity. Qed.

Lemma bind_assoc_return :
  forall {A : Type} (m : outcome (list A)) (c : A) (p : list A),
  (out <- (out' <- m ;; Return (p ++ out')) ;; Return (c :: out))
  = (out <- m ;; Return ((c :: p) ++ out)).
Proof.
  intros A [o| |] c p; reflexivity.
Qed.

(** The arguments of a tuple from a position on. *)
Lemma args_left_skipn : forall (l : list pyobj) (i : nat),
  args_left (ArgTuple l i)
  = match skipn i l with
    | [] => false
    | _ :: _ => true
    end.
Proof.
  intros l i. cbn [args_left]. revert i.
  induction l as [|v l IH]; intros [|i]; try reflexivity.
  cbn [skipn List.length]. rewrite <- IH. reflexivity.
Qed.

Lemma getnextarg_skipn : forall (l : list pyobj) (i : nat),
  getnextarg (ArgTuple l i)
  = match skipn i l with
    | [] => Raise TypeError
    | v :: _ => Return (v, ArgTuple l (S i))
    end.
Proof.
  intros l i. cbn [getnextarg].
  assert (H : nth_error l i = match skipn i l with
                              | [] => None
                              | v :: _ => Some v
                              end).
  { revert i. induction l as [|v l IH]; intros [|i]; try reflexivity.
    cbn [nth_error skipn]. apply IH. }
  rewrite H. destruct (skipn i l); reflexivity.
Qed.

Lemma skipn_S_tl : forall {A : Type} (l : list A) (i : nat),
  skipn (S i) l = tl (skipn i l).
Proof.
  intros A l i. revert l. induction i as [|i IH]; intros [|v l];
    try reflexivity.
  change (skipn (S (S i)) (v :: l)) with (skipn (S i) l).
  change (skipn (S i) (v :: l)) with (skipn i l). apply IH.
Qed.

Section InterpolationFacts.

Variable int_max_str_digits : N.

(** A format without [%] is copied; what remains to check is that no
    argument is left over. *)
Lemma format_loop_literal : forall (b : bytestr) (fuel : nat) (st : argstate),
  has_byte 37 b = false ->
  (List.length b < fuel)%nat ->
  format_loop (bytes_flavour int_max_str_digits) fuel b st None
  = if args_left st then Raise TypeError else Return b.
Proof.
  induction b as [|c b IH]; intros fuel st Hb Hf;
    (destruct fuel as [|fuel]; [inversion Hf|]); cbn [format_loop].
  - reflexivity.
  - rewrite has_byte_cons in Hb. apply orb_false_elim in Hb.
    destruct Hb as [Hc Hb]. cbn [fl_code bytes_flavour].
    rewrite N.eqb_sym in Hc. rewrite Hc. cbn [negb].
    rewrite IH; [|assumption|cbn [List.length] in Hf; lia].
    destruct (args_left st); reflexivity.
Qed.

(** A prefix without [%] is copied, and the loop goes on behind it. *)
Lemma format_loop_prefix :
  forall (p rest : bytestr) (fuel fuel' : nat) (st : argstate)
         (dict : option pyobj),
  has_byte 37 p = false ->
  (List.length (p ++ rest) < fuel)%nat ->
  (List.length rest < fuel')%nat ->
  format_loop (bytes_flavour int_max_str_digits) fuel (p ++ rest) st dict
  = (out <- format_loop (bytes_flavour int_max_str_digits) fuel' rest st dict ;;
     Return (p ++ out)).
Proof.
  induction p as [|c p IH]; intros rest fuel fuel' st dict Hp Hf Hf'.
  - cbn [app] in *.
    rewrite (format_loop_fuel (bytes_flavour int_max_str_digits) fuel fuel')
      by lia.
    destruct (format_loop (bytes_flavour int_max_str_digits) fuel' rest st
        dict);
      reflexivity.
  - destruct fuel as [|fuel]; [inversion Hf|].
    rewrite has_byte_cons in Hp. apply orb_false_elim in Hp.
    destruct Hp as [Hc Hp]. rewrite N.eqb_sym in Hc.
    cbn [app format_loop fl_code bytes_flavour]. rewrite Hc. cbn [negb].
    rewrite (IH rest fuel fuel' st dict Hp); [|cbn [app List.length] in Hf; lia
                                              |exact Hf'].
    apply bind_assoc_return.
Qed.

(** A format without [%] and a mapping as arguments: nothing is left
    over. *)
Lemma format_loop_literal_mapping :
  forall (b : bytestr) (fuel : nat) (st : argstate) (d : pyobj),
  has_byte 37 b = false ->
  (List.length b < fuel)%nat ->
  format_loop (bytes_flavour int_max_str_digits) fuel b st (Some d) = Return b.
Proof.
  induction b as [|c b IH]; intros fuel st d Hb Hf;
    (destruct fuel as [|fuel]; [inversion Hf|]); cbn [format_loop].
  - reflexivity.
  - rewrite has_byte_cons in Hb. apply orb_false_elim in Hb.
    destruct Hb as [Hc Hb]. cbn [fl_code bytes_flavour].
    rewrite N.eqb_sym in Hc. rewrite Hc. cbn [negb].
    rewrite IH; [reflexivity|assumption|cbn [List.length] in Hf; lia].
Qed.

(** The steps of the loop: at a byte of plain text, at [%%], and at a
    directive. *)
Lemma format_loop_text :
  forall (fuel : nat) (c : byte) (rest : bytestr) (st : argstate)
         (dict : option pyobj),
  (Byte.to_N c =? 37)%N = false ->
  format_loop (bytes_flavour int_max_str_digits) (S fuel) (c :: rest) st dict
  = (out <- format_loop (bytes_flavour int_max_str_digits) fuel rest st dict ;;
     Return (c :: out)).
Proof.
  intros fuel c rest st dict H. cbn [format_loop fl_code bytes_flavour].
  now rewrite H.
Qed.

Lemma format_loop_percent :
  forall (fuel : nat) (rest : bytestr) (st : argstate) (dict : option pyobj),
  format_loop (bytes_flavour int_max_str_digits) (S fuel)
              (x25 :: x25 :: rest) st dict
  = (out <- format_loop (bytes_flavour int_max_str_digits) fuel rest st dict ;;
     Return (x25 :: out)).
Proof.
  intros fuel rest st dict. reflexivity.
Qed.

Lemma format_loop_directive :
  forall (fuel : nat) (c : byte) (rest : bytestr) (st : argstate)
         (dict : option pyobj),
  (Byte.to_N c =? 37)%N = false ->
  format_loop (bytes_flavour int_max_str_digits) (S fuel)
              (x25 :: c :: rest) st dict
  = (d <- directive (bytes_flavour int_max_str_digits) (c :: rest) st dict ;;
     let '(piece, rest', st') := d in
     out <- format_loop (bytes_flavour int_max_str_digits) fuel rest' st' dict
         ;;
     Return (piece ++ out)).
Proof.
  intros fuel c rest st dict H.
  cbn [format_loop fl_code bytes_flavour Byte.to_N N.eqb Pos.eqb negb].
  now rewrite H.
Qed.

(** The directive [%c] without a key, when [c] is a conversion
    character. *)
Lemma directive_plain :
  forall (c : byte) (rest : bytestr) (st : argstate) (dict : option pyobj),
  is_spec_modifier (Byte.to_N c) = false ->
  (Byte.to_N c =? 37)%N = false -> (Byte.to_N c =? 40)%N = false ->
  directive (bytes_flavour int_max_str_digits) (c :: rest) st dict
  = (a <- getnextarg st ;;
     let '(v, st') := a in
     piece <- bytes_convert int_max_str_digits (Byte.to_N c) v ;;
     match dict with
     | Some _ => if args_left st' then Raise TypeError
                 else Return (piece, rest, st')
     | None => Return (piece, rest, st')
     end).
Proof.
  intros c rest st dict Hm H37 H40.
  unfold directive. cbn [fl_code bytes_flavour]. rewrite H40.
  unfold conversion. cbn [fl_code fl_convert bytes_flavour].
  now rewrite Hm, H37.
Qed.

(** The key of a [%(key)] directive, when the key has no parenthesis of
    its own. *)
Lemma scan_key_plain : forall (k rest acc : bytestr),
  has_byte 40 k = false -> has_byte 41 k = false ->
  scan_key (bytes_flavour int_max_str_digits) (k ++ x29 :: rest) 0 acc
  = Some (rev acc ++ k, rest).
Proof.
  induction k as [|c k IH]; intros rest acc H40 H41.
  - cbn [app scan_key fl_code bytes_flavour Byte.to_N N.eqb Pos.eqb].
    now rewrite app_nil_r.
  - rewrite has_byte_cons in H40, H41.
    apply orb_false_elim in H40. destruct H40 as [Hc40 H40].
    apply orb_false_elim in H41. destruct H41 as [Hc41 H41].
    rewrite N.eqb_sym in Hc40. rewrite N.eqb_sym in Hc41.
    cbn [app scan_key fl_code bytes_flavour]. rewrite Hc41, Hc40.
    rewrite IH by assumption. cbn [rev]. now rewrite <- app_assoc.
Qed.

(** The directive [%(key)c] with a dict: the value under the key is its
    argument. *)
Lemma directive_named :
  forall (key : bytestr) (conv : byte) (rest : bytestr) (st : argstate)
         (items : list (pyobj * pyobj)),
  has_byte 40 key = false -> has_byte 41 key = false ->
  ends_directive conv = true ->
  directive (bytes_flavour int_max_str_digits)
            (x28 :: key ++ x29 :: conv :: rest) st (Some (PyDict items))
  = match dict_lookup (PyBytes key) items with
    | Some v =>
        piece <- bytes_convert int_max_str_digits (Byte.to_N conv) v ;;
        Return (piece, rest, ArgSingle v true)
    | None => Raise KeyError
    end.
Proof.
  intros key conv rest st items H40 H41 Hc.
  unfold ends_directive in Hc. apply andb_prop in Hc. destruct Hc as [Hm H37].
  apply negb_true_iff in Hm. apply negb_true_iff in H37.
  unfold directive.
  cbn [fl_code fl_key bytes_flavour Byte.to_N N.eqb Pos.eqb].
  rewrite scan_key_plain by assumption. cbn [rev app mapping_getitem].
  destruct (dict_lookup (PyBytes key) items) as [v|]; [|reflexivity].
  cbn [bind]. unfold conversion. cbn [fl_code fl_convert bytes_flavour].
  rewrite Hm, H37. cbn [orb getnextarg bind].
  destruct (bytes_convert int_max_str_digits (Byte.to_N conv) v); reflexivity.
Qed.

(** The loop on a template written piece by piece, with a tuple: it
    computes the substitution by position. *)
Lemma format_loop_formatted :
  forall (ps : list piece) (fuel : nat) (l : list pyobj) (i : nat),
  forallb well_written ps = true ->
  (List.length (written ps) < fuel)%nat ->
  format_loop (bytes_flavour int_max_str_digits) fuel (written ps)
              (ArgTuple l i) None
  = formatted (bytes_convert int_max_str_digits) ps (skipn i l).
Proof.
  induction ps as [|p ps IH]; intros fuel l i Hw Hf;
    (destruct fuel as [|fuel]; [inversion Hf|]).
  - cbn [written flat_map format_loop]. rewrite args_left_skipn.
    unfold formatted. cbn [substitute bind fst snd].
    destruct (skipn i l); reflexivity.
  - cbn [forallb] in Hw. apply andb_prop in Hw. destruct Hw as [Hp Hw].
    change (written (p :: ps)) with (written_piece p ++ written ps) in *.
    destruct p as [c| |conv|key conv]; cbn [written_piece well_written] in *.
    + apply negb_true_iff in Hp. cbn [app List.length] in *.
      rewrite format_loop_text by exact Hp.
      rewrite IH by (try assumption; lia). now rewrite formatted_literal.
    + change (B "%%" ++ written ps) with (x25 :: x25 :: written ps) in *.
      cbn [List.length] in Hf.
      rewrite format_loop_percent.
      rewrite IH by (try assumption; lia). now rewrite formatted_percent.
    + apply andb_prop in Hp. destruct Hp as [He H40].
      unfold ends_directive in He. apply andb_prop in He.
      destruct He as [Hm H37].
      apply negb_true_iff in Hm. apply negb_true_iff in H37.
      apply negb_true_iff in H40.
      cbn [app List.length] in *.
      rewrite format_loop_directive by exact H37.
      rewrite directive_plain by assumption.
      rewrite getnextarg_skipn.
      pose proof (skipn_S_tl l i) as Htl.
      destruct (skipn i l) as [|v rest] eqn:E; [reflexivity|].
      cbn [bind tl] in *. rewrite formatted_positional.
      destruct (bytes_convert int_max_str_digits (Byte.to_N conv) v);
        cbn [bind]; try reflexivity.
      rewrite IH by (try assumption; lia). now rewrite Htl.
    + change (B "%(" ++ key ++ B ")" ++ [conv])
        with (x25 :: x28 :: key ++ x29 :: [conv]) in *.
      cbn [app] in *. rewrite format_loop_directive by reflexivity.
      reflexivity.
Qed.

(** The same with a dict, for a template without directives by
    position: the loop computes the substitution by name. *)
Lemma format_loop_formatted_by_name :
  forall (ps : list piece) (fuel : nat) (st : argstate)
         (items : list (pyobj * pyobj)),
  forallb well_written ps = true -> forallb by_name ps = true ->
  (List.length (written ps) < fuel)%nat ->
  format_loop (bytes_flavour int_max_str_digits) fuel (written ps)
              st (Some (PyDict items))
  = formatted_by_name (bytes_convert int_max_str_digits) ps items.
Proof.
  induction ps as [|p ps IH]; intros fuel st items Hw Hn Hf;
    (destruct fuel as [|fuel]; [inversion Hf|]); [reflexivity|].
  cbn [forallb] in Hw, Hn.
  apply andb_prop in Hw. destruct Hw as [Hp Hw].
  apply andb_prop in Hn. destruct Hn as [Hpn Hn].
  change (written (p :: ps)) with (written_piece p ++ written ps) in *.
  destruct p as [c| |conv|key conv]; cbn [written_piece well_written] in *.
  - apply negb_true_iff in Hp. cbn [app List.length] in *.
    rewrite format_loop_text by exact Hp.
    now rewrite IH by (try assumption; lia).
  - change (B "%%" ++ written ps) with (x25 :: x25 :: written ps) in *.
    cbn [List.length] in Hf. rewrite format_loop_percent.
    now rewrite IH by (try assumption; lia).
  - discriminate Hpn.
  - apply andb_prop in Hp. destruct Hp as [Hk He].
    apply andb_prop in Hk. destruct Hk as [H40 H41].
    apply negb_true_iff in H40. apply negb_true_iff in H41.
    change ((B "%(" ++ key ++ B ")" ++ [conv]) ++ written ps)
      with (x25 :: x28 :: (key ++ B ")" ++ [conv]) ++ written ps) in *.
    rewrite <- app_assoc in *.
    change ((B ")" ++ [conv]) ++ written ps)
      with (x29 :: conv :: written ps) in *.
    rewrite format_loop_directive by reflexivity.
    rewrite directive_named by assumption.
    cbn [formatted_by_name].
    destruct (dict_lookup (PyBytes key) items) as [v|]; [|reflexivity].
    destruct (bytes_convert int_max_str_digits (Byte.to_N conv) v);
      cbn [bind]; try reflexivity.
    rewrite IH; [reflexivity|assumption|assumption|].
    cbn [List.length] in Hf. rewrite length_app in Hf.
    cbn [List.length] in Hf. lia.
Qed.

Example mod_abc_ge35 :
  octets.__mod__ int_max_str_digits false (octets.mk (B "abc")) (PyTuple [])
  = Return (PyBytes (B "abc")).
Proof. reflexivity. Qed.

Example mod_directives_ge35 :
  octets.__mod__ int_max_str_digits false (octets.mk (B "%s=%d%%"))
    (PyTuple [PyBytes (B "n"); PyInt 42])
  = Return (PyBytes (B "n=42%")).
Proof. reflexivity. Qed.

Example mod_abc_lt35 :
  octets.__mod__ int_max_str_digits true (octets.mk (B "abc")) (PyTuple [])
  = Raise TypeError.
Proof. reflexivity. Qed.

Example mod_directive_lt35 :
  octets.__mod__ int_max_str_digits true (octets.mk (B "%b"))
    (PyTuple [PyBytes (B "n")])
  = Raise ValueError.
Proof. reflexivity. Qed.

(** The template of the example, piece by piece. *)
Example written_directives :
  written [Positional "s"; Literal "="; Positional "d"; Percent] = B "%s=%d%%".
Proof. reflexivity. Qed.

(** On Python 3.5 and later, a template written piece by piece is
    formatted by position with a tuple, and by name with a dict. *)
Lemma mod_formatted :
  forall (ps : list piece) (args : list pyobj),
  forallb well_written ps = true ->
  octets.__mod__ int_max_str_digits false (octets.mk (written ps))
      (PyTuple args)
  = (b <- formatted (bytes_convert int_max_str_digits) ps args ;;
     Return (PyBytes b)).
Proof.
  intros ps args Hw. unfold octets.__mod__, bytes_mod, format.
  cbn [octets._bytes initial_args fl_mapping bytes_flavour].
  now rewrite format_loop_formatted by (try assumption; lia).
Qed.

Lemma mod_formatted_by_name :
  forall (ps : list piece) (items : list (pyobj * pyobj)),
  forallb well_written ps = true -> forallb by_name ps = true ->
  octets.__mod__ int_max_str_digits false (octets.mk (written ps))
      (PyDict items)
  = (b <- formatted_by_name (bytes_convert int_max_str_digits) ps items ;;
     Return (PyBytes b)).
Proof.
  intros ps items Hw Hn. unfold octets.__mod__, bytes_mod, format.
  cbn [octets._bytes initial_args fl_mapping bytes_flavour].
  now rewrite format_loop_formatted_by_name by (try assumption; lia).
Qed.

(** An argument that stands alone is formatted as the tuple that holds
    it. *)
Lemma mod_single_argument : forall (self : octets.t) (v : pyobj),
  single_argument v = true ->
  octets.__mod__ int_max_str_digits false self v
  = octets.__mod__ int_max_str_digits false self (PyTuple [v]).
Proof.
  intros self v Hv. unfold octets.__mod__, bytes_mod, format.
  assert (E : initial_args v = ArgSingle v false
              /\ fl_mapping (bytes_flavour int_max_str_digits) v = false)
    by (destruct v; try discriminate Hv; split; reflexivity).
  destruct E as [E1 E2]. rewrite E1, E2.
  cbn [initial_args fl_mapping bytes_flavour].
  now rewrite <- (format_loop_tuple_state (bytes_flavour int_max_str_digits)
                    _ _ (ArgSingle v false)).
Qed.

(** C1, as amended.  With [_LESS_THAN_PY35] false, what [template %
    arguments] returns is a [bytes] object, whatever the template and the
    arguments.  It holds the formatted bytes: for a template written as
    plain text, [%%] and directives, and a tuple of arguments, the
    substitution by position, in which each directive is replaced by the
    conversion of the argument at its place, and which fails when the
    numbers of directives and arguments differ or a conversion fails; for
    an argument that stands alone, what the tuple holding it gives; for a
    dict, the substitution by name.  When the template has no [%] and the
    arguments are the empty tuple, the bytes are those of the template,
    unchanged. *)
Theorem mod_formatted_bytes :
  forall (self : octets.t) (v r : pyobj) (ps : list piece)
         (args : list pyobj) (items : list (pyobj * pyobj)),
  forallb well_written ps = true ->
  (octets.__mod__ int_max_str_digits false self v = Return r ->
   exists b : bytestr, r = PyBytes b)
  /\ octets.__mod__ int_max_str_digits false (octets.mk (written ps))
                    (PyTuple args)
     = (b <- formatted (bytes_convert int_max_str_digits) ps args ;;
        Return (PyBytes b))
  /\ (single_argument v = true ->
      octets.__mod__ int_max_str_digits false self v
      = octets.__mod__ int_max_str_digits false self (PyTuple [v]))
  /\ (forallb by_name ps = true ->
      octets.__mod__ int_max_str_digits false (octets.mk (written ps))
                     (PyDict items)
      = (b <- formatted_by_name (bytes_convert int_max_str_digits) ps items ;;
         Return (PyBytes b)))
  /\ (has_byte 37 (octets._bytes self) = false ->
      octets.__mod__ int_max_str_digits false self (PyTuple [])
      = Return (PyBytes (octets._bytes self))).
Proof.
  intros self v r ps args items Hw. split; [|split; [|split; [|split]]].
  - intro H. unfold octets.__mod__ in H.
    destruct (bytes_mod int_max_str_digits (octets._bytes self) v) as [f| |];
      cbn [bind] in H; try discriminate.
    injection H as <-. now exists f.
  - now apply mod_formatted.
  - apply mod_single_argument.
  - intro Hn. now apply mod_formatted_by_name.
  - intro Hb. unfold octets.__mod__, bytes_mod, format.
    cbn [initial_args fl_mapping bytes_flavour].
    rewrite format_loop_literal; [reflexivity|assumption|lia].
Qed.

(** The string searched by the [sub] of [__mod__] before 3.5 is the
    constant [%\1s]; the pattern does not occur in it, so the result is
    that constant whatever the replacement. *)
Lemma sub_literal_constant : forall repl : text,
  sub_literal repl (T "%\1s") O = T "%\1s".
Proof. reflexivity. Qed.

Lemma decode_items_text : forall l : list pyobj,
  existsb is_text l = true -> mapM octets._decode l = Raise TypeError.
Proof.
  induction l as [|v l IH]; cbn [existsb mapM]; intro H; [discriminate|].
  destruct v; cbn [is_text orb octets._decode bind] in *;
    try reflexivity; rewrite (IH H); reflexivity.
Qed.

Lemma decode_no_text : forall v : pyobj,
  is_text v = false -> octets._decode v = Return (decoded v).
Proof.
  intros v H. destruct v; try discriminate H; reflexivity.
Qed.

Lemma decode_items_no_text : forall l : list pyobj,
  existsb is_text l = false ->
  mapM octets._decode l = Return (map decoded l).
Proof.
  induction l as [|v l IH]; cbn [existsb mapM map]; intro H; [reflexivity|].
  apply orb_false_elim in H. destruct H as [Hv Hl].
  now rewrite (decode_no_text v Hv), (IH Hl).
Qed.

Lemma decode_dict_text : forall items : list (pyobj * pyobj),
  existsb (fun kv => is_text (fst kv) || is_text (snd kv)) items = true ->
  mapM (fun kv => k <- octets._decode (fst kv) ;;
                  v <- octets._decode (snd kv) ;;
                  Return (k, v)) items
  = Raise TypeError.
Proof.
  induction items as [|[k v] items IH]; cbn [existsb mapM fst snd]; intro H;
    [discriminate|].
  destruct k; cbn [is_text orb octets._decode bind] in *; try reflexivity;
    destruct v; cbn [is_text orb octets._decode bind] in *; try reflexivity;
    rewrite (IH H); reflexivity.
Qed.

Lemma decode_dict_no_text : forall items : list (pyobj * pyobj),
  existsb (fun kv => is_text (fst kv) || is_text (snd kv)) items = false ->
  mapM (fun kv => k <- octets._decode (fst kv) ;;
                  v <- octets._decode (snd kv) ;;
                  Return (k, v)) items
  = Return (map (fun kv => (decoded (fst kv), decoded (snd kv))) items).
Proof.
  induction items as [|[k v] items IH]; cbn [existsb mapM map fst snd];
    intro H; [reflexivity|].
  apply orb_false_elim in H. destruct H as [Hkv Hl].
  apply orb_false_elim in Hkv. destruct Hkv as [Hk Hv].
  now rewrite (decode_no_text k Hk), (decode_no_text v Hv), (IH Hl).
Qed.

(** Before 3.5, once the template has been through [sub]: text among
    the arguments is refused, and arguments without text reach the
    formatting of [str] as [_decode] hands them on. *)
Lemma mod_lt35_text :
  forall (self : octets.t) (args : pyobj) (fs : text),
  _BYTES_FORMAT_sub (PyStr (charmap_decode (octets._bytes self))) (T "%\1s")
  = Return fs ->
  has_text_argument args = true ->
  octets.__mod__ int_max_str_digits true self args = Raise TypeError.
Proof.
  intros self args fs Hs Ht. unfold octets.__mod__.
  cbn [octets._decode bind]. rewrite Hs. cbn [bind].
  destruct args; cbn [has_text_argument is_text] in Ht; try discriminate Ht;
    cbn [mapM octets._decode bind]; try reflexivity.
  - now rewrite decode_items_text.
  - now rewrite decode_dict_text.
Qed.

Lemma mod_lt35_passes :
  forall (self : octets.t) (args : pyobj) (fs : text),
  _BYTES_FORMAT_sub (PyStr (charmap_decode (octets._bytes self))) (T "%\1s")
  = Return fs ->
  has_text_argument args = false ->
  octets.__mod__ int_max_str_digits true self args
  = (formatted <- str_mod int_max_str_digits fs (decoded_arguments args) ;;
     b <- charmap_encode formatted ;;
     Return (PyBytes b)).
Proof.
  intros self args fs Hs Ht. unfold octets.__mod__.
  cbn [octets._decode bind]. rewrite Hs. cbn [bind].
  destruct args; cbn [has_text_argument is_text] in Ht; try discriminate Ht;
    cbn [mapM octets._decode bind decoded_arguments decoded map];
    try reflexivity.
  - now rewrite decode_items_no_text.
  - now rewrite decode_dict_no_text.
Qed.

(** [str % args] on the format [%\1s]: the character after [%] is no
    conversion, so an argument is fetched and then refused. *)
Lemma str_mod_constant_tuple : forall l : list pyobj,
  str_mod int_max_str_digits (T "%\1s") (PyTuple l)
  = match l with
    | [] => Raise TypeError
    | _ => Raise ValueError
    end.
Proof.
  intros [|v l]; reflexivity.
Qed.

Lemma str_mod_constant_dict : forall items : list (pyobj * pyobj),
  str_mod int_max_str_digits (T "%\1s") (PyDict items) = Raise ValueError.
Proof.
  intro items. reflexivity.
Qed.

(** What [__mod__] does before 3.5 on a template without backslash: it
    always raises. *)
Lemma mod_lt35 : forall (self : octets.t) (args : pyobj),
  has_byte 92 (octets._bytes self) = false ->
  octets.__mod__ int_max_str_digits true self args
  = if has_text_argument args then Raise TypeError
    else match args with
         | PyTuple [] => Raise TypeError
         | _ => Raise ValueError
         end.
Proof.
  intros self args Hb.
  assert (Hs : _BYTES_FORMAT_sub (PyStr (charmap_decode (octets._bytes self)))
                                 (T "%\1s")
               = Return (T "%\1s")).
  { cbn [_BYTES_FORMAT_sub]. unfold has_byte in Hb.
    now rewrite Hb, sub_literal_constant. }
  destruct (has_text_argument args) eqn:Ht.
  - now apply (mod_lt35_text self args _ Hs).
  - rewrite (mod_lt35_passes self args _ Hs Ht).
    destruct args; cbn [decoded_arguments];
      rewrite ?str_mod_constant_tuple, ?str_mod_constant_dict;
      try reflexivity.
    destruct l; reflexivity.
Qed.

(** Before 3.5 the operation returns for no template and no arguments:
    the replacement and the string searched are exchanged in the call of
    [sub], so the template never reaches the formatting. *)
Lemma mod_lt35_never_returns : forall (self : octets.t) (args r : pyobj),
  octets.__mod__ int_max_str_digits true self args <> Return r.
Proof.
  intros self args r.
  destruct (has_byte 92 (octets._bytes self)) eqn:Hb.
  - unfold octets.__mod__. cbn [octets._decode bind _BYTES_FORMAT_sub].
    unfold has_byte in Hb. rewrite Hb. discriminate.
  - rewrite mod_lt35 by assumption.
    destruct (has_text_argument args); [discriminate|].
    destruct args as [| | | | | | |[|]| | | |]; discriminate.
Qed.

Example mod_text_lt35 :
  octets.__mod__ int_max_str_digits true (octets.mk (B "%b")) (PyStr (T "x"))
  = Raise TypeError.
Proof. reflexivity. Qed.

Example mod_text_ge35 :
  octets.__mod__ int_max_str_digits false (octets.mk (B "%b")) (PyStr (T "x"))
  = Raise TypeError.
Proof. reflexivity. Qed.

(** The conversions that refuse text. *)
Lemma bytes_convert_text : forall (conv : byte) (s : text),
  code_in (Byte.to_N conv) "bsdiucoxXeEfFgG" = true ->
  bytes_convert int_max_str_digits (Byte.to_N conv) (PyStr s) = Raise TypeError.
Proof.
  intros conv s H. destruct conv; try discriminate H; reflexivity.
Qed.

Lemma refusing_ends_directive : forall conv : byte,
  code_in (Byte.to_N conv) "bsdiucoxXeEfFgGra" = true ->
  ends_directive conv = true /\ (Byte.to_N conv =? 40)%N = false.
Proof.
  intros conv H. destruct conv; try discriminate H; split; reflexivity.
Qed.

(** The loop at a directive that fails: what stands behind it plays no
    part. *)
Lemma format_loop_failing_directive :
  forall (ps : list piece) (conv : byte) (q : bytestr) (fuel : nat)
         (l : list pyobj) (i : nat) (out : bytestr) (v : pyobj)
         (rest : list pyobj) (e : exc),
  forallb well_written ps = true ->
  ends_directive conv = true -> (Byte.to_N conv =? 40)%N = false ->
  (List.length (written ps ++ x25 :: conv :: q) < fuel)%nat ->
  substitute (bytes_convert int_max_str_digits) ps (skipn i l)
  = Return (out, v :: rest) ->
  bytes_convert int_max_str_digits (Byte.to_N conv) v = Raise e ->
  format_loop (bytes_flavour int_max_str_digits) fuel
              (written ps ++ x25 :: conv :: q) (ArgTuple l i) None
  = Raise e.
Proof.
  induction ps as [|p ps IH];
    intros conv q fuel l i out v rest e Hw He H40 Hf Hs Hv;
    (destruct fuel as [|fuel]; [inversion Hf|]).
  - cbn [substitute] in Hs. injection Hs as _ Hs.
    unfold ends_directive in He. apply andb_prop in He.
    destruct He as [Hm H37].
    apply negb_true_iff in Hm. apply negb_true_iff in H37.
    cbn [written flat_map app].
    rewrite format_loop_directive by exact H37.
    rewrite directive_plain by assumption.
    rewrite getnextarg_skipn, Hs. cbn [bind]. now rewrite Hv.
  - cbn [forallb] in Hw. apply andb_prop in Hw. destruct Hw as [Hp Hw].
    change (written (p :: ps)) with (written_piece p ++ written ps) in *.
    rewrite <- app_assoc in *.
    destruct p as [c| |conv'|key conv']; cbn [written_piece well_written] in *.
    + apply negb_true_iff in Hp. cbn [app List.length] in Hf |- *.
      rewrite format_loop_text by exact Hp.
      cbn [substitute] in Hs.
      destruct (substitute (bytes_convert int_max_str_digits) ps (skipn i l))
        as [[o r]| |] eqn:E; cbn [bind fst snd] in Hs; try discriminate.
      injection Hs as _ ->.
      now rewrite (IH conv q fuel l i o v rest e) by (try assumption; lia).
    + change (B "%%" ++ written ps ++ x25 :: conv :: q)
        with (x25 :: x25 :: (written ps ++ x25 :: conv :: q)) in *.
      cbn [List.length] in Hf. rewrite format_loop_percent.
      cbn [substitute] in Hs.
      destruct (substitute (bytes_convert int_max_str_digits) ps (skipn i l))
        as [[o r]| |] eqn:E; cbn [bind fst snd] in Hs; try discriminate.
      injection Hs as _ ->.
      now rewrite (IH conv q fuel l i o v rest e) by (try assumption; lia).
    + apply andb_prop in Hp. destruct Hp as [He' H40'].
      unfold ends_directive in He'. apply andb_prop in He'.
      destruct He' as [Hm' H37'].
      apply negb_true_iff in Hm'. apply negb_true_iff in H37'.
      apply negb_true_iff in H40'.
      cbn [app List.length] in Hf |- *.
      rewrite format_loop_directive by exact H37'.
      rewrite directive_plain by assumption.
      rewrite getnextarg_skipn.
      pose proof (skipn_S_tl l i) as Htl.
      cbn [substitute] in Hs.
      destruct (skipn i l) as [|w ws] eqn:E; [discriminate Hs|].
      cbn [bind tl] in *.
      destruct (bytes_convert int_max_str_digits (Byte.to_N conv') w);
        cbn [bind] in *; try discriminate.
      destruct (substitute (bytes_convert int_max_str_digits) ps ws)
        as [[o r]| |] eqn:E'; cbn [bind fst snd] in Hs; try discriminate.
      injection Hs as _ ->. rewrite <- Htl in E'.
      now rewrite (IH conv q fuel l (S i) o v rest e)
        by (try assumption; lia).
    + discriminate Hs.
Qed.

(** The same at a directive with a key, in a template formatted with a
    dict. *)
Lemma format_loop_failing_named :
  forall (ps : list piece) (key : bytestr) (conv : byte) (q : bytestr)
         (fuel : nat) (st : argstate) (items : list (pyobj * pyobj))
         (out : bytestr) (v : pyobj) (e : exc),
  forallb well_written ps = true -> forallb by_name ps = true ->
  has_byte 40 key = false -> has_byte 41 key = false ->
  ends_directive conv = true ->
  (List.length (written ps ++ x25 :: x28 :: key ++ x29 :: conv :: q)
   < fuel)%nat ->
  formatted_by_name (bytes_convert int_max_str_digits) ps items = Return out ->
  dict_lookup (PyBytes key) items = Some v ->
  bytes_convert int_max_str_digits (Byte.to_N conv) v = Raise e ->
  format_loop (bytes_flavour int_max_str_digits) fuel
              (written ps ++ x25 :: x28 :: key ++ x29 :: conv :: q)
              st (Some (PyDict items))
  = Raise e.
Proof.
  induction ps as [|p ps IH];
    intros key conv q fuel st items out v e Hw Hn H40 H41 He Hf Hs Hk Hv;
    (destruct fuel as [|fuel]; [inversion Hf|]).
  - cbn [written flat_map app].
    rewrite format_loop_directive by reflexivity.
    rewrite directive_named by assumption.
    rewrite Hk, Hv. reflexivity.
  - cbn [forallb] in Hw, Hn.
    apply andb_prop in Hw. destruct Hw as [Hp Hw].
    apply andb_prop in Hn. destruct Hn as [Hpn Hn].
    change (written (p :: ps)) with (written_piece p ++ written ps) in *.
    rewrite <- app_assoc in *.
    destruct p as [c| |conv'|key' conv']; cbn [written_piece well_written] in *.
    + apply negb_true_iff in Hp. cbn [app List.length] in Hf |- *.
      rewrite format_loop_text by exact Hp.
      cbn [formatted_by_name] in Hs.
      destruct (formatted_by_name (bytes_convert int_max_str_digits) ps items)
        as [o| |] eqn:E; cbn [bind] in Hs; try discriminate.
      now rewrite (IH key conv q fuel st items o v e)
        by (try assumption; try reflexivity; lia).
    + change (B "%%" ++ written ps ++ x25 :: x28 :: key ++ x29 :: conv :: q)
        with (x25 :: x25
                :: (written ps ++ x25 :: x28 :: key ++ x29 :: conv :: q)) in *.
      cbn [List.length] in Hf. rewrite format_loop_percent.
      cbn [formatted_by_name] in Hs.
      destruct (formatted_by_name (bytes_convert int_max_str_digits) ps items)
        as [o| |] eqn:E; cbn [bind] in Hs; try discriminate.
      now rewrite (IH key conv q fuel st items o v e)
        by (try assumption; try reflexivity; lia).
    + discriminate Hpn.
    + apply andb_prop in Hp. destruct Hp as [Hk' He'].
      apply andb_prop in Hk'. destruct Hk' as [H40' H41'].
      apply negb_true_iff in H40'. apply negb_true_iff in H41'.
      change ((B "%(" ++ key' ++ B ")" ++ [conv']) ++ written ps
              ++ x25 :: x28 :: key ++ x29 :: conv :: q)
        with (x25 :: x28 :: (key' ++ B ")" ++ [conv']) ++ written ps
              ++ x25 :: x28 :: key ++ x29 :: conv :: q) in *.
      rewrite <- app_assoc in *.
      change ((B ")" ++ [conv']) ++ written ps
              ++ x25 :: x28 :: key ++ x29 :: conv :: q)
        with (x29 :: conv'
                :: (written ps ++ x25 :: x28 :: key ++ x29 :: conv :: q)) in *.
      rewrite format_loop_directive by reflexivity.
      rewrite directive_named by assumption.
      cbn [formatted_by_name] in Hs.
      destruct (dict_lookup (PyBytes key') items) as [w|]; [|discriminate Hs].
      destruct (bytes_convert int_max_str_digits (Byte.to_N conv') w);
        cbn [bind] in *; try discriminate.
      destruct (formatted_by_name (bytes_convert int_max_str_digits) ps items)
        as [o| |] eqn:E; cbn [bind] in Hs; try discriminate.
      rewrite (IH key conv q fuel (ArgSingle w true) items o v e);
        try assumption; try reflexivity.
      cbn [List.length] in Hf. rewrite length_app in Hf.
      cbn [List.length] in Hf. lia.
Qed.

(** An argument that a conversion accepts. *)
Lemma inserts_convert : forall (conv : byte) (v : pyobj) (b : bytestr),
  inserts int_max_str_digits conv v b ->
  bytes_convert int_max_str_digits (Byte.to_N conv) v = Return b
  /\ ends_directive conv = true /\ (Byte.to_N conv =? 40)%N = false.
Proof.
  intros conv v b [c x H|c n H Hn|c s H Hs].
  - destruct c; try discriminate H; repeat split.
  - assert (E : bytes_convert int_max_str_digits (Byte.to_N c) (PyInt n)
                = (t <- int_to_str int_max_str_digits n ;;
                   Return (map byte_of_N t)))
      by (destruct c; try discriminate H; reflexivity).
    rewrite E. unfold int_to_str. rewrite Hn.
    destruct c; try discriminate H; repeat split.
  - assert (E : bytes_convert int_max_str_digits (Byte.to_N c) (PyStr s)
                = (r <- ascii_repr int_max_str_digits (PyStr s) ;;
                   Return (map byte_of_N r)))
      by (destruct c; try discriminate H; reflexivity).
    rewrite E. cbn [ascii_repr]. fold plain_char. rewrite Hs. cbn [bind].
    rewrite !map_app.
    destruct c; try discriminate H; repeat split.
Qed.

(** C2, as amended.  With [_LESS_THAN_PY35] true, once the template has
    been through [sub], text among the arguments (the argument itself,
    an item of a tuple, a key or a value of a dict) makes the operation
    raise [TypeError], and arguments without text are handed to the
    formatting of [str], [bytes] as the text with the same numbers and
    anything else as it is.

    With [_LESS_THAN_PY35] false the arguments go to the formatting of
    [bytes] as they are.  In a template written piece by piece, at a
    directive reached without error: text raises [TypeError] when one of
    the conversions [b s d i u c o x X e E f F g G] takes it, by
    position or by name, whatever follows the directive; [bytes] under
    [%b] and [%s], an integer under [%d], [%i] and [%u] and text under
    [%r] and [%a] are accepted and put in the place of the directive;
    and what a dict holds besides the values that the directives take,
    text included, is accepted and plays no part. *)
Theorem mod_text_argument :
  forall (self : octets.t) (args : pyobj) (fs : text)
         (ps qs : list piece) (conv : byte) (key q : bytestr)
         (before after : list pyobj) (items extra : list (pyobj * pyobj))
         (out out' b : bytestr) (s : text) (v : pyobj),
  (_BYTES_FORMAT_sub (PyStr (charmap_decode (octets._bytes self))) (T "%\1s")
   = Return fs ->
   (has_text_argument args = true ->
    octets.__mod__ int_max_str_digits true self args = Raise TypeError)
   /\ (has_text_argument args = false ->
       octets.__mod__ int_max_str_digits true self args
       = (formatted <- str_mod int_max_str_digits fs (decoded_arguments args) ;;
          b <- charmap_encode formatted ;;
          Return (PyBytes b))))
  /\ (forallb well_written ps = true ->
      substitute (bytes_convert int_max_str_digits) ps before
          = Return (out, []) ->
      (code_in (Byte.to_N conv) "bsdiucoxXeEfFgG" = true ->
       octets.__mod__ int_max_str_digits false
         (octets.mk (written ps ++ [x25; conv] ++ q))
         (PyTuple (before ++ PyStr s :: after))
       = Raise TypeError)
      /\ (inserts int_max_str_digits conv v b ->
          forallb well_written qs = true ->
          formatted (bytes_convert int_max_str_digits) qs after = Return out' ->
          octets.__mod__ int_max_str_digits false
            (octets.mk (written ps ++ [x25; conv] ++ written qs))
            (PyTuple (before ++ v :: after))
          = Return (PyBytes (out ++ b ++ out'))))
  /\ (forallb well_written ps = true -> forallb by_name ps = true ->
      formatted_by_name (bytes_convert int_max_str_digits) ps items
          = Return out ->
      (has_byte 40 key = false -> has_byte 41 key = false ->
       dict_lookup (PyBytes key) items = Some (PyStr s) ->
       code_in (Byte.to_N conv) "bsdiucoxXeEfFgG" = true ->
       octets.__mod__ int_max_str_digits false
         (octets.mk (written ps ++ B "%(" ++ key ++ B ")" ++ [conv] ++ q))
         (PyDict items)
       = Raise TypeError)
      /\ octets.__mod__ int_max_str_digits false (octets.mk (written ps))
           (PyDict (items ++ extra))
         = Return (PyBytes out)).
Proof.
  intros self args fs ps qs conv key q before after items extra out out' b s v.
  split; [|split].
  - intro Hs. split; intro Ht.
    + exact (mod_lt35_text self args fs Hs Ht).
    + exact (mod_lt35_passes self args fs Hs Ht).
  - intros Hw Hb. split.
    + intro Hc.
      destruct (refusing_ends_directive conv) as [He H40].
      { destruct conv; try discriminate Hc; reflexivity. }
      unfold octets.__mod__, bytes_mod, format.
      cbn [octets._bytes initial_args fl_mapping bytes_flavour app].
      rewrite (format_loop_failing_directive ps conv q _ _ 0 out (PyStr s)
                 after TypeError); try assumption; try reflexivity.
      * lia.
      * cbn [skipn]. exact (substitute_takes _ ps before _ out Hb).
      * now apply bytes_convert_text.
    + intros Hi Hq Ha.
      destruct (inserts_convert conv v b Hi) as (Hv & He & H40).
      assert (Hw' : forallb well_written (ps ++ Positional conv :: qs) = true).
      { rewrite forallb_app. cbn [forallb well_written].
        now rewrite Hw, He, H40, Hq. }
      assert (E : written ps ++ [x25; conv] ++ written qs
                  = written (ps ++ Positional conv :: qs)).
      { unfold written. now rewrite flat_map_app. }
      rewrite E, (mod_formatted _ _ Hw').
      rewrite (formatted_middle _ ps qs conv before after v out Hb).
      rewrite Hv, Ha. reflexivity.
  - intros Hw Hn Hf. split.
    + intros H40 H41 Hk Hc.
      destruct (refusing_ends_directive conv) as [He _].
      { destruct conv; try discriminate Hc; reflexivity. }
      unfold octets.__mod__, bytes_mod, format.
      cbn [octets._bytes initial_args fl_mapping bytes_flavour].
      change (written ps ++ B "%(" ++ key ++ B ")" ++ [conv] ++ q)
        with (written ps ++ x25 :: x28 :: key ++ x29 :: conv :: q).
      rewrite (format_loop_failing_named ps key conv q _ _ items out (PyStr s)
                 TypeError); try assumption; try reflexivity.
      * lia.
      * now apply bytes_convert_text.
    + rewrite (mod_formatted_by_name _ _ Hw Hn).
      now rewrite (formatted_by_name_app _ ps items extra out Hf).
Qed.

End InterpolationFacts.

(** C1 at work: [octets(b"%s=%d%%") % (b"n", 42)] on Python 3.5 and
    later. *)
Lemma mod_formatted_bytes_witness :
  octets.__mod__ 4300 false (octets.mk (B "%s=%d%%"))
    (PyTuple [PyBytes (B "n"); PyInt 42])
  = Return (PyBytes (B "n=42%")).
Proof.
  destruct (mod_formatted_bytes 4300 (octets.mk []) PyNone PyNone
              [Positional "s"; Literal "="; Positional "d"; Percent]
              [PyBytes (B "n"); PyInt 42] [] eq_refl) as (_ & H & _).
  exact H.
Defined.

(** C1 as stated fails: what the operation returns is no instance of
    the class.  On Python 3.5 and later [octets(b"abc") % ()] is the
    [bytes] object [b"abc"]: its item [0] is the integer [97], where item
    [0] of an instance that holds the same bytes is [b"a"].  Before 3.5,
    where there is no limit on the digits of an integer, the same
    operation raises [TypeError]. *)
Lemma mod_returns_plain_bytes :
  octets.__mod__ 4300 false (octets.mk (B "abc")) (PyTuple [])
  = Return (PyBytes (B "abc"))
  /\ bytes_getitem (B "abc") (PyInt 0) = Return (PyInt 97)
  /\ octets.__getitem__ (octets.mk (B "abc")) (PyInt 0)
     = Return (PyBytes (B "a"))
  /\ octets.__mod__ 0 true (octets.mk (B "abc")) (PyTuple [])
     = Raise TypeError.
Proof.
  repeat split.
Qed.

(** C2 at work.  On Python 3.5 and later, [octets(b"a%d%s%") % (1, "x")]
    raises [TypeError] at [%s], before the end of the template is
    looked at; before 3.5, [octets(b"%b") % ("x",)] raises
    [TypeError]. *)
Lemma mod_text_argument_witness :
  octets.__mod__ 4300 false (octets.mk (B "a%d%s%"))
    (PyTuple [PyInt 1; PyStr (T "x")])
  = Raise TypeError
  /\ octets.__mod__ 0 true (octets.mk (B "%b")) (PyTuple [PyStr (T "x")])
     = Raise TypeError.
Proof.
  split.
  - destruct (mod_text_argument 4300 (octets.mk []) PyNone []
                [Literal "a"; Positional "d"] [] "s"%byte [] (B "%")
                [PyInt 1] [] [] [] (B "a1") [] [] (T "x") PyNone)
      as (_ & H & _).
    destruct (H eq_refl eq_refl) as [G _]. exact (G eq_refl).
  - destruct (mod_text_argument 0 (octets.mk (B "%b"))
                (PyTuple [PyStr (T "x")]) (T "%\1s")
                [] [] "s"%byte [] [] [] [] [] [] [] [] [] [] PyNone)
      as (H & _).
    destruct (H eq_refl) as [G _]. exact (G eq_refl).
Defined.

(** C2 as stated fails with [_LESS_THAN_PY35] false: text among the
    arguments does not always raise.  [octets(b"abc") % {b"k": "text"}]
    returns [b"abc"], and [octets(b"%r") % ("x",)] returns the quoted
    text. *)
Lemma mod_text_accepted :
  has_text_argument (PyDict [(PyBytes (B "k"), PyStr (T "text"))]) = true
  /\ octets.__mod__ 4300 false (octets.mk (B "abc"))
       (PyDict [(PyBytes (B "k"), PyStr (T "text"))])
     = Return (PyBytes (B "abc"))
  /\ has_text_argument (PyTuple [PyStr (T "x")]) = true
  /\ octets.__mod__ 4300 false (octets.mk (B "%r")) (PyTuple [PyStr (T "x")])
     = Return (PyBytes (B "'x'")).
Proof.
  repeat split.
Qed.

(** ** Construction: the remaining branches *)

Section ConstructionMore.

Variable int_max_str_digits : N.
Variable float_str : Z -> text.
Variable decimal_str : bool -> N -> dec_exp -> text.

(** X1.  A source that is neither numeric, nor text, nor [bytes] is
    refused with [TypeError], whatever the encoding and the error
    policy. *)
Theorem init_unsupported_source : forall (object encoding errors : pyobj),
  is_numeric object = false ->
  is_text object = false ->
  (forall b : bytestr, object <> PyBytes b) ->
  octets.__init__ int_max_str_digits float_str decimal_str
                  object encoding errors
  = Raise TypeError.
Proof.
  intros object encoding errors Hn Ht Hb. unfold octets.__init__.
  rewrite Hn. destruct object; cbn [is_text] in Ht; try discriminate;
    try reflexivity.
  exfalso. eapply Hb. reflexivity.
Qed.

(** X2.  For a text source, an encoding that is neither [None] nor text
    is refused with [TypeError]; and an error policy that is not text is
    put to the truth test of [if errors:]: a false one ([None], [0], an
    empty [bytes] or tuple) is ignored, a true one reaches [str.encode]
    and is refused there with [TypeError], once the name of the encoding
    has been read: a name that is no C string is refused first. *)
Theorem init_text_arguments_not_text :
  forall (s name : text) (encoding errors : pyobj),
  (encoding <> PyNone -> is_text encoding = false ->
   octets.__init__ int_max_str_digits float_str decimal_str
                   (PyStr s) encoding errors
   = Raise TypeError)
  /\ (encoding <> PyNone -> is_text errors = false -> truthy errors = false ->
      octets.__init__ int_max_str_digits float_str decimal_str
                      (PyStr s) encoding errors
      = octets.__init__ int_max_str_digits float_str decimal_str
                        (PyStr s) encoding PyNone)
  /\ (is_text errors = false -> truthy errors = true ->
      octets.__init__ int_max_str_digits float_str decimal_str
                      (PyStr s) (PyStr name) errors
      = (_ <- c_string name ;; Raise TypeError)).
Proof.
  intros s name encoding errors. split; [|split].
  - intros He Ht. unfold octets.__init__. cbn [is_numeric].
    destruct encoding; cbn [is_text] in Ht; try discriminate; try congruence;
      destruct (truthy errors); reflexivity.
  - intros He Ht Hf. unfold octets.__init__. cbn [is_numeric truthy].
    destruct encoding; try congruence; rewrite Hf; reflexivity.
  - intros Ht Hf. unfold octets.__init__. cbn [is_numeric]. rewrite Hf.
    unfold str_encode. destruct (c_string name); cbn [bind]; try reflexivity.
    destruct errors; cbn [is_text] in Ht; try discriminate; reflexivity.
Qed.

(** What a handler of the fragment other than the strict one makes of a
    text: every character gives its encoding if it has one, and the
    encoding of its replacement if not. *)
Lemma encode_with_handler :
  forall (cd : codec) (h : text) (hd : handler) (s : text),
  assoc_text h handler_names = Some hd -> hd <> Strict ->
  encode_with cd h s
  = Return (flat_map (fun c => if encodable cd c then encode_char cd c
                               else flat_map (encode_char cd) (replacement hd c))
                     s).
Proof.
  intros cd h hd s Hh Hs. induction s as [|c s IH];
    cbn [encode_with flat_map]; [reflexivity|].
  rewrite IH, Hh. destruct (encodable cd c); cbn [bind]; [reflexivity|].
  destruct hd; try congruence; reflexivity.
Qed.

Lemma handler_name_truthy : forall (h : text) (hd : handler),
  assoc_text h handler_names = Some hd -> truthy (PyStr h) = true.
Proof.
  intros [|c h] hd H; [discriminate H|reflexivity].
Qed.

(** X3.  With a codec of the fragment and one of the policies ["ignore"],
    ["replace"], ["backslashreplace"], ["xmlcharrefreplace"], construction
    from text never fails: each character contributes its encoding, or
    the encoding of what the policy puts in its place.  Under ["ignore"]
    the instance holds the encoding of the encodable characters alone. *)
Theorem init_text_permissive :
  forall (s name h : text) (cd : codec) (hd : handler),
  lookup_codec name = Some cd ->
  assoc_text h handler_names = Some hd ->
  hd <> Strict ->
  octets.__init__ int_max_str_digits float_str decimal_str
                  (PyStr s) (PyStr name) (PyStr h)
  = Return (octets.mk
      (flat_map (fun c => if encodable cd c then encode_char cd c
                          else flat_map (encode_char cd) (replacement hd c))
                s))
  /\ (hd = Ignore ->
      octets.__init__ int_max_str_digits float_str decimal_str
                      (PyStr s) (PyStr name) (PyStr h)
      = Return (octets.mk
          (flat_map (encode_char cd) (filter (encodable cd) s)))).
Proof.
  intros s name h cd hd Hcd Hh Hs.
  assert (E : octets.__init__ int_max_str_digits float_str decimal_str
                              (PyStr s) (PyStr name) (PyStr h)
              = Return (octets.mk
                  (flat_map (fun c => if encodable cd c then encode_char cd c
                                      else flat_map (encode_char cd)
                                                    (replacement hd c)) s))).
  { unfold octets.__init__. cbn [is_numeric].
    rewrite (handler_name_truthy h hd Hh). unfold str_encode.
    rewrite (codec_name_c_string name cd Hcd), (handler_name_c_string h hd Hh).
    cbn [bind]. rewrite Hcd.
    rewrite (encode_with_handler cd h hd s Hh Hs). reflexivity. }
  split; [exact E|].
  intros ->. rewrite E. do 2 f_equal. clear E.
  induction s as [|c s IH]; [reflexivity|].
  change (filter (encodable cd) (c :: s))
    with (if encodable cd c then c :: filter (encodable cd) s
          else filter (encodable cd) s).
  change ((if encodable cd c then encode_char cd c
           else flat_map (encode_char cd) (replacement Ignore c))
          ++ flat_map (fun c0 => if encodable cd c0 then encode_char cd c0
                                 else flat_map (encode_char cd)
                                               (replacement Ignore c0)) s
          = flat_map (encode_char cd)
              (if encodable cd c then c :: filter (encodable cd) s
               else filter (encodable cd) s)).
  rewrite IH. destruct (encodable cd c); reflexivity.
Qed.

(** X4.  Constructing from a number is constructing from the text of the
    number with the encoding ["ascii"]: [octets(10)] and
    [octets("10", "ascii")] hold the same bytes.  The encoding and the
    error policy given with the number play no part. *)
Theorem init_numeric_as_text : forall (n encoding errors : pyobj),
  is_numeric n = true ->
  octets.__init__ int_max_str_digits float_str decimal_str n encoding errors
  = (s <- py_str int_max_str_digits float_str decimal_str n ;;
     octets.__init__ int_max_str_digits float_str decimal_str
                     (PyStr s) (PyStr (T "ascii")) PyNone).
Proof.
  intros n encoding errors Hn. unfold octets.__init__ at 1. rewrite Hn.
  destruct (py_str int_max_str_digits float_str decimal_str n); reflexivity.
Qed.

End ConstructionMore.

Lemma init_unsupported_source_witness :
  octets.__init__ 4300 (fun _ => []) (fun _ _ _ => [])
                  (PyList [PyBytes (B "bytes")])
                  PyNone PyNone
  = Raise TypeError.
Proof.
  apply init_unsupported_source; [reflexivity|reflexivity|discriminate].
Defined.

Lemma init_text_arguments_not_text_witness :
  octets.__init__ 4300 (fun _ => []) (fun _ _ _ => []) (PyStr (T "a"))
                  (PyStr (T "ascii")) (PyInt 0)
  = Return (octets.mk (B "a"))
  /\ octets.__init__ 4300 (fun _ => []) (fun _ _ _ => []) (PyStr (T "a"))
                     (PyStr (T "ascii")) (PyInt 1)
     = Raise TypeError
  /\ octets.__init__ 4300 (fun _ => []) (fun _ _ _ => []) (PyStr (T "a"))
                     (PyInt 5) PyNone
     = Raise TypeError.
Proof.
  split; [|split].
  - destruct (init_text_arguments_not_text 4300 (fun _ => []) (fun _ _ _ => [])
                (T "a") [] (PyStr (T "ascii")) (PyInt 0)) as (_ & H & _).
    rewrite H; [reflexivity|discriminate|reflexivity|reflexivity].
  - destruct (init_text_arguments_not_text 4300 (fun _ => []) (fun _ _ _ => [])
                (T "a") (T "ascii") PyNone (PyInt 1)) as (_ & _ & H).
    exact (H eq_refl eq_refl).
  - destruct (init_text_arguments_not_text 4300 (fun _ => []) (fun _ _ _ => [])
                (T "a") [] (PyInt 5) PyNone) as (H & _ & _).
    apply H; [discriminate|reflexivity].
Defined.

Lemma init_text_permissive_witness :
  octets.__init__ 4300 (fun _ => []) (fun _ _ _ => []) (PyStr [104; 233; 33]%N)
                  (PyStr (T "ascii")) (PyStr (T "replace"))
  = Return (octets.mk (B "h?!")).
Proof.
  destruct (init_text_permissive 4300 (fun _ => []) (fun _ _ _ => [])
              [104; 233; 33]%N (T "ascii") (T "replace") Ascii Replace
              eq_refl eq_refl) as [H _]; [discriminate|].
  exact H.
Defined.

Lemma init_numeric_as_text_witness :
  octets.__init__ 4300 (fun _ => []) (fun _ _ _ => []) (PyInt (-12))
                  (PyInt 5) (PyInt 7)
  = octets.__init__ 4300 (fun _ => []) (fun _ _ _ => []) (PyStr (T "-12"))
                    (PyStr (T "ascii")) PyNone.
Proof.
  rewrite (init_numeric_as_text 4300 (fun _ => []) (fun _ _ _ => [])
             (PyInt (-12)) (PyInt 5) (PyInt 7) eq_refl).
  reflexivity.
Defined.

(** ** Indexing, iteration and slicing together *)

Lemma list_of_iter : forall self : octets.t,
  octets.list_of (octets.__iter__ self)
  = Return (map (fun x => PyBytes [x]) (octets._bytes self)).
Proof.
  intro self. unfold octets.list_of, octets.__iter__.
  cbn [octets.gen_i octets.gen_stop].
  apply (drain_from self (octets._bytes self) []); [reflexivity|].
  rewrite Z.sub_0_r, Nat2Z.id. lia.
Qed.

(** An integer key in range selects the one-byte [bytes] at its
    position. *)
Lemma getitem_int_in_range : forall (self : octets.t) (i : Z) (x : byte),
  - Z.of_nat (List.length (octets._bytes self)) <= i
    < Z.of_nat (List.length (octets._bytes self)) ->
  nth_error (octets._bytes self)
            (Z.to_nat (from_end (Z.of_nat (List.length (octets._bytes self))) i))
  = Some x ->
  octets.__getitem__ self (PyInt i) = Return (PyBytes [x]).
Proof.
  intros self i x Hr Hx.
  set (len := Z.of_nat (List.length (octets._bytes self))) in *.
  assert (Hj : 0 <= from_end len i < len).
  { unfold from_end. destruct (Z.ltb_spec i 0); lia. }
  unfold octets.__getitem__. cbn [int_value].
  assert (E1 : bytes_getitem (octets._bytes self) (PyInt i)
               = Return (PyInt (Z.of_N (Byte.to_N x)))).
  { unfold bytes_getitem, sequence_index. cbn [int_value]. fold len.
    fold (from_end len i).
    assert (Hb : ((from_end len i <? 0) || (len <=? from_end len i)) = false).
    { apply orb_false_intro; [apply Z.ltb_ge | apply Z.leb_gt]; lia. }
    rewrite Hb. cbn [bind]. now rewrite Hx. }
  rewrite E1. cbn [bind bytes_getitem].
  rewrite (sequence_slice_one _ _ _ (from_end len i) x Hx); [reflexivity|].
  now apply slice_indices_item.
Qed.

(** X5.  Iteration and indexing agree: the element that iteration yields
    in place [i] is what the index [i] selects, and what the negative
    index [i - len] selects. *)
Theorem iter_agrees_with_getitem :
  forall (self : octets.t) (vs : list pyobj) (i : nat) (v : pyobj),
  octets.list_of (octets.__iter__ self) = Return vs ->
  nth_error vs i = Some v ->
  octets.__getitem__ self (PyInt (Z.of_nat i)) = Return v
  /\ octets.__getitem__ self
       (PyInt (Z.of_nat i - Z.of_nat (List.length (octets._bytes self))))
     = Return v.
Proof.
  intros self vs i v Hvs Hv. rewrite list_of_iter in Hvs.
  injection Hvs as <-. rewrite nth_error_map in Hv.
  destruct (nth_error (octets._bytes self) i) as [x|] eqn:Hx;
    cbn [option_map] in Hv; [|discriminate].
  injection Hv as <-.
  assert (Hi : (i < List.length (octets._bytes self))%nat).
  { apply nth_error_Some. congruence. }
  split; apply getitem_int_in_range; try lia; unfold from_end.
  - destruct (Z.ltb_spec (Z.of_nat i) 0); [lia|]. now rewrite Nat2Z.id.
  - destruct (Z.ltb_spec
                (Z.of_nat i - Z.of_nat (List.length (octets._bytes self))) 0);
      [|lia].
    replace (Z.of_nat i - Z.of_nat (List.length (octets._bytes self))
             + Z.of_nat (List.length (octets._bytes self)))
      with (Z.of_nat i) by lia.
    now rewrite Nat2Z.id.
Qed.

Lemma bytes_join_singletons : forall b : bytestr,
  bytes_join (map (fun x => PyBytes [x]) b) = Return b.
Proof.
  induction b as [|x b IH]; cbn [map bytes_join]; [reflexivity|].
  rewrite IH. reflexivity.
Qed.

(** X6.  The elements that iteration yields, joined, are the bytes of
    the instance: iterating loses nothing and adds nothing. *)
Theorem iter_join : forall self : octets.t,
  (vs <- octets.list_of (octets.__iter__ self) ;; bytes_join vs)
  = Return (octets._bytes self).
Proof.
  intro self. rewrite list_of_iter. cbn [bind]. apply bytes_join_singletons.
Qed.

Lemma slice_bound_not_ok : forall o : pyobj,
  slice_field_ok o = false -> slice_bound o = Raise TypeError.
Proof.
  intros o H. unfold slice_field_ok in H. unfold slice_bound.
  destruct o; try discriminate; try reflexivity.
Qed.

Lemma slice_bound_ok : forall o : pyobj,
  slice_field_ok o = true -> exists z : option Z, slice_bound o = Return z.
Proof.
  intros o H. unfold slice_field_ok in H. unfold slice_bound.
  destruct o; try discriminate; eexists; reflexivity.
Qed.

(** X7.  How a slice key can fail.  A step of zero raises [ValueError],
    and does so before the bounds are looked at; a step that is neither
    [None] nor an integer raises [TypeError]; with a sound step, a start
    or a stop that is neither [None] nor an integer raises
    [TypeError]. *)
Theorem getitem_slice_errors :
  forall (self : octets.t) (start stop step : pyobj),
  (int_value step = Some 0 ->
   octets.__getitem__ self (PySlice start stop step) = Raise ValueError)
  /\ (slice_field_ok step = false ->
      octets.__getitem__ self (PySlice start stop step) = Raise TypeError)
  /\ (slice_field_ok step = true -> int_value step <> Some 0 ->
      slice_field_ok start = false \/ slice_field_ok stop = false ->
      octets.__getitem__ self (PySlice start stop step) = Raise TypeError).
Proof.
  intros self start stop step.
  unfold octets.__getitem__, bytes_getitem, sequence_slice, slice_indices.
  split; [|split].
  - intro H0. rewrite (slice_bound_int step 0 H0). reflexivity.
  - intro Hs. rewrite (slice_bound_not_ok step Hs). reflexivity.
  - intros Hs Hnz Hbad.
    assert (E : exists z : option Z,
              slice_bound step = Return z
              /\ (match z with Some z => z | None => 1 end =? 0) = false).
    { destruct step; cbn [slice_field_ok int_value] in Hs; try discriminate;
        cbn [slice_bound int_value].
      - exists None. split; reflexivity.
      - exists (Some (Z.b2z b)). split; [reflexivity|].
        apply Z.eqb_neq. intro E. apply Hnz. cbn [int_value]. now rewrite E.
      - exists (Some z). split; [reflexivity|].
        apply Z.eqb_neq. intro E. apply Hnz. cbn [int_value]. now rewrite E. }
    destruct E as (z & Ez & Enz). rewrite Ez. cbn [bind]. rewrite Enz.
    destruct (slice_field_ok start) eqn:Hstart.
    + destruct Hbad as [Hbad|Hbad]; [discriminate|].
      destruct (slice_bound_ok start Hstart) as [lo Elo]. rewrite Elo.
      cbn [bind]. rewrite (slice_bound_not_ok stop Hbad). reflexivity.
    + rewrite (slice_bound_not_ok start Hstart). reflexivity.
Qed.

Lemma getitem_slice_errors_witness :
  octets.__getitem__ (octets.mk (B "abc"))
    (PySlice (PyFloat 0) PyNone (PyInt 0)) = Raise ValueError
  /\ octets.__getitem__ (octets.mk (B "abc"))
       (PySlice PyNone PyNone (PyStr (T "1"))) = Raise TypeError
  /\ octets.__getitem__ (octets.mk (B "abc"))
       (PySlice PyNone (PyFloat 0) (PyInt 2)) = Raise TypeError.
Proof.
  split; [|split].
  - destruct (getitem_slice_errors (octets.mk (B "abc"))
                (PyFloat 0) PyNone (PyInt 0)) as (H & _ & _).
    exact (H eq_refl).
  - destruct (getitem_slice_errors (octets.mk (B "abc"))
                PyNone PyNone (PyStr (T "1"))) as (_ & H & _).
    exact (H eq_refl).
  - destruct (getitem_slice_errors (octets.mk (B "abc"))
                PyNone (PyFloat 0) (PyInt 2)) as (_ & _ & H).
    apply H; [reflexivity|discriminate|right; reflexivity].
Defined.

Lemma iter_agrees_with_getitem_witness :
  octets.__getitem__ (octets.mk (B "abc")) (PyInt 1) = Return (PyBytes (B "b"))
  /\ octets.__getitem__ (octets.mk (B "abc")) (PyInt (-2))
     = Return (PyBytes (B "b")).
Proof.
  exact (iter_agrees_with_getitem (octets.mk (B "abc"))
           [PyBytes (B "a"); PyBytes (B "b"); PyBytes (B "c")] 1%nat
           (PyBytes (B "b")) eq_refl eq_refl).
Defined.

(** ** Slices with step one and minus one *)

Lemma skipn_nth_cons : forall {A : Type} (n : nat) (l : list A) (x : A),
  nth_error l n = Some x -> skipn n l = x :: skipn (S n) l.
Proof.
  intros A n. induction n as [|n IH]; intros l x H; destruct l as [|y l];
    cbn [nth_error] in H; try discriminate.
  - now injection H as ->.
  - cbn [skipn]. now apply IH.
Qed.

(** With step one the copying loop takes a run of consecutive items. *)
Lemma take_stride_unit : forall {A : Type} (l : list A) (n : nat) (a : Z),
  0 <= a ->
  take_stride l a 1 n = firstn n (skipn (Z.to_nat a) l).
Proof.
  intros A l n. induction n as [|n IH]; intros a Ha; [reflexivity|].
  cbn [take_stride].
  destruct (nth_error l (Z.to_nat a)) as [x|] eqn:E.
  - rewrite (skipn_nth_cons _ _ _ E). cbn [firstn]. f_equal.
    rewrite IH by lia.
    now replace (Z.to_nat (a + 1)) with (S (Z.to_nat a)) by lia.
  - apply nth_error_None in E. now rewrite skipn_all2 by exact E.
Qed.

(** The items the copying loop reads, one by one. *)
Lemma nth_error_take_stride :
  forall {A : Type} (l : list A) (s : Z) (n : nat) (a : Z) (k : nat),
  (forall j : nat, (j < n)%nat ->
     0 <= a + Z.of_nat j * s < Z.of_nat (List.length l)) ->
  nth_error (take_stride l a s n) k
  = if Nat.ltb k n then nth_error l (Z.to_nat (a + Z.of_nat k * s)) else None.
Proof.
  intros A l s n. induction n as [|n IH]; intros a k H.
  - cbn [take_stride]. now rewrite nth_error_nil.
  - cbn [take_stride].
    destruct (nth_error_in_range l a) as [x Hx].
    { specialize (H 0%nat ltac:(lia)). lia. }
    rewrite Hx. destruct k as [|k]; cbn [nth_error].
    + cbn [Nat.ltb Nat.leb]. now rewrite Z.add_0_r.
    + rewrite IH.
      * change (Nat.ltb (S k) (S n)) with (Nat.ltb k n).
        destruct (Nat.ltb k n); [|reflexivity]. do 2 f_equal. lia.
      * intros j Hj. specialize (H (S j) ltac:(lia)). lia.
Qed.

Lemma take_stride_reverse : forall {A : Type} (l : list A),
  take_stride l (Z.of_nat (List.length l) - 1) (-1) (List.length l) = rev l.
Proof.
  intros A l. apply nth_error_ext. intro k.
  rewrite nth_error_take_stride by (intros j Hj; lia).
  rewrite nth_error_rev.
  destruct (Nat.ltb_spec k (List.length l)); [|reflexivity].
  f_equal. lia.
Qed.

Lemma clip_bound_range : forall len z : Z,
  0 <= len -> 0 <= clip_bound len 0 len 0 (Some z) <= len.
Proof.
  intros len z H. unfold clip_bound. destruct (Z.ltb_spec z 0); lia.
Qed.

(** X8.  Cutting at any integer [k], in range or not, negative or not,
    loses nothing: [self[:k]] and [self[k:]] put together are the bytes of
    the instance.  The first is the prefix and the second the rest, cut
    at [k] brought into the sequence. *)
Theorem getitem_split : forall (self : octets.t) (k : Z),
  let len := Z.of_nat (List.length (octets._bytes self)) in
  let c := Z.to_nat (clip_bound len 0 len 0 (Some k)) in
  octets.__getitem__ self (PySlice PyNone (PyInt k) PyNone)
  = Return (PyBytes (firstn c (octets._bytes self)))
  /\ octets.__getitem__ self (PySlice (PyInt k) PyNone PyNone)
     = Return (PyBytes (skipn c (octets._bytes self)))
  /\ firstn c (octets._bytes self) ++ skipn c (octets._bytes self)
     = octets._bytes self.
Proof.
  intros self k len c.
  pose proof (clip_bound_range len k ltac:(unfold len; lia)) as Hc.
  set (cz := clip_bound len 0 len 0 (Some k)) in *.
  split; [|split].
  - unfold octets.__getitem__, bytes_getitem, sequence_slice, slice_indices.
    cbn [slice_bound int_value bind Z.eqb Z.ltb Z.compare]. fold len.
    change (clip_bound len 0 len 0 None) with 0.
    change (clip_bound len 0 len len (Some k)) with cz.
    cbn [bind]. rewrite take_stride_unit by lia.
    change (Z.to_nat 0) with 0%nat. cbn [skipn]. do 3 f_equal.
    unfold slice_length. cbn [Z.ltb Z.compare].
    destruct (Z.ltb_spec 0 cz); [|unfold c; fold cz; lia].
    rewrite Z.div_1_r. unfold c. fold cz. lia.
  - unfold octets.__getitem__, bytes_getitem, sequence_slice, slice_indices.
    cbn [slice_bound int_value bind Z.eqb Z.ltb Z.compare]. fold len.
    change (clip_bound len 0 len len None) with len.
    change (clip_bound len 0 len 0 (Some k)) with cz.
    cbn [bind]. rewrite take_stride_unit by lia. fold c.
    do 2 f_equal. apply firstn_all2. rewrite length_skipn.
    unfold slice_length. cbn [Z.ltb Z.compare].
    destruct (Z.ltb_spec cz len).
    + rewrite Z.div_1_r. unfold c, len in *. lia.
    + unfold c, len in *. lia.
  - apply firstn_skipn.
Qed.

(** X9.  The slice [[::-1]] holds the bytes of the instance in reverse
    order and the slice [[:]] holds them as they are; reversing the
    reversed bytes gives the bytes back. *)
Theorem getitem_reverse : forall self : octets.t,
  octets.__getitem__ self (PySlice PyNone PyNone (PyInt (-1)))
  = Return (PyBytes (rev (octets._bytes self)))
  /\ octets.__getitem__ self (PySlice PyNone PyNone PyNone)
     = Return (PyBytes (octets._bytes self))
  /\ octets.__getitem__ (octets.mk (rev (octets._bytes self)))
       (PySlice PyNone PyNone (PyInt (-1)))
     = Return (PyBytes (octets._bytes self)).
Proof.
  assert (R : forall b : bytestr,
            octets.__getitem__ (octets.mk b) (PySlice PyNone PyNone (PyInt (-1)))
            = Return (PyBytes (rev b))).
  { intro b.
    unfold octets.__getitem__, bytes_getitem, sequence_slice, slice_indices.
    cbn [octets._bytes slice_bound int_value bind Z.eqb Z.ltb Z.compare
         clip_bound].
    do 2 f_equal. rewrite <- take_stride_reverse. f_equal.
    unfold slice_length. cbn [Z.ltb Z.compare Z.opp].
    destruct (Z.ltb_spec (-1) (Z.of_nat (List.length b) - 1)).
    - rewrite Z.div_1_r. lia.
    - lia. }
  intros [b]. cbn [octets._bytes]. split; [apply R|]. split.
  - unfold octets.__getitem__, bytes_getitem, sequence_slice, slice_indices.
    cbn [octets._bytes slice_bound int_value bind Z.eqb Z.ltb Z.compare
         clip_bound].
    rewrite take_stride_unit by lia. change (Z.to_nat 0) with 0%nat.
    cbn [skipn]. do 2 f_equal. apply firstn_all2.
    unfold slice_length. cbn [Z.ltb Z.compare].
    destruct (Z.ltb_spec 0 (Z.of_nat (List.length b))).
    + rewrite Z.div_1_r. lia.
    + lia.
  - rewrite R. now rewrite rev_involutive.
Qed.

(** ** Comparison *)

Lemma byte_to_N_inj : forall x y : byte, Byte.to_N x = Byte.to_N y -> x = y.
Proof.
  intros x y H. rewrite <- (byte_of_to_N x), <- (byte_of_to_N y). now rewrite H.
Qed.

(** The host's comparison of [bytes] is the lexicographic one. *)
Lemma bytes_richcompare_lex : forall (a b : bytestr) (op : cmpop),
  bytes_richcompare a b op = richcompare_sign (lex_compare a b) op.
Proof.
  induction a as [|x a IH]; intros [|y b] op.
  - destruct op; reflexivity.
  - destruct op; reflexivity.
  - destruct op; reflexivity.
  - specialize (IH b). unfold bytes_richcompare in *.
    cbn [List.length Nat.min Nat.eqb memcmp lex_compare Nat.compare].
    destruct (N.compare (Byte.to_N x) (Byte.to_N y)).
    + destruct op;
        [ exact (IH Py_LT) | exact (IH Py_LE) | exact (IH Py_EQ)
        | exact (IH Py_NE) | exact (IH Py_GT) | exact (IH Py_GE) ].
    + destruct op; try reflexivity;
        destruct (Nat.eqb (List.length a) (List.length b)); reflexivity.
    + destruct op; try reflexivity;
        destruct (Nat.eqb (List.length a) (List.length b)); reflexivity.
Qed.

Lemma lex_compare_eq : forall a b : bytestr, lex_compare a b = Eq <-> a = b.
Proof.
  induction a as [|x a IH]; intros [|y b]; cbn [lex_compare];
    try (split; [discriminate|discriminate]); [split; reflexivity|].
  destruct (N.compare_spec (Byte.to_N x) (Byte.to_N y)) as [E|E|E].
  - apply byte_to_N_inj in E. subst y. rewrite IH.
    split; [now intros ->|now intros [= ->]].
  - split; [discriminate|]. intros [= -> _]. lia.
  - split; [discriminate|]. intros [= -> _]. lia.
Qed.

Lemma lex_compare_lt : forall a b : bytestr, lex_compare a b = Lt <-> lex_lt a b.
Proof.
  induction a as [|x a IH]; intros [|y b]; cbn [lex_compare].
  - split; [discriminate|]. intro H. inversion H.
  - split; [intros _; constructor|reflexivity].
  - split; [discriminate|]. intro H. inversion H.
  - destruct (N.compare_spec (Byte.to_N x) (Byte.to_N y)) as [E|E|E].
    + apply byte_to_N_inj in E. subst y. rewrite IH. split.
      * now constructor.
      * intro H. inversion H; subst; [lia|assumption].
    + split; [intros _; now constructor|reflexivity].
    + split; [discriminate|]. intro H. inversion H; subst; lia.
Qed.

Lemma lex_compare_antisym : forall a b : bytestr,
  lex_compare b a = CompOpp (lex_compare a b).
Proof.
  induction a as [|x a IH]; intros [|y b]; cbn [lex_compare]; try reflexivity.
  rewrite (N.compare_antisym (Byte.to_N x) (Byte.to_N y)).
  destruct (N.compare (Byte.to_N x) (Byte.to_N y)); cbn [CompOpp];
    [apply IH | reflexivity | reflexivity].
Qed.

Lemma lex_compare_trans : forall a b c : bytestr,
  lex_compare a b = Lt -> lex_compare b c = Lt -> lex_compare a c = Lt.
Proof.
  induction a as [|x a IH]; intros [|y b] [|z c]; cbn [lex_compare];
    try discriminate; try reflexivity.
  destruct (N.compare_spec (Byte.to_N x) (Byte.to_N y)) as [E1|E1|E1];
    destruct (N.compare_spec (Byte.to_N y) (Byte.to_N z)) as [E2|E2|E2];
    try discriminate; intros H1 H2.
  - rewrite E1, E2, N.compare_refl. now apply (IH b c).
  - rewrite E1. now apply N.compare_lt_iff in E2 as ->.
  - rewrite <- E2. now apply N.compare_lt_iff in E1 as ->.
  - assert (E : (Byte.to_N x < Byte.to_N z)%N) by lia.
    now apply N.compare_lt_iff in E as ->.
Qed.

Lemma eq_method_lex : forall (self : octets.t) (other : bytestr),
  octets.__eq__ self other
  = richcompare_sign (lex_compare (octets._bytes self) other) Py_EQ.
Proof.
  intros self other. unfold octets.__eq__.
  destruct (list_eq_dec Byte.byte_eq_dec (octets._bytes self) other) as [E|E].
  - apply lex_compare_eq in E. now rewrite E.
  - destruct (lex_compare (octets._bytes self) other) eqn:C; try reflexivity.
    apply lex_compare_eq in C. contradiction.
Qed.

Lemma method_lex : forall (op : cmpop) (self : octets.t) (other : bytestr),
  octets.method op self other
  = richcompare_sign (lex_compare (octets._bytes self) other) op.
Proof.
  intros op self other.
  destruct op; cbn [octets.method];
    unfold octets.__lt__, octets.__le__, octets.__ne__, octets.__gt__,
      octets.__ge__;
    try apply bytes_richcompare_lex. apply eq_method_lex.
Qed.

(** X10.  The comparison methods order instances against [bytes]
    lexicographically, by the values of the bytes: [__lt__] holds exactly
    when the instance's bytes come before the other's, [__gt__] exactly
    when they come after, and [__eq__] exactly when the two are the same
    bytes. *)
Theorem compare_lexicographic : forall (self : octets.t) (other : bytestr),
  (octets.__lt__ self other = true <-> lex_lt (octets._bytes self) other)
  /\ (octets.__gt__ self other = true <-> lex_lt other (octets._bytes self))
  /\ (octets.__eq__ self other = true <-> octets._bytes self = other).
Proof.
  intros self other.
  pose proof (method_lex Py_LT self other) as HL.
  pose proof (method_lex Py_GT self other) as HG.
  pose proof (method_lex Py_EQ self other) as HE.
  cbn [octets.method] in HL, HG, HE. rewrite HL, HG, HE.
  rewrite <- lex_compare_lt, <- lex_compare_lt, <- lex_compare_eq.
  rewrite (lex_compare_antisym (octets._bytes self) other).
  destruct (lex_compare (octets._bytes self) other); cbn;
    repeat split; intro; congruence.
Qed.

(** X11.  The six methods tell one story: [__ne__] is the negation of
    [__eq__], [__le__] is [__lt__] or [__eq__], [__ge__] is [__gt__] or
    [__eq__], [__gt__] is the negation of [__le__] and [__ge__] that of
    [__lt__]; and of [__lt__], [__eq__], [__gt__] exactly one holds. *)
Theorem compare_consistent : forall (self : octets.t) (other : bytestr),
  octets.__ne__ self other = negb (octets.__eq__ self other)
  /\ octets.__le__ self other
     = octets.__lt__ self other || octets.__eq__ self other
  /\ octets.__ge__ self other
     = octets.__gt__ self other || octets.__eq__ self other
  /\ octets.__gt__ self other = negb (octets.__le__ self other)
  /\ octets.__ge__ self other = negb (octets.__lt__ self other)
  /\ (octets.__lt__ self other = true /\ octets.__eq__ self other = false
        /\ octets.__gt__ self other = false
      \/ octets.__lt__ self other = false /\ octets.__eq__ self other = true
         /\ octets.__gt__ self other = false
      \/ octets.__lt__ self other = false /\ octets.__eq__ self other = false
         /\ octets.__gt__ self other = true).
Proof.
  intros self other.
  pose proof (method_lex Py_LT self other) as HLT.
  pose proof (method_lex Py_LE self other) as HLE.
  pose proof (method_lex Py_EQ self other) as HEQ.
  pose proof (method_lex Py_NE self other) as HNE.
  pose proof (method_lex Py_GT self other) as HGT.
  pose proof (method_lex Py_GE self other) as HGE.
  cbn [octets.method] in *. rewrite HLT, HLE, HEQ, HNE, HGT, HGE.
  destruct (lex_compare (octets._bytes self) other); cbn; tauto.
Qed.

(** X12.  Against [bytes] the methods behave as a total order: no
    instance is less than its own bytes, [__lt__] is transitive,
    [__le__] holds one way or the other, and when it holds both ways the
    bytes are the same. *)
Theorem compare_total_order : forall a b c : bytestr,
  octets.__lt__ (octets.mk a) a = false
  /\ (octets.__lt__ (octets.mk a) b = true ->
      octets.__lt__ (octets.mk b) c = true ->
      octets.__lt__ (octets.mk a) c = true)
  /\ octets.__le__ (octets.mk a) b || octets.__le__ (octets.mk b) a = true
  /\ (octets.__le__ (octets.mk a) b = true ->
      octets.__le__ (octets.mk b) a = true -> a = b).
Proof.
  intros a b c.
  pose proof (method_lex Py_LT (octets.mk a) a) as Haa.
  pose proof (method_lex Py_LT (octets.mk a) b) as Hab.
  pose proof (method_lex Py_LT (octets.mk b) c) as Hbc.
  pose proof (method_lex Py_LT (octets.mk a) c) as Hac.
  pose proof (method_lex Py_LE (octets.mk a) b) as Lab.
  pose proof (method_lex Py_LE (octets.mk b) a) as Lba.
  cbn [octets.method octets._bytes] in *.
  rewrite Haa, Hab, Hbc, Hac, Lab, Lba.
  rewrite (lex_compare_antisym a b).
  split; [|split; [|split]].
  - assert (E : lex_compare a a = Eq) by now apply lex_compare_eq.
    now rewrite E.
  - intros H1 H2.
    destruct (lex_compare a b) eqn:C1; try discriminate.
    destruct (lex_compare b c) eqn:C2; try discriminate.
    now rewrite (lex_compare_trans a b c C1 C2).
  - destruct (lex_compare a b); reflexivity.
  - intros H1 H2. apply lex_compare_eq.
    destruct (lex_compare a b); cbn in *; congruence.
Qed.

Lemma richcompare_sign_swapped : forall (c : comparison) (op : cmpop),
  richcompare_sign (CompOpp c) (swapped_op op) = richcompare_sign c op.
Proof.
  intros [ | | ] []; reflexivity.
Qed.

(** X13.  Two instances compare as their bytes do, for each of the six
    operations: the host's [bytes] declines the instance, and the
    instance's own method answers with the operands exchanged; the
    answer is the one that the bytes of the other instance would have
    got. *)
Theorem compare_operands :
  forall (op : cmpop) (self o : octets.t),
  octets.compare op self (octets.OpOctets o)
  = Return (bytes_richcompare (octets._bytes self) (octets._bytes o) op)
  /\ octets.compare op self (octets.OpOctets o)
     = octets.compare op self (octets.OpValue (PyBytes (octets._bytes o))).
Proof.
  intros op self o.
  assert (E : octets.compare op self (octets.OpOctets o)
              = Return (bytes_richcompare (octets._bytes self)
                                          (octets._bytes o) op)).
  { cbn [octets.compare]. rewrite method_lex, bytes_richcompare_lex.
    rewrite (lex_compare_antisym (octets._bytes self) (octets._bytes o)).
    now rewrite richcompare_sign_swapped. }
  split; [exact E|].
  rewrite E. cbn [octets.compare].
  now rewrite method_lex, bytes_richcompare_lex.
Qed.

Lemma compare_total_order_witness :
  octets.__lt__ (octets.mk (B "a")) (B "b") = true.
Proof.
  destruct (compare_total_order (B "a") (B "ab") (B "b")) as (_ & H & _).
  apply H; reflexivity.
Defined.

Lemma compare_lexicographic_witness : lex_lt (B "ab") (B "b").
Proof.
  destruct (compare_lexicographic (octets.mk (B "ab")) (B "b")) as ([H _] & _).
  exact (H eq_refl).
Defined.


(** ** Interpolation on Python 3.5 and later *)

Section InterpolationMore.

Variable int_max_str_digits : N.

(** One directive [%c] between two stretches without [%], and one
    argument for it: the converted argument takes the place of the
    directive. *)
Lemma mod_single_directive :
  forall (p q piece : bytestr) (c : byte) (v : pyobj),
  has_byte 37 p = false -> has_byte 37 q = false ->
  is_spec_modifier (Byte.to_N c) = false ->
  (Byte.to_N c =? 37)%N = false -> (Byte.to_N c =? 40)%N = false ->
  bytes_convert int_max_str_digits (Byte.to_N c) v = Return piece ->
  octets.__mod__ int_max_str_digits false
      (octets.mk (p ++ [x25; c] ++ q)) (PyTuple [v])
  = Return (PyBytes (p ++ piece ++ q)).
Proof.
  intros p q piece c v Hp Hq Hm H37 H40 Hv.
  unfold octets.__mod__, bytes_mod, format.
  cbn [octets._bytes initial_args fl_mapping bytes_flavour].
  rewrite (format_loop_prefix int_max_str_digits p ([x25; c] ++ q)
      _ (S (S (S (List.length q)))))
    by (try assumption; rewrite ?length_app; cbn [List.length app]; lia).
  cbn [app]. rewrite format_loop_directive by assumption.
  rewrite directive_plain by assumption.
  cbn [getnextarg nth_error bind]. rewrite Hv. cbn [bind].
  rewrite format_loop_literal by (try assumption; lia).
  reflexivity.
Qed.

Example mod_insert_verbatim :
  octets.__mod__ int_max_str_digits false (octets.mk (B "a%sb"))
      (PyTuple [PyBytes (B "x%")])
  = Return (PyBytes (B "ax%b")).
Proof. reflexivity. Qed.

(** X14.  A [bytes] argument is put in the place of [%s] or [%b] as it
    is: whatever bytes it holds, [%] and bytes above 127 included, they
    appear unchanged between what stands before and after the
    directive. *)
Theorem mod_inserts_bytes_verbatim : forall (p q x : bytestr),
  has_byte 37 p = false -> has_byte 37 q = false ->
  octets.__mod__ int_max_str_digits false (octets.mk (p ++ B "%s" ++ q))
      (PyTuple [PyBytes x])
  = Return (PyBytes (p ++ x ++ q))
  /\ octets.__mod__ int_max_str_digits false
      (octets.mk (p ++ B "%b" ++ q)) (PyTuple [PyBytes x])
     = Return (PyBytes (p ++ x ++ q)).
Proof.
  intros p q x Hp Hq. split.
  - apply (mod_single_directive p q x "s"%byte (PyBytes x)); auto.
  - apply (mod_single_directive p q x "b"%byte (PyBytes x)); auto.
Qed.

(** X15.  An integer argument is put in the place of [%d] as its
    standard base-10 numeral: the bytes inserted read back as the
    integer and have no leading zero.  An integer of more digits than the
    host's limit is refused with [ValueError]. *)
Theorem mod_inserts_decimal : forall (p q : bytestr) (n : Z),
  has_byte 37 p = false -> has_byte 37 q = false ->
  if exceeds_max_str_digits int_max_str_digits n
  then octets.__mod__ int_max_str_digits false
         (octets.mk (p ++ B "%d" ++ q)) (PyTuple [PyInt n])
       = Raise ValueError
  else exists digits : bytestr,
         octets.__mod__ int_max_str_digits false
           (octets.mk (p ++ B "%d" ++ q)) (PyTuple [PyInt n])
         = Return (PyBytes (p ++ digits ++ q))
         /\ int_of_text (charmap_decode digits) = Some n
         /\ standard_numeral (charmap_decode digits) = true.
Proof.
  intros p q n Hp Hq.
  assert (Hc : bytes_convert int_max_str_digits (Byte.to_N "d"%byte) (PyInt n)
               = (s <- int_to_str int_max_str_digits n ;;
                  Return (map byte_of_N s))) by reflexivity.
  unfold int_to_str in Hc.
  destruct (exceeds_max_str_digits int_max_str_digits n).
  - unfold octets.__mod__, bytes_mod, format.
    cbn [octets._bytes initial_args fl_mapping bytes_flavour].
    change (B "%d") with [x25; x64].
    rewrite (format_loop_prefix int_max_str_digits p ([x25; x64] ++ q) _
               (S (S (S (List.length q)))))
      by (try assumption; rewrite ?length_app; cbn [List.length app]; lia).
    cbn [app]. rewrite format_loop_directive by reflexivity.
    rewrite directive_plain by reflexivity.
    cbn [getnextarg nth_error bind]. rewrite Hc. reflexivity.
  - exists (map byte_of_N (int_str n)).
    destruct (ascii_encode_total (int_str n) (int_str_ascii n)) as [_ H].
    rewrite H. split; [|split].
    + apply (mod_single_directive p q _ "d"%byte (PyInt n)); auto.
    + apply int_of_text_int_str.
    + apply standard_numeral_int_str.
Qed.

(** The loop on an escaped template gives the bytes back and consumes
    no argument; what is left is the check at the end of the format. *)
Lemma format_loop_escaped :
  forall (b : bytestr) (fuel : nat) (st : argstate) (dict : option pyobj),
  (List.length (escape_percent b) < fuel)%nat ->
  format_loop (bytes_flavour int_max_str_digits) fuel (escape_percent b) st dict
  = (out <- match dict with
            | None => if args_left st then Raise TypeError else Return []
            | Some _ => Return []
            end ;;
     Return (b ++ out)).
Proof.
  intros b fuel st dict.
  set (m := match dict with
            | None => if args_left st then Raise TypeError else Return []
            | Some _ => Return []
            end).
  revert fuel. induction b as [|c b IH]; intros fuel Hf.
  - destruct fuel as [|fuel]; [inversion Hf|]. cbn [escape_percent flat_map].
    cbn [format_loop]. fold m. destruct m; reflexivity.
  - change (escape_percent (c :: b))
      with ((if (Byte.to_N c =? 37)%N then [c; c] else [c]) ++ escape_percent b)
      in *.
    destruct fuel as [|fuel]; [inversion Hf|].
    destruct (Byte.to_N c =? 37)%N eqn:E.
    + cbn [app List.length] in *. cbn [format_loop fl_code bytes_flavour].
      rewrite E. cbn [negb]. rewrite IH by lia. destruct m; reflexivity.
    + cbn [app List.length] in *. cbn [format_loop fl_code bytes_flavour].
      rewrite E. cbn [negb]. rewrite IH by lia. destruct m; reflexivity.
Qed.

Example mod_escaped :
  octets.__mod__ int_max_str_digits false
      (octets.mk (escape_percent (B "100%s"))) (PyTuple [])
  = Return (PyBytes (B "100%s")).
Proof. reflexivity. Qed.

(** X16.  Writing every [%] twice makes a template that stands for the
    bytes themselves: interpolated with the empty tuple, or with a dict,
    whatever it holds, it gives the bytes back. *)
Theorem mod_escape_round_trip :
  forall (b : bytestr) (items : list (pyobj * pyobj)),
  octets.__mod__ int_max_str_digits false (octets.mk (escape_percent b))
      (PyTuple [])
  = Return (PyBytes b)
  /\ octets.__mod__ int_max_str_digits false
      (octets.mk (escape_percent b)) (PyDict items)
     = Return (PyBytes b).
Proof.
  intros b items. unfold octets.__mod__, bytes_mod, format.
  cbn [octets._bytes initial_args fl_mapping bytes_flavour].
  rewrite !format_loop_escaped by lia.
  cbn [args_left List.length Nat.ltb Nat.leb bind].
  now rewrite app_nil_r.
Qed.

(** X17.  Arguments and directives must match in number.  A directive
    with no argument left for it raises [TypeError], even when its
    conversion character is none the host knows; a template without
    directives raises [TypeError] for a tuple that is not empty and for a
    single argument that is no mapping, but accepts any dict or list. *)
Theorem mod_argument_count :
  forall (p q : bytestr) (c : byte) (v : pyobj) (l : list pyobj),
  has_byte 37 p = false ->
  (is_spec_modifier (Byte.to_N c) = false ->
   (Byte.to_N c =? 37)%N = false -> (Byte.to_N c =? 40)%N = false ->
   octets.__mod__ int_max_str_digits false
       (octets.mk (p ++ [x25; c] ++ q)) (PyTuple [])
   = Raise TypeError)
  /\ octets.__mod__ int_max_str_digits false (octets.mk p) (PyTuple (v :: l))
      = Raise TypeError
  /\ octets.__mod__ int_max_str_digits false (octets.mk p) v
     = match v with
       | PyTuple [] | PyDict _ | PyList _ => Return (PyBytes p)
       | _ => Raise TypeError
       end.
Proof.
  intros p q c v l Hp. split; [|split].
  - intros Hm H37 H40. unfold octets.__mod__, bytes_mod, format.
    cbn [octets._bytes initial_args fl_mapping bytes_flavour].
    rewrite (format_loop_prefix int_max_str_digits p ([x25; c] ++ q)
        _ (S (S (S (List.length q)))))
      by (try assumption; rewrite ?length_app; cbn [List.length app]; lia).
    cbn [app]. rewrite format_loop_directive by assumption.
    rewrite directive_plain by assumption. reflexivity.
  - unfold octets.__mod__, bytes_mod, format.
    cbn [octets._bytes initial_args fl_mapping bytes_flavour].
    rewrite format_loop_literal by (try assumption; lia). reflexivity.
  - unfold octets.__mod__, bytes_mod, format. cbn [octets._bytes].
    destruct v as [| | | | | | |[|w l']| | | |];
      cbn [initial_args fl_mapping bytes_flavour];
      rewrite ?format_loop_literal by (try assumption; lia);
      rewrite ?format_loop_literal_mapping by (try assumption; lia);
      reflexivity.
Qed.

(** X18.  A template that ends in the middle of a directive raises
    [ValueError] whatever the arguments, and so does a conversion
    character that the host does not know, once an argument has been
    taken for it. *)
Theorem mod_format_errors :
  forall (p q : bytestr) (c : byte) (args v : pyobj) (l : list pyobj),
  has_byte 37 p = false ->
  octets.__mod__ int_max_str_digits false (octets.mk (p ++ B "%")) args
      = Raise ValueError
  /\ (is_spec_modifier (Byte.to_N c) = false ->
      (Byte.to_N c =? 40)%N = false ->
      code_in (Byte.to_N c) "%bsdiucoxXeEfFgGra" = false ->
      octets.__mod__ int_max_str_digits false
          (octets.mk (p ++ [x25; c] ++ q)) (PyTuple (v :: l))
      = Raise ValueError).
Proof.
  intros p q c args v l Hp. split.
  - unfold octets.__mod__, bytes_mod, format. cbn [octets._bytes].
    change (B "%") with [x25].
    rewrite (format_loop_prefix int_max_str_digits p [x25] _ 2%nat)
      by (try assumption; rewrite ?length_app; cbn [List.length]; lia).
    reflexivity.
  - intros Hm H40 Hc.
    assert (H37 : (Byte.to_N c =? 37)%N = false)
      by (destruct c; try discriminate Hc; reflexivity).
    assert (Hconv : forall w, bytes_convert int_max_str_digits (Byte.to_N c) w
        = Raise ValueError)
      by (intro w; destruct c; try discriminate Hc; reflexivity).
    unfold octets.__mod__, bytes_mod, format.
    cbn [octets._bytes initial_args fl_mapping bytes_flavour].
    rewrite (format_loop_prefix int_max_str_digits p ([x25; c] ++ q)
        _ (S (S (S (List.length q)))))
      by (try assumption; rewrite ?length_app; cbn [List.length app]; lia).
    cbn [app]. rewrite format_loop_directive by assumption.
    rewrite directive_plain by assumption.
    cbn [getnextarg nth_error bind]. now rewrite Hconv.
Qed.

Example mod_named :
  octets.__mod__ int_max_str_digits false (octets.mk (B "a%(k)sb"))
    (PyDict [(PyBytes (B "k"), PyBytes (B "X%s"));
             (PyBytes (B "z"), PyStr (T "unused"))])
  = Return (PyBytes (B "aX%sb")).
Proof. reflexivity. Qed.

(** X19.  A directive [%(key)s] takes its argument from a mapping, under
    the key as [bytes]: the [bytes] found there are inserted as they are,
    and what else the dict holds plays no part; a key that the dict does
    not hold raises [KeyError]; and arguments that are no mapping raise
    [TypeError]. *)
Theorem mod_named_directive :
  forall (p k q x : bytestr) (items : list (pyobj * pyobj)) (v : pyobj),
  has_byte 37 p = false -> has_byte 37 q = false ->
  has_byte 40 k = false -> has_byte 41 k = false ->
  (dict_lookup (PyBytes k) items = Some (PyBytes x) ->
   octets.__mod__ int_max_str_digits false
       (octets.mk (p ++ B "%(" ++ k ++ B ")s" ++ q))
     (PyDict items)
   = Return (PyBytes (p ++ x ++ q)))
  /\ (dict_lookup (PyBytes k) items = None ->
      octets.__mod__ int_max_str_digits false
          (octets.mk (p ++ B "%(" ++ k ++ B ")s" ++ q))
        (PyDict items)
      = Raise KeyError)
  /\ (fl_mapping (bytes_flavour int_max_str_digits) v = false ->
      octets.__mod__ int_max_str_digits false
          (octets.mk (p ++ B "%(" ++ k ++ B ")s" ++ q)) v
      = Raise TypeError).
Proof.
  intros p k q x items v Hp Hq H40 H41.
  change (B "%(") with [x25; x28]. change (B ")s") with [x29; x73].
  assert (Hlen : forall st dict,
            format_loop (bytes_flavour int_max_str_digits)
              (S (List.length (p ++ [x25; x28] ++ k ++ [x29; x73] ++ q)))
              (p ++ [x25; x28] ++ k ++ [x29; x73] ++ q) st dict
            = (out <- (d <- directive (bytes_flavour int_max_str_digits)
                              (x28 :: k ++ x29 :: x73 :: q) st dict ;;
                       let '(piece, rest', st') := d in
                       out <- format_loop (bytes_flavour int_max_str_digits)
                                (S (S (List.length (k ++ [x29; x73] ++ q))))
                                rest' st' dict ;;
                       Return (piece ++ out)) ;;
               Return (p ++ out))).
  { intros st dict.
    rewrite (format_loop_prefix int_max_str_digits p
               ([x25; x28] ++ k ++ [x29; x73] ++ q) _
               (S (S (S (List.length (k ++ [x29; x73] ++ q))))))
      by (try assumption; rewrite ?length_app; cbn [List.length app]; lia).
    cbn [app]. rewrite format_loop_directive by reflexivity. reflexivity. }
  split; [|split].
  - intro Hk. unfold octets.__mod__, bytes_mod, format.
    cbn [octets._bytes initial_args fl_mapping bytes_flavour].
    rewrite Hlen. clear Hlen.
    unfold directive.
    cbn [fl_code fl_key bytes_flavour Byte.to_N N.eqb Pos.eqb].
    rewrite scan_key_plain by assumption. cbn [rev app mapping_getitem].
    rewrite Hk. cbn [bind]. unfold conversion.
    cbn [fl_code fl_convert bytes_flavour getnextarg bind args_left negb].
    change (is_spec_modifier (Byte.to_N x73) || (Byte.to_N x73 =? 37)%N)
      with false. cbn iota.
    change (bytes_convert int_max_str_digits (Byte.to_N x73) (PyBytes x))
        with (Return x).
    cbn [bind getnextarg args_left negb].
    rewrite format_loop_literal_mapping
      by (try assumption; rewrite ?length_app; cbn [List.length]; lia).
    reflexivity.
  - intro Hk. unfold octets.__mod__, bytes_mod, format.
    cbn [octets._bytes initial_args fl_mapping bytes_flavour].
    rewrite Hlen. clear Hlen.
    unfold directive.
    cbn [fl_code fl_key bytes_flavour Byte.to_N N.eqb Pos.eqb].
    rewrite scan_key_plain by assumption. cbn [rev app mapping_getitem].
    rewrite Hk. reflexivity.
  - intro Hv. unfold octets.__mod__, bytes_mod, format.
    cbn [octets._bytes]. rewrite Hv.
    rewrite Hlen. reflexivity.
Qed.

(** ** Interpolation on Python 3 before 3.5 *)

(** X20.  With [_LESS_THAN_PY35] true the operation raises for every
    template without backslash and every argument, and the template
    plays no part in how: [TypeError] when text is among the arguments or
    the arguments are the empty tuple, [ValueError] otherwise.  The call
    of [sub] has the template in the place of the replacement and the
    constant [%\1s] in the place of the string searched, so the constant
    is what gets formatted. *)
Theorem mod_lt35_always_raises :
  forall (self self' : octets.t) (args : pyobj),
  has_byte 92 (octets._bytes self) = false ->
  has_byte 92 (octets._bytes self') = false ->
  (has_text_argument args = true \/ args = PyTuple [] ->
   octets.__mod__ int_max_str_digits true self args = Raise TypeError)
  /\ (has_text_argument args = false -> args <> PyTuple [] ->
      octets.__mod__ int_max_str_digits true self args = Raise ValueError)
  /\ octets.__mod__ int_max_str_digits true self args
      = octets.__mod__ int_max_str_digits true self' args.
Proof.
  intros self self' args Hb Hb'.
  rewrite (mod_lt35 int_max_str_digits self args Hb),
      (mod_lt35 int_max_str_digits self' args Hb').
  split; [|split; [|reflexivity]].
  - intros [Ht| ->]; [now rewrite Ht | reflexivity].
  - intros Ht Hne. rewrite Ht.
    destruct args as [| | | | | | |[|w l]| | | |]; try reflexivity.
    now contradiction Hne.
Qed.

End InterpolationMore.

Lemma mod_inserts_bytes_verbatim_witness :
  octets.__mod__ 4300 false (octets.mk (B "<%s>")) (PyTuple [PyBytes (B "50%")])
  = Return (PyBytes (B "<50%>")).
Proof.
  destruct (mod_inserts_bytes_verbatim 4300 (B "<") (B ">") (B "50%")
              eq_refl eq_refl) as [H _].
  exact H.
Defined.

Lemma mod_inserts_decimal_witness :
  exists digits : bytestr,
    octets.__mod__ 4300 false (octets.mk (B "n=%d;")) (PyTuple [PyInt (-12)])
    = Return (PyBytes (B "n=" ++ digits ++ B ";"))
    /\ int_of_text (charmap_decode digits) = Some (-12)
    /\ standard_numeral (charmap_decode digits) = true.
Proof.
  exact (mod_inserts_decimal 4300 (B "n=") (B ";") (-12) eq_refl eq_refl).
Defined.

Lemma mod_argument_count_witness :
  octets.__mod__ 4300 false (octets.mk (B "a%sb")) (PyTuple [])
      = Raise TypeError
  /\ octets.__mod__ 4300 false (octets.mk (B "ab")) (PyInt 5) = Raise TypeError
  /\ octets.__mod__ 4300 false (octets.mk (B "ab")) (PyList [PyInt 1; PyInt 2])
     = Return (PyBytes (B "ab")).
Proof.
  split; [|split].
  - destruct (mod_argument_count 4300 (B "a") (B "b") "s"%byte PyNone []
                eq_refl) as (H & _ & _).
    apply H; reflexivity.
  - destruct (mod_argument_count 4300 (B "ab") [] "s"%byte (PyInt 5) []
                eq_refl) as (_ & _ & H).
    exact H.
  - destruct (mod_argument_count 4300 (B "ab") [] "s"%byte
                (PyList [PyInt 1; PyInt 2]) [] eq_refl) as (_ & _ & H).
    exact H.
Defined.

Lemma mod_format_errors_witness :
  octets.__mod__ 4300 false (octets.mk (B "ab%")) (PyTuple [PyInt 1; PyInt 2])
  = Raise ValueError
  /\ octets.__mod__ 4300 false (octets.mk (B "a%qb")) (PyTuple [PyInt 1])
     = Raise ValueError.
Proof.
  split.
  - destruct (mod_format_errors 4300 (B "ab") [] "q"%byte
                (PyTuple [PyInt 1; PyInt 2]) PyNone [] eq_refl) as [H _].
    exact H.
  - destruct (mod_format_errors 4300 (B "a") (B "b") "q"%byte PyNone (PyInt 1)
      []
                eq_refl) as [_ H].
    apply H; reflexivity.
Defined.

Lemma mod_named_directive_witness :
  octets.__mod__ 4300 false (octets.mk (B "a%(k)sb"))
    (PyDict [(PyBytes (B "k"), PyBytes (B "X"))])
  = Return (PyBytes (B "aXb"))
  /\ octets.__mod__ 4300 false (octets.mk (B "a%(k)sb"))
       (PyDict [(PyStr (T "k"), PyBytes (B "X"))])
     = Raise KeyError
  /\ octets.__mod__ 4300 false (octets.mk (B "a%(k)sb")) (PyTuple [PyInt 1])
     = Raise TypeError.
Proof.
  split; [|split].
  - destruct (mod_named_directive 4300 (B "a") (B "k") (B "b") (B "X")
                [(PyBytes (B "k"), PyBytes (B "X"))] PyNone
                eq_refl eq_refl eq_refl eq_refl) as (H & _ & _).
    exact (H eq_refl).
  - destruct (mod_named_directive 4300 (B "a") (B "k") (B "b") (B "X")
                [(PyStr (T "k"), PyBytes (B "X"))] PyNone
                eq_refl eq_refl eq_refl eq_refl) as (_ & H & _).
    exact (H eq_refl).
  - destruct (mod_named_directive 4300 (B "a") (B "k") (B "b") (B "X")
                [] (PyTuple [PyInt 1])
                eq_refl eq_refl eq_refl eq_refl) as (_ & _ & H).
    exact (H eq_refl).
Defined.

Lemma mod_lt35_always_raises_witness :
  octets.__mod__ 0 true (octets.mk (B "%b")) (PyTuple [PyBytes (B "x")])
  = Raise ValueError
  /\ octets.__mod__ 0 true (octets.mk (B "abc")) (PyTuple []) = Raise TypeError.
Proof.
  split.
  - destruct (mod_lt35_always_raises 0 (octets.mk (B "%b")) (octets.mk [])
                (PyTuple [PyBytes (B "x")]) eq_refl eq_refl) as (_ & H & _).
    apply H; [reflexivity|discriminate].
  - destruct (mod_lt35_always_raises 0 (octets.mk (B "abc")) (octets.mk [])
                (PyTuple []) eq_refl eq_refl) as (H & _ & _).
    apply H. now right.
Defined.

(** ** Representation *)

Section Representation.

Variable int_max_str_digits : N.

Lemma repr_value : forall self : octets.t,
  octets.__repr__ int_max_str_digits self
  = Return (T "octets(" ++ bytes_repr (octets._bytes self) ++ T ")").
Proof.
  intro self. reflexivity.
Qed.

(** Reading back one byte of a literal, under either quote. *)
Lemma read_repr_byte : forall (q : N) (x : byte) (rest : text),
  q = 39%N \/ q = 34%N ->
  read_literal_body q (repr_byte q (Byte.to_N x) ++ rest)
  = option_map (cons x) (read_literal_body q rest).
Proof.
  intros q x rest [-> | ->]; destruct x; reflexivity.
Qed.

Lemma read_repr_body : forall (q : N) (b : bytestr),
  q = 39%N \/ q = 34%N ->
  read_literal_body q (flat_map (repr_byte q) (charmap_decode b) ++ [q])
  = Some b.
Proof.
  intros q b Hq. unfold charmap_decode.
  induction b as [|x b IH].
  - destruct Hq as [-> | ->]; reflexivity.
  - cbn [map flat_map]. rewrite <- app_assoc, read_repr_byte by exact Hq.
    now rewrite IH.
Qed.

Lemma repr_quote_cases : forall b : bytestr,
  repr_quote b = 39%N \/ repr_quote b = 34%N.
Proof.
  intro b. unfold repr_quote.
  destruct (existsb (N.eqb 39) (charmap_decode b)
            && negb (existsb (N.eqb 34) (charmap_decode b))); auto.
Qed.

Lemma bytes_repr_shape : forall b : bytestr,
  bytes_repr b
  = 98%N :: repr_quote b
      :: (flat_map (repr_byte (repr_quote b)) (charmap_decode b)
          ++ [repr_quote b]).
Proof. reflexivity. Qed.

Lemma read_bytes_repr : forall b : bytestr,
  read_bytes_literal (bytes_repr b) = Some b.
Proof.
  intro b. rewrite bytes_repr_shape. unfold read_bytes_literal.
  pose proof (repr_quote_cases b) as Hq.
  assert (E : ((repr_quote b =? 39)%N || (repr_quote b =? 34)%N) = true)
    by (destruct Hq as [-> | ->]; reflexivity).
  rewrite E. now apply read_repr_body.
Qed.

Lemma repr_byte_printable : forall (q : N) (x : byte),
  q = 39%N \/ q = 34%N ->
  forallb printable (repr_byte q (Byte.to_N x)) = true.
Proof.
  intros q x [-> | ->]; destruct x; reflexivity.
Qed.

Lemma repr_body_printable : forall (q : N) (b : bytestr),
  q = 39%N \/ q = 34%N ->
  forallb printable (flat_map (repr_byte q) (charmap_decode b)) = true.
Proof.
  intros q b Hq. unfold charmap_decode.
  induction b as [|x b IH]; [reflexivity|].
  cbn [map flat_map]. rewrite forallb_app, repr_byte_printable by exact Hq.
  exact IH.
Qed.

Lemma bytes_repr_printable : forall b : bytestr,
  forallb printable (bytes_repr b) = true.
Proof.
  intro b. rewrite bytes_repr_shape. pose proof (repr_quote_cases b) as Hq.
  assert (Hqp : printable (repr_quote b) = true)
    by (destruct Hq as [-> | ->]; reflexivity).
  cbn [forallb]. rewrite Hqp, forallb_app, repr_body_printable by exact Hq.
  cbn [forallb]. rewrite Hqp. reflexivity.
Qed.

Example repr_abc :
  octets.__repr__ int_max_str_digits (octets.mk (B "abc"))
      = Return (T "octets(b'abc')").
Proof. reflexivity. Qed.

(** X21.  The representation of an instance is [octets(], a [bytes]
    literal and [)].  The literal is made of printable ASCII characters
    alone, and read as a literal it gives the bytes of the instance; so
    instances with different bytes have different representations. *)
Theorem repr_round_trip : forall self : octets.t,
  (exists lit : text,
     octets.__repr__ int_max_str_digits self
         = Return (T "octets(" ++ lit ++ T ")")
     /\ read_bytes_literal lit = Some (octets._bytes self)
     /\ forallb printable lit = true)
  /\ (forall other : octets.t,
      octets.__repr__ int_max_str_digits self
          = octets.__repr__ int_max_str_digits other ->
      octets._bytes self = octets._bytes other).
Proof.
  intro self. split.
  - exists (bytes_repr (octets._bytes self)).
    split; [apply repr_value|]. split;
      [apply read_bytes_repr | apply bytes_repr_printable].
  - intros other H. rewrite !repr_value in H.
    assert (H' : T "octets(" ++ bytes_repr (octets._bytes self) ++ T ")"
                 = T "octets(" ++ bytes_repr (octets._bytes other) ++ T ")")
      by congruence.
    clear H. rename H' into H.
    apply app_inv_head in H. apply app_inv_tail in H.
    apply (f_equal read_bytes_literal) in H.
    rewrite !read_bytes_repr in H. now injection H.
Qed.

End Representation.

Lemma repr_round_trip_witness :
  octets._bytes (octets.mk (B "it's")) = octets._bytes (octets.mk (B "it's")).
Proof.
  destruct (repr_round_trip 4300 (octets.mk (B "it's"))) as [_ H].
  exact (H (octets.mk (B "it's")) eq_refl).
Defined.

(** ** Python 2 and Python 3 side by side *)

(** [__getitem__] of Python 3 on a key that is an integer. *)
Lemma getitem_integer_key : forall (self : octets.t) (key : pyobj) (i : Z),
  int_value key = Some i ->
  octets.__getitem__ self key
  = (j <- sequence_index (Z.of_nat (List.length (octets._bytes self))) i ;;
     match nth_error (octets._bytes self) (Z.to_nat j) with
     | Some x => Return (PyBytes [x])
     | None => Raise IndexError
     end).
Proof.
  intros self key i Hi.
  set (len := Z.of_nat (List.length (octets._bytes self))).
  assert (E : octets.__getitem__ self key
              = (_ <- bytes_getitem (octets._bytes self) key ;;
                 bytes_getitem (octets._bytes self)
                   (PySlice key (if i =? -1 then PyNone else PyInt (i + 1))
                            PyNone))).
  { unfold octets.__getitem__. destruct key; cbn in Hi; try discriminate;
      cbn [int_value]; injection Hi as <-; reflexivity. }
  rewrite E. clear E.
  assert (E1 : bytes_getitem (octets._bytes self) key
               = (j <- sequence_index len i ;;
                  match nth_error (octets._bytes self) (Z.to_nat j) with
                  | Some x => Return (PyInt (Z.of_N (Byte.to_N x)))
                  | None => Raise IndexError
                  end)).
  { unfold bytes_getitem. destruct key; cbn in Hi; try discriminate;
      cbn [int_value]; injection Hi as <-; reflexivity. }
  rewrite E1. clear E1. unfold sequence_index. fold (from_end len i).
  destruct ((from_end len i <? 0) || (len <=? from_end len i)) eqn:Hb;
    [reflexivity|].
  apply orb_false_elim in Hb. destruct Hb as [H1 H2].
  apply Z.ltb_ge in H1. apply Z.leb_gt in H2. cbn [bind].
  destruct (nth_error_in_range (octets._bytes self) (from_end len i))
    as [x Hx]; [fold len; lia|].
  rewrite Hx. cbn [bind bytes_getitem].
  rewrite (sequence_slice_one _ _ _ (from_end len i) x Hx); [reflexivity|].
  apply slice_indices_item; [exact Hi|].
  fold len. unfold from_end in H1, H2. destruct (Z.ltb_spec i 0); lia.
Qed.

(** X22.  The two branches of the class agree on indexing: for every
    instance and every key, the [__getitem__] written for Python 3, which
    checks the index and then slices, does what plain indexing of a
    Python 2 [str] does, result and exception alike. *)
Theorem py2_getitem_agrees : forall (self : octets.t) (key : pyobj),
  octets_py2.__getitem__ self key = octets.__getitem__ self key.
Proof.
  intros self key. unfold octets_py2.__getitem__, py2_str_getitem.
  destruct (int_value key) as [i|] eqn:Hi.
  - rewrite (getitem_integer_key self key i Hi).
    destruct key; cbn in Hi; try discriminate; reflexivity.
  - destruct key; cbn in Hi; try discriminate; reflexivity.
Qed.

Lemma py2_next_yields : forall (pre suf : bytestr) (x : byte),
  octets_py2.next (octets_py2.mkiter (pre ++ x :: suf)
                     (Z.of_nat (List.length pre)))
  = Return (PyBytes [x],
            octets_py2.mkiter (pre ++ x :: suf)
              (Z.of_nat (List.length pre) + 1)).
Proof.
  intros pre suf x. unfold octets_py2.next, py2_str_getitem, sequence_index.
  cbn [octets_py2.it_seq octets_py2.it_index int_value].
  destruct (Z.ltb_spec (Z.of_nat (List.length pre)) 0); [lia|].
  assert (Hb : ((Z.of_nat (List.length pre) <? 0)
                || (Z.of_nat (List.length (pre ++ x :: suf))
                    <=? Z.of_nat (List.length pre))) = false).
  { apply orb_false_intro; [apply Z.ltb_ge; lia|].
    apply Z.leb_gt. rewrite length_app. cbn [List.length]. lia. }
  rewrite Hb. cbn [bind].
  rewrite Nat2Z.id, nth_error_app2 by lia. now rewrite Nat.sub_diag.
Qed.

Lemma py2_next_stops : forall b : bytestr,
  octets_py2.next (octets_py2.mkiter b (Z.of_nat (List.length b)))
  = Raise StopIteration.
Proof.
  intro b. unfold octets_py2.next, py2_str_getitem, sequence_index.
  cbn [octets_py2.it_seq octets_py2.it_index int_value].
  destruct (Z.ltb_spec (Z.of_nat (List.length b)) 0); [lia|].
  assert (Hb : ((Z.of_nat (List.length b) <? 0)
                || (Z.of_nat (List.length b) <=? Z.of_nat (List.length b)))
               = true).
  { apply orb_true_iff. right. apply Z.leb_le. lia. }
  now rewrite Hb.
Qed.

Lemma py2_drain_from : forall (suf pre : bytestr) (fuel : nat),
  (List.length suf < fuel)%nat ->
  octets_py2.drain fuel (octets_py2.mkiter (pre ++ suf)
                           (Z.of_nat (List.length pre)))
  = Return (map (fun x => PyBytes [x]) suf).
Proof.
  induction suf as [|x suf IH]; intros pre fuel Hf;
    (destruct fuel as [|fuel]; [inversion Hf|]); cbn [octets_py2.drain map].
  - rewrite app_nil_r. now rewrite py2_next_stops.
  - rewrite py2_next_yields.
    replace (Z.of_nat (List.length pre) + 1)
      with (Z.of_nat (List.length (pre ++ [x])))
      by (rewrite length_app; cbn [List.length]; lia).
    replace (pre ++ x :: suf) with ((pre ++ [x]) ++ suf)
      by (now rewrite <- app_assoc).
    rewrite IH; [reflexivity|cbn [List.length] in Hf; lia].
Qed.

(** X23.  The two branches agree on iteration: [iter(self._bytes)] on a
    Python 2 [str] and the generator written for Python 3 yield the same
    elements, the one-byte strings of the content in order. *)
Theorem py2_iter_agrees : forall self : octets.t,
  octets_py2.list_of (octets_py2.__iter__ self)
  = octets.list_of (octets.__iter__ self)
  /\ octets_py2.list_of (octets_py2.__iter__ self)
     = Return (map (fun x => PyBytes [x]) (octets._bytes self)).
Proof.
  intro self.
  assert (E : octets_py2.list_of (octets_py2.__iter__ self)
              = Return (map (fun x => PyBytes [x]) (octets._bytes self))).
  { unfold octets_py2.list_of, octets_py2.__iter__.
    cbn [octets_py2.it_seq].
    apply (py2_drain_from (octets._bytes self) []). lia. }
  split; [|exact E]. rewrite E. symmetry. apply list_of_iter.
Qed.

(** ** The pattern [_BYTES_FORMAT] *)

Ltac split_literal :=
  repeat match goal with
         | |- context [match ?p with xI _ => _ | xO _ => _ | xH => _ end] =>
             is_var p; destruct p
         | |- context [match ?n with N0 => _ | Npos _ => _ end] =>
             is_var n; destruct n
         end.

(** The match at the head of a string, with the characters tested one by
    one. *)
Lemma match_bytes_format_tests : forall s : text,
  match_bytes_format s
  = match s with
    | c0 :: c1 :: tl =>
        if (c0 =? 37)%N then
          if (c1 =? 98)%N then Some 2%nat
          else if (c1 =? 40)%N then
            match key_run tl with
            | (S n, c2 :: c3 :: _) =>
                if (c2 =? 41)%N && (c3 =? 98)%N then Some (n + 5)%nat else None
            | _ => None
            end
          else None
        else None
    | _ => None
    end.
Proof.
  intros [|c0 [|c1 tl]]; unfold match_bytes_format.
  - reflexivity.
  - split_literal; reflexivity.
  - destruct (key_run tl) as [[|n] [|c2 [|c3 r]]];
      split_literal; reflexivity.
Qed.

Lemma key_run_app : forall (key : text) (c : N) (rest : text),
  forallb key_char key = true -> key_char c = false ->
  key_run (key ++ c :: rest) = (List.length key, c :: rest).
Proof.
  induction key as [|k key IH]; intros c rest Hk Hc.
  - cbn [app key_run List.length]. now rewrite Hc.
  - cbn [forallb] in Hk. apply andb_prop in Hk. destruct Hk as [Hk1 Hk2].
    cbn [app key_run List.length]. rewrite Hk1, (IH c rest Hk2 Hc). reflexivity.
Qed.

Lemma key_run_split : forall (s : text) (n : nat) (r : text),
  key_run s = (n, r) ->
  exists key : text,
    s = key ++ r /\ List.length key = n /\ forallb key_char key = true.
Proof.
  induction s as [|c s IH]; intros n r H; cbn [key_run] in H.
  - injection H as <- <-. now exists [].
  - destruct (key_char c) eqn:Hc.
    + destruct (key_run s) as [m r'] eqn:E. injection H as <- <-.
      destruct (IH m r' eq_refl) as (key & -> & Hlen & Hk).
      exists (c :: key). cbn [app List.length forallb].
      now rewrite Hc, Hk, Hlen.
    + injection H as <- <-. now exists [].
Qed.

Example pattern_matches_plain : match_bytes_format (T "%b rest") = Some 2%nat.
Proof. reflexivity. Qed.

Example pattern_matches_key : match_bytes_format (T "%(path)b") = Some 8%nat.
Proof. reflexivity. Qed.

(** A key with one of the conversion letters in it, here the [e] of
    [name], is not matched. *)
Example pattern_misses_conversion_letter :
  match_bytes_format (T "%(name)b") = None.
Proof. reflexivity. Qed.

(** X24.  What [_BYTES_FORMAT] matches at the head of a string: [%b],
    or [%(key)b] with a key that is not empty and holds none of the
    characters [)diouxXeEfFgGcrs%]; nothing else.  The length of the
    match is two, or the length of the key and four. *)
Theorem bytes_format_matches : forall (s : text) (n : nat),
  match_bytes_format s = Some n
  <-> (exists rest : text, s = T "%b" ++ rest /\ n = 2%nat)
      \/ (exists key rest : text,
            key <> [] /\ forallb key_char key = true
            /\ s = T "%(" ++ key ++ T ")b" ++ rest
            /\ n = (List.length key + 4)%nat).
Proof.
  intros s n. rewrite match_bytes_format_tests. split.
  - destruct s as [|c0 [|c1 tl]]; try discriminate.
    destruct (N.eqb_spec c0 37) as [->|]; [|discriminate].
    destruct (N.eqb_spec c1 98) as [->|].
    { intros [= <-]. left. now exists tl. }
    destruct (N.eqb_spec c1 40) as [->|]; [|discriminate].
    destruct (key_run tl) as [[|m] r] eqn:E; [destruct r as [|? [|? ?]];
                                               discriminate|].
    destruct r as [|c2 [|c3 r]]; try discriminate.
    destruct (N.eqb_spec c2 41) as [->|]; [|discriminate].
    destruct (N.eqb_spec c3 98) as [->|]; [|discriminate].
    cbn [andb]. intros [= <-]. right.
    destruct (key_run_split tl (S m) _ E) as (key & -> & Hlen & Hk).
    exists key, r. split; [|split; [exact Hk|split; [reflexivity|lia]]].
    intros ->. discriminate Hlen.
  - intros [(rest & -> & ->) | (key & rest & Hne & Hk & -> & ->)].
    + reflexivity.
    + change (T "%(" ++ key ++ T ")b" ++ rest)
        with (37%N :: 40%N :: (key ++ 41%N :: 98%N :: rest)).
      cbn [N.eqb Pos.eqb]. rewrite (key_run_app key 41 (98%N :: rest) Hk eq_refl).
      destruct key as [|k key]; [congruence|].
      cbn [List.length N.eqb Pos.eqb andb]. f_equal. lia.
Qed.

Lemma bytes_format_matches_witness :
  match_bytes_format (T "%(path)b and more") = Some 8%nat.
Proof.
  apply bytes_format_matches. right.
  exists (T "path"), (T " and more").
  split; [discriminate|]. split; [reflexivity|]. split; reflexivity.
Defined.
